(** * Hotel operations core: room status, booking lifecycle, ledger, night audit

    A shallow embedding of the service layer of the property-management
    system (app/hms_room_service.py, app/hms_housekeeping_service.py,
    app/hms_booking_service.py, app/models.py and the night-audit route of
    app/hms/routes.py), followed by the properties proved about it.

    Conventions of the embedding:
    - a [Decimal] is an exact rational [Q]; Python's [==], [<], [>] on
      decimals are [Qeq], [Qlt] (two decimals of the same value may differ
      as terms, as [Decimal('2.0')] and [Decimal('2.00')] do);
    - a [date] is its day number and a [datetime] a clock reading, both [Z];
    - a status, a name or a message is a [string], as in the source;
    - a mapped object is its row; a mutation of the object is written back
      to the table it lives in, by primary key. *)

From Stdlib Require Import ZArith QArith Qround Qabs Lqa Lia.
From stdpp Require Import base option list strings gmap pretty.

Local Open Scope string_scope.
Local Open Scope Z_scope.

(** ** Python values *)

Module Py.

(** A call either returns a value or raises; the text is the exception. *)
Inductive outcome (A : Type) : Type :=
  | Returned (a : A)
  | Raised (exn : string).
Arguments Returned {A} a.
Arguments Raised {A} exn.

(** [d.get(k, [])] on a dict whose values are lists. *)
Definition get_list {K : Type} `{Countable K} {V : Type}
    (d : gmap K (list V)) (k : K) : list V :=
  default [] (d !! k).

(** [x in xs] on a list of strings. *)
Definition contains (x : string) (xs : list string) : bool :=
  bool_decide (x ∈ xs).

(** [str(n)] for an int. *)
Definition str_int (n : Z) : string := pretty n.

(** [sum(xs)] over decimals: the built-in starts from 0 and adds from the
    left. *)
Definition sum (xs : list Q) : Q := fold_left Qplus xs 0%Q.

(** [abs(x)] and the tests [x > 0], [x < 0], [x >= y] on decimals. *)
Definition abs (x : Q) : Q := Qabs x.
Definition gt0 (x : Q) : bool := if Qlt_le_dec 0 x then true else false.
Definition lt0 (x : Q) : bool := if Qlt_le_dec x 0 then true else false.

(** Truth value of an optional int: [None] and [0] are falsy. *)
Definition truthy_id (o : option Z) : bool :=
  match o with
  | Some n => bool_decide (n ≠ 0)
  | None => false
  end.

(** [x or Decimal('0')]: a zero decimal is falsy. *)
Definition or_zero (x : Q) : Q := if Qeq_bool x 0 then 0%Q else x.

(** [d.quantize(Decimal('0.01'))] under the default context: the nearest
    multiple of 0.01, ties to the even neighbour. *)
Definition quantize_cents (x : Q) : Q :=
  let scaled := (x * 100)%Q in
  let lo := Qfloor scaled in
  let rest := (scaled - inject_Z lo)%Q in
  let n :=
    match (rest ?= 1 # 2)%Q with
    | Lt => lo
    | Gt => lo + 1
    | Eq => if Z.even lo then lo else lo + 1
    end in
  (inject_Z n / 100)%Q.

(** What the operations take from Python's libraries without the embedding
    fixing it: how decimals and dates print, and how a decimal quotient is
    rounded to the context precision.  No operation below branches on any
    of these. *)
Class Lib := {
  (** [x / n] for a decimal [x] and an int [n] *)
  decimal_div : Q → Z → Q;
  (** [str(d)], also [f"{d}"], for a decimal *)
  str_decimal : Q → string;
  (** [f"{d:.2f}"] *)
  format_2f : Q → string;
  (** [f"{d:,.2f}"] *)
  format_comma_2f : Q → string;
  (** [str(d)] for a date *)
  str_date : Z → string;
  (** [d.strftime(fmt)] *)
  strftime : Z → string → string
}.

(** The clock and the request context an operation reads. *)
Record Env := {
  (** [date.today()] *)
  today : Z;
  (** [datetime.utcnow()] *)
  utcnow : Z;
  (** [datetime.now()] *)
  now : Z
}.

End Py.

(** ** app/models.py

    Each class is a record of the columns that the operations below read
    or write; a relationship is a lookup in the store (see [Store]). *)

Module RoomType.
Record t := { id : Z; base_price : Q }.
End RoomType.

Module Room.
Record t := {
  id : Z;
  hotel_id : Z;
  room_type_id : Z;
  room_number : string;
  status : string
}.
Definition with_status (s : string) (r : t) : t :=
  {| id := id r; hotel_id := hotel_id r; room_type_id := room_type_id r;
     room_number := room_number r; status := s |}.
End Room.

Module RoomStatusHistory.
Record t := {
  id : Z;
  hotel_id : Z;
  room_id : Z;
  old_status : string;
  new_status : string
}.
End RoomStatusHistory.

Module Guest.
Record t := { id : Z; name : string; phone : string; email : option string }.
End Guest.

Module Booking.
Record t := {
  id : Z;
  hotel_id : Z;
  guest_id : option Z;
  guest_name : string;
  guest_email : string;
  guest_phone : string;
  room_id : option Z;
  check_in_date : Z;
  check_out_date : Z;
  check_in_time_actual : option Z;
  check_out_time_actual : option Z;
  status : string;
  source : string;
  booking_reference : string;
  adults : Z;
  children : Z;
  total_amount : Q;
  amount_paid : Q;
  balance : Q;
  special_requests : string;
  cancelled_at : option Z;
  cancellation_reason : option string
}.

Definition with_status (s : string) (b : t) : t :=
  {| id := id b; hotel_id := hotel_id b; guest_id := guest_id b;
     guest_name := guest_name b; guest_email := guest_email b;
     guest_phone := guest_phone b; room_id := room_id b;
     check_in_date := check_in_date b; check_out_date := check_out_date b;
     check_in_time_actual := check_in_time_actual b;
     check_out_time_actual := check_out_time_actual b;
     status := s; source := source b;
     booking_reference := booking_reference b;
     adults := adults b; children := children b;
     total_amount := total_amount b; amount_paid := amount_paid b;
     balance := balance b; special_requests := special_requests b;
     cancelled_at := cancelled_at b;
     cancellation_reason := cancellation_reason b |}.

Definition with_check_in_time_actual (v : option Z) (b : t) : t :=
  {| id := id b; hotel_id := hotel_id b; guest_id := guest_id b;
     guest_name := guest_name b; guest_email := guest_email b;
     guest_phone := guest_phone b; room_id := room_id b;
     check_in_date := check_in_date b; check_out_date := check_out_date b;
     check_in_time_actual := v;
     check_out_time_actual := check_out_time_actual b;
     status := status b; source := source b;
     booking_reference := booking_reference b;
     adults := adults b; children := children b;
     total_amount := total_amount b; amount_paid := amount_paid b;
     balance := balance b; special_requests := special_requests b;
     cancelled_at := cancelled_at b;
     cancellation_reason := cancellation_reason b |}.

Definition with_check_out_time_actual (v : option Z) (b : t) : t :=
  {| id := id b; hotel_id := hotel_id b; guest_id := guest_id b;
     guest_name := guest_name b; guest_email := guest_email b;
     guest_phone := guest_phone b; room_id := room_id b;
     check_in_date := check_in_date b; check_out_date := check_out_date b;
     check_in_time_actual := check_in_time_actual b;
     check_out_time_actual := v;
     status := status b; source := source b;
     booking_reference := booking_reference b;
     adults := adults b; children := children b;
     total_amount := total_amount b; amount_paid := amount_paid b;
     balance := balance b; special_requests := special_requests b;
     cancelled_at := cancelled_at b;
     cancellation_reason := cancellation_reason b |}.

Definition with_cancelled_at (v : option Z) (b : t) : t :=
  {| id := id b; hotel_id := hotel_id b; guest_id := guest_id b;
     guest_name := guest_name b; guest_email := guest_email b;
     guest_phone := guest_phone b; room_id := room_id b;
     check_in_date := check_in_date b; check_out_date := check_out_date b;
     check_in_time_actual := check_in_time_actual b;
     check_out_time_actual := check_out_time_actual b;
     status := status b; source := source b;
     booking_reference := booking_reference b;
     adults := adults b; children := children b;
     total_amount := total_amount b; amount_paid := amount_paid b;
     balance := balance b; special_requests := special_requests b;
     cancelled_at := v;
     cancellation_reason := cancellation_reason b |}.

Definition with_cancellation_reason (v : option string) (b : t) : t :=
  {| id := id b; hotel_id := hotel_id b; guest_id := guest_id b;
     guest_name := guest_name b; guest_email := guest_email b;
     guest_phone := guest_phone b; room_id := room_id b;
     check_in_date := check_in_date b; check_out_date := check_out_date b;
     check_in_time_actual := check_in_time_actual b;
     check_out_time_actual := check_out_time_actual b;
     status := status b; source := source b;
     booking_reference := booking_reference b;
     adults := adults b; children := children b;
     total_amount := total_amount b; amount_paid := amount_paid b;
     balance := balance b; special_requests := special_requests b;
     cancelled_at := cancelled_at b;
     cancellation_reason := v |}.

(** The two money columns that [calculate_balance] and the night audit
    assign. *)
Definition with_amounts (paid bal : Q) (b : t) : t :=
  {| id := id b; hotel_id := hotel_id b; guest_id := guest_id b;
     guest_name := guest_name b; guest_email := guest_email b;
     guest_phone := guest_phone b; room_id := room_id b;
     check_in_date := check_in_date b; check_out_date := check_out_date b;
     check_in_time_actual := check_in_time_actual b;
     check_out_time_actual := check_out_time_actual b;
     status := status b; source := source b;
     booking_reference := booking_reference b;
     adults := adults b; children := children b;
     total_amount := total_amount b; amount_paid := paid;
     balance := bal; special_requests := special_requests b;
     cancelled_at := cancelled_at b;
     cancellation_reason := cancellation_reason b |}.
End Booking.

Module Invoice.
Record t := {
  id : Z;
  hotel_id : Z;
  booking_id : Z;
  invoice_number : string;
  total : Q;
  status : string
}.
Definition with_total_status (v : Q) (s : string) (i : t) : t :=
  {| id := id i; hotel_id := hotel_id i; booking_id := booking_id i;
     invoice_number := invoice_number i; total := v; status := s |}.
End Invoice.

Module Payment.
Record t := {
  id : Z;
  hotel_id : Z;
  booking_id : Z;
  invoice_id : option Z;
  amount : Q;
  payment_method : string;
  notes : option string;
  deleted_at : option Z
}.
End Payment.

Module ChartOfAccount.
Record t := { id : Z; hotel_id : Z; name : string; type : string }.
End ChartOfAccount.

Module JournalEntry.
Record t := { id : Z; hotel_id : Z; reference : option string; date : Z }.
End JournalEntry.

Module JournalLine.
Record t := {
  id : Z;
  journal_entry_id : Z;
  account_id : Z;
  debit : Q;
  credit : Q
}.
End JournalLine.

Module BusinessDate.
Record t := {
  id : Z;
  hotel_id : Z;
  current_business_date : Z;
  is_closed : bool;
  updated_at : option Z
}.
End BusinessDate.

Module NightAuditLog.
(** The JSON document stored in [summary]. *)
Record summary_t := {
  unpaid_bookings : Z;
  pending_orders : Z;
  checked_in_guests : Z;
  rooms_charged : Z;
  revenue_posted : Q;
  warnings : list string;
  summary_errors : list string
}.
Record t := {
  id : Z;
  hotel_id : Z;
  audit_date : Z;
  run_by : Z;
  started_at : Z;
  completed_at : option Z;
  status : string;
  summary : option summary_t;
  errors : option string;
  notes : option string
}.
End NightAuditLog.

Module HousekeepingTask.
Record t := {
  id : Z;
  hotel_id : Z;
  room_id : Z;
  task_type : string;
  priority : string;
  status : string;
  notes : string
}.
End HousekeepingTask.

Module MaintenanceIssue.
Record t := {
  id : Z;
  hotel_id : Z;
  room_id : option Z;
  issue_type : string;
  priority : string;
  status : string
}.
End MaintenanceIssue.

Module RoomServiceOrder.
Record t := { id : Z; hotel_id : Z; room_id : option Z; status : string }.
End RoomServiceOrder.

Module RestaurantOrder.
Record t := { id : Z; hotel_id : Z; status : string }.
End RestaurantOrder.

Module Notification.
Record t := {
  id : Z;
  user_id : Z;
  hotel_id : Z;
  type : string;
  title : string;
  message : string;
  link : string;
  color : string
}.
End Notification.

Module User.
Record t := { id : Z; hotel_id : option Z }.
End User.

(** ** The database session

    Modelled from the spec: [db] (app/extensions.py), the SQLAlchemy session
    and model base class, is not among the sources.  §6 of the
    specification gives the persisted layout (one table per class, rows
    with the declared columns) and §5 the unit of work (a step commits or
    rolls back as a whole).  Accordingly a constructor call builds a row from
    the declared columns (a keyword without a column, such as [description]
    on a journal entry or [payment_id] on a journal line, leaves no trace),
    [add] followed by a flush appends the row under the next primary key,
    a query reads the working tables in row order, [commit] makes the
    working tables durable and [rollback] returns to the durable ones. *)

Module Store.

Record t := {
  room_types : list RoomType.t;
  rooms : list Room.t;
  room_status_history : list RoomStatusHistory.t;
  bookings : list Booking.t;
  invoices : list Invoice.t;
  payments : list Payment.t;
  chart_of_accounts : list ChartOfAccount.t;
  journal_entries : list JournalEntry.t;
  journal_lines : list JournalLine.t;
  business_dates : list BusinessDate.t;
  night_audit_logs : list NightAuditLog.t;
  housekeeping_tasks : list HousekeepingTask.t;
  maintenance_issues : list MaintenanceIssue.t;
  room_service_orders : list RoomServiceOrder.t;
  restaurant_orders : list RestaurantOrder.t;
  notifications : list Notification.t;
  users : list User.t
}.

Definition with_rooms (v : list Room.t) (s : t) : t :=
  {| room_types := room_types s; rooms := v;
     room_status_history := room_status_history s; bookings := bookings s;
     invoices := invoices s; payments := payments s;
     chart_of_accounts := chart_of_accounts s;
     journal_entries := journal_entries s; journal_lines := journal_lines s;
     business_dates := business_dates s;
     night_audit_logs := night_audit_logs s;
     housekeeping_tasks := housekeeping_tasks s;
     maintenance_issues := maintenance_issues s;
     room_service_orders := room_service_orders s;
     restaurant_orders := restaurant_orders s;
     notifications := notifications s; users := users s |}.

Definition with_room_status_history (v : list RoomStatusHistory.t) (s : t) : t :=
  {| room_types := room_types s; rooms := rooms s;
     room_status_history := v; bookings := bookings s;
     invoices := invoices s; payments := payments s;
     chart_of_accounts := chart_of_accounts s;
     journal_entries := journal_entries s; journal_lines := journal_lines s;
     business_dates := business_dates s;
     night_audit_logs := night_audit_logs s;
     housekeeping_tasks := housekeeping_tasks s;
     maintenance_issues := maintenance_issues s;
     room_service_orders := room_service_orders s;
     restaurant_orders := restaurant_orders s;
     notifications := notifications s; users := users s |}.

Definition with_bookings (v : list Booking.t) (s : t) : t :=
  {| room_types := room_types s; rooms := rooms s;
     room_status_history := room_status_history s; bookings := v;
     invoices := invoices s; payments := payments s;
     chart_of_accounts := chart_of_accounts s;
     journal_entries := journal_entries s; journal_lines := journal_lines s;
     business_dates := business_dates s;
     night_audit_logs := night_audit_logs s;
     housekeeping_tasks := housekeeping_tasks s;
     maintenance_issues := maintenance_issues s;
     room_service_orders := room_service_orders s;
     restaurant_orders := restaurant_orders s;
     notifications := notifications s; users := users s |}.

Definition with_invoices (v : list Invoice.t) (s : t) : t :=
  {| room_types := room_types s; rooms := rooms s;
     room_status_history := room_status_history s; bookings := bookings s;
     invoices := v; payments := payments s;
     chart_of_accounts := chart_of_accounts s;
     journal_entries := journal_entries s; journal_lines := journal_lines s;
     business_dates := business_dates s;
     night_audit_logs := night_audit_logs s;
     housekeeping_tasks := housekeeping_tasks s;
     maintenance_issues := maintenance_issues s;
     room_service_orders := room_service_orders s;
     restaurant_orders := restaurant_orders s;
     notifications := notifications s; users := users s |}.

Definition with_payments (v : list Payment.t) (s : t) : t :=
  {| room_types := room_types s; rooms := rooms s;
     room_status_history := room_status_history s; bookings := bookings s;
     invoices := invoices s; payments := v;
     chart_of_accounts := chart_of_accounts s;
     journal_entries := journal_entries s; journal_lines := journal_lines s;
     business_dates := business_dates s;
     night_audit_logs := night_audit_logs s;
     housekeeping_tasks := housekeeping_tasks s;
     maintenance_issues := maintenance_issues s;
     room_service_orders := room_service_orders s;
     restaurant_orders := restaurant_orders s;
     notifications := notifications s; users := users s |}.

Definition with_chart_of_accounts (v : list ChartOfAccount.t) (s : t) : t :=
  {| room_types := room_types s; rooms := rooms s;
     room_status_history := room_status_history s; bookings := bookings s;
     invoices := invoices s; payments := payments s;
     chart_of_accounts := v;
     journal_entries := journal_entries s; journal_lines := journal_lines s;
     business_dates := business_dates s;
     night_audit_logs := night_audit_logs s;
     housekeeping_tasks := housekeeping_tasks s;
     maintenance_issues := maintenance_issues s;
     room_service_orders := room_service_orders s;
     restaurant_orders := restaurant_orders s;
     notifications := notifications s; users := users s |}.

Definition with_journal_entries (v : list JournalEntry.t) (s : t) : t :=
  {| room_types := room_types s; rooms := rooms s;
     room_status_history := room_status_history s; bookings := bookings s;
     invoices := invoices s; payments := payments s;
     chart_of_accounts := chart_of_accounts s;
     journal_entries := v; journal_lines := journal_lines s;
     business_dates := business_dates s;
     night_audit_logs := night_audit_logs s;
     housekeeping_tasks := housekeeping_tasks s;
     maintenance_issues := maintenance_issues s;
     room_service_orders := room_service_orders s;
     restaurant_orders := restaurant_orders s;
     notifications := notifications s; users := users s |}.

Definition with_journal_lines (v : list JournalLine.t) (s : t) : t :=
  {| room_types := room_types s; rooms := rooms s;
     room_status_history := room_status_history s; bookings := bookings s;
     invoices := invoices s; payments := payments s;
     chart_of_accounts := chart_of_accounts s;
     journal_entries := journal_entries s; journal_lines := v;
     business_dates := business_dates s;
     night_audit_logs := night_audit_logs s;
     housekeeping_tasks := housekeeping_tasks s;
     maintenance_issues := maintenance_issues s;
     room_service_orders := room_service_orders s;
     restaurant_orders := restaurant_orders s;
     notifications := notifications s; users := users s |}.

Definition with_business_dates (v : list BusinessDate.t) (s : t) : t :=
  {| room_types := room_types s; rooms := rooms s;
     room_status_history := room_status_history s; bookings := bookings s;
     invoices := invoices s; payments := payments s;
     chart_of_accounts := chart_of_accounts s;
     journal_entries := journal_entries s; journal_lines := journal_lines s;
     business_dates := v;
     night_audit_logs := night_audit_logs s;
     housekeeping_tasks := housekeeping_tasks s;
     maintenance_issues := maintenance_issues s;
     room_service_orders := room_service_orders s;
     restaurant_orders := restaurant_orders s;
     notifications := notifications s; users := users s |}.

Definition with_night_audit_logs (v : list NightAuditLog.t) (s : t) : t :=
  {| room_types := room_types s; rooms := rooms s;
     room_status_history := room_status_history s; bookings := bookings s;
     invoices := invoices s; payments := payments s;
     chart_of_accounts := chart_of_accounts s;
     journal_entries := journal_entries s; journal_lines := journal_lines s;
     business_dates := business_dates s;
     night_audit_logs := v;
     housekeeping_tasks := housekeeping_tasks s;
     maintenance_issues := maintenance_issues s;
     room_service_orders := room_service_orders s;
     restaurant_orders := restaurant_orders s;
     notifications := notifications s; users := users s |}.

Definition with_housekeeping_tasks (v : list HousekeepingTask.t) (s : t) : t :=
  {| room_types := room_types s; rooms := rooms s;
     room_status_history := room_status_history s; bookings := bookings s;
     invoices := invoices s; payments := payments s;
     chart_of_accounts := chart_of_accounts s;
     journal_entries := journal_entries s; journal_lines := journal_lines s;
     business_dates := business_dates s;
     night_audit_logs := night_audit_logs s;
     housekeeping_tasks := v;
     maintenance_issues := maintenance_issues s;
     room_service_orders := room_service_orders s;
     restaurant_orders := restaurant_orders s;
     notifications := notifications s; users := users s |}.

Definition with_notifications (v : list Notification.t) (s : t) : t :=
  {| room_types := room_types s; rooms := rooms s;
     room_status_history := room_status_history s; bookings := bookings s;
     invoices := invoices s; payments := payments s;
     chart_of_accounts := chart_of_accounts s;
     journal_entries := journal_entries s; journal_lines := journal_lines s;
     business_dates := business_dates s;
     night_audit_logs := night_audit_logs s;
     housekeeping_tasks := housekeeping_tasks s;
     maintenance_issues := maintenance_issues s;
     room_service_orders := room_service_orders s;
     restaurant_orders := restaurant_orders s;
     notifications := v; users := users s |}.

(** The primary key the next flushed row of a table receives. *)
Definition next_id (ids : list Z) : Z := 1 + foldr Z.max 0 ids.

(** Writing a mutated object back: the row with its key is replaced. *)
Definition put {A : Type} (key : A → Z) (x : A) (rows : list A) : list A :=
  map (λ y, if decide (key y = key x) then x else y) rows.

Definition put_room (r : Room.t) (s : t) : t :=
  with_rooms (put Room.id r (rooms s)) s.
Definition put_booking (b : Booking.t) (s : t) : t :=
  with_bookings (put Booking.id b (bookings s)) s.
Definition put_invoice (i : Invoice.t) (s : t) : t :=
  with_invoices (put Invoice.id i (invoices s)) s.
Definition put_business_date (d : BusinessDate.t) (s : t) : t :=
  with_business_dates (put BusinessDate.id d (business_dates s)) s.
Definition put_night_audit_log (l : NightAuditLog.t) (s : t) : t :=
  with_night_audit_logs (put NightAuditLog.id l (night_audit_logs s)) s.

(** Relationships. *)

(** [booking.room] *)
Definition booking_room (s : t) (b : Booking.t) : option Room.t :=
  match Booking.room_id b with
  | Some rid => find (λ r, bool_decide (Room.id r = rid)) (rooms s)
  | None => None
  end.

(** [room.room_type] *)
Definition room_room_type (s : t) (r : Room.t) : option RoomType.t :=
  find (λ rt, bool_decide (RoomType.id rt = Room.room_type_id r)) (room_types s).

(** [booking.invoice] (one invoice per booking, [uselist=False]) *)
Definition booking_invoice (s : t) (b : Booking.t) : option Invoice.t :=
  find (λ i, bool_decide (Invoice.booking_id i = Booking.id b)) (invoices s).

(** [booking.payments] *)
Definition booking_payments (s : t) (b : Booking.t) : list Payment.t :=
  filter (λ p, Payment.booking_id p = Booking.id b) (payments s).


(** [entry.lines] *)
Definition entry_lines (s : t) (e : JournalEntry.t) : list JournalLine.t :=
  filter (λ l, JournalLine.journal_entry_id l = JournalEntry.id e)
         (journal_lines s).

End Store.

Module Session.
Record t := { committed : Store.t; working : Store.t }.

(** [db.session.commit()] *)
Definition commit (s : t) : t :=
  {| committed := working s; working := working s |}.

(** [db.session.rollback()] *)
Definition rollback (s : t) : t :=
  {| committed := committed s; working := committed s |}.

Definition with_working (w : Store.t) (s : t) : t :=
  {| committed := committed s; working := w |}.
End Session.

(** Booking.calculate_balance (app/models.py): recompute the balance from
    the payments of the booking.  [self.payments] is a query object, which
    is always truthy, so the sum is always taken. *)
Definition calculate_balance (s : Store.t) (b : Booking.t)
    : Store.t * Booking.t * Q :=
  let total_paid := Py.sum (map Payment.amount (Store.booking_payments s b)) in
  let b' := Booking.with_amounts total_paid
              (Booking.total_amount b - total_paid)%Q b in
  (Store.put_booking b' s, b', Booking.balance b').

(** ** Queries and inserts on the accounting tables that several services
    share *)

Module Ledger.

(** [ChartOfAccount.query.filter_by(hotel_id=.., type=.., name=..).first()] *)
Definition account_by_type_name (s : Store.t) (hotel_id : Z)
    (type name : string) : option ChartOfAccount.t :=
  find (λ a,
          bool_decide (ChartOfAccount.hotel_id a = hotel_id)
          && bool_decide (ChartOfAccount.type a = type)
          && bool_decide (ChartOfAccount.name a = name))
       (Store.chart_of_accounts s).

(** [ChartOfAccount.query.filter_by(hotel_id=.., name=..).first()] *)
Definition account_by_name (s : Store.t) (hotel_id : Z) (name : string)
    : option ChartOfAccount.t :=
  find (λ a,
          bool_decide (ChartOfAccount.hotel_id a = hotel_id)
          && bool_decide (ChartOfAccount.name a = name))
       (Store.chart_of_accounts s).

(** A new account, added and flushed. *)
Definition add_account (s : Store.t) (hotel_id : Z) (name type : string)
    : Store.t * ChartOfAccount.t :=
  let a :=
    {| ChartOfAccount.id :=
         Store.next_id (map ChartOfAccount.id (Store.chart_of_accounts s));
       ChartOfAccount.hotel_id := hotel_id;
       ChartOfAccount.name := name;
       ChartOfAccount.type := type |} in
  (Store.with_chart_of_accounts (Store.chart_of_accounts s ++ [a]) s, a).

(** A new journal entry, added and flushed: it receives the next primary
    key. *)
Definition add_journal_entry (s : Store.t) (hotel_id : Z)
    (reference : option string) (date : Z) : Store.t * JournalEntry.t :=
  let e :=
    {| JournalEntry.id :=
         Store.next_id (map JournalEntry.id (Store.journal_entries s));
       JournalEntry.hotel_id := hotel_id;
       JournalEntry.reference := reference;
       JournalEntry.date := date |} in
  (Store.with_journal_entries (Store.journal_entries s ++ [e]) s, e).

(** A new journal line. *)
Definition add_journal_line (s : Store.t) (journal_entry_id account_id : Z)
    (debit credit : Q) : Store.t :=
  let l :=
    {| JournalLine.id :=
         Store.next_id (map JournalLine.id (Store.journal_lines s));
       JournalLine.journal_entry_id := journal_entry_id;
       JournalLine.account_id := account_id;
       JournalLine.debit := debit;
       JournalLine.credit := credit |} in
  Store.with_journal_lines (Store.journal_lines s ++ [l]) s.

(** A new payment row. *)
Definition add_payment (s : Store.t) (hotel_id : Z) (invoice_id : option Z)
    (booking_id : Z) (amount : Q) (payment_method : string)
    (notes : option string) : Store.t * Payment.t :=
  let p :=
    {| Payment.id := Store.next_id (map Payment.id (Store.payments s));
       Payment.hotel_id := hotel_id;
       Payment.booking_id := booking_id;
       Payment.invoice_id := invoice_id;
       Payment.amount := amount;
       Payment.payment_method := payment_method;
       Payment.notes := notes;
       Payment.deleted_at := None |} in
  (Store.with_payments (Store.payments s ++ [p]) s, p).

End Ledger.

(** ** app/hms_housekeeping_service.py *)

Module Housekeeping.

Definition VALID_STATUS_TRANSITIONS : gmap string (list string) :=
  {[ "Vacant" := ["Dirty"; "Reserved"; "Maintenance"; "Occupied"];
     "Dirty" := ["Vacant"; "Maintenance"];
     "Occupied" := ["Dirty"; "Maintenance"];
     "Reserved" := ["Occupied"; "Vacant"; "Dirty"];
     "Maintenance" := ["Vacant"; "Dirty"] ]}.

Module RoomStatusManager.

Definition validate_transition (current_status new_status : string)
    : bool * string :=
  if decide (current_status = new_status) then
    (false, "Room is already in this status")
  else
    let allowed_transitions :=
      Py.get_list VALID_STATUS_TRANSITIONS current_status in
    if negb (Py.contains new_status allowed_transitions) then
      (false,
       "Cannot transition from " ++ current_status ++ " to " ++ new_status)
    else (true, "").

Definition can_check_in (room : Room.t) : bool * string :=
  if decide (Room.status room = "Vacant") then (true, "")
  else if decide (Room.status room = "Dirty") then
    (false, "Room needs cleaning before check-in")
  else if decide (Room.status room = "Occupied") then
    (false, "Room is currently occupied")
  else if decide (Room.status room = "Maintenance") then
    (false, "Room is under maintenance")
  else if decide (Room.status room = "Reserved") then (true, "")
  else (false, "Invalid room status: " ++ Room.status room).

Definition can_mark_ooo (room : Room.t) : bool * string :=
  if decide (Room.status room = "Occupied") then
    (false, "Cannot mark occupied room as Out of Order")
  else (true, "").

(** [user_id] and [reason] are accepted and not stored. *)
Definition change_status (s : Store.t) (room : Room.t) (new_status : string)
    (user_id : option Z) (reason : option string)
    : Store.t * Room.t * (bool * string) :=
  let '(is_valid, error_msg) :=
    validate_transition (Room.status room) new_status in
  if negb is_valid then (s, room, (false, error_msg))
  else
    let old_status := Room.status room in
    let room' := Room.with_status new_status room in
    let s1 := Store.put_room room' s in
    let s2 :=
      if decide (old_status ≠ new_status) then
        let history :=
          {| RoomStatusHistory.id :=
               Store.next_id
                 (map RoomStatusHistory.id (Store.room_status_history s1));
             RoomStatusHistory.hotel_id := Room.hotel_id room';
             RoomStatusHistory.room_id := Room.id room';
             RoomStatusHistory.old_status := old_status;
             RoomStatusHistory.new_status := new_status |} in
        Store.with_room_status_history
          (Store.room_status_history s1 ++ [history]) s1
      else s1 in
    (s2, room',
     (true,
      "Room status changed from " ++ old_status ++ " to " ++ new_status)).

End RoomStatusManager.

Module CheckoutProcessor.

(** The exception a [None] room raises at [room.status]. *)
Definition none_has_no_status : string :=
  "'NoneType' object has no attribute 'status'".

(** Returns the store and the created task.  The outcome of the status
    change is not looked at. *)
Definition process_checkout (s : Store.t) (room : option Room.t)
    (user_id : option Z)
    : Py.outcome (Store.t * HousekeepingTask.t) :=
  match room with
  | None => Py.Raised none_has_no_status
  | Some room =>
      let '(s1, room1, _) :=
        RoomStatusManager.change_status s room "Dirty" user_id
          (Some "Guest checkout - awaiting cleaning") in
      let task :=
        {| HousekeepingTask.id :=
             Store.next_id
               (map HousekeepingTask.id (Store.housekeeping_tasks s1));
           HousekeepingTask.hotel_id := Room.hotel_id room1;
           HousekeepingTask.room_id := Room.id room1;
           HousekeepingTask.task_type := "checkout_clean";
           HousekeepingTask.priority := "high";
           HousekeepingTask.status := "pending";
           HousekeepingTask.notes :=
             "Checkout cleaning - Room " ++ Room.room_number room1 |} in
      Py.Returned
        (Store.with_housekeeping_tasks
           (Store.housekeeping_tasks s1 ++ [task]) s1,
         task)
  end.

End CheckoutProcessor.

End Housekeeping.

(** ** app/hms_room_service.py *)

Module RoomService.

Definition VALID_ROOM_TRANSITIONS : gmap string (list string) :=
  {[ "Vacant" := ["Dirty"; "Reserved"; "Maintenance"; "Occupied"];
     "Dirty" := ["Vacant"; "Maintenance"];
     "Occupied" := ["Dirty"; "Maintenance"];
     "Reserved" := ["Occupied"; "Vacant"; "Dirty"; "Maintenance"];
     "Maintenance" := ["Vacant"; "Dirty"] ]}.

Definition BLOCKED_TRANSITIONS : gmap (string * string) string :=
  {[ ("Occupied", "Vacant") :=
       "Cannot mark occupied room as vacant. Must check out guest first.";
     ("Dirty", "Occupied") :=
       "Cannot assign guest to dirty room. Must clean first.";
     ("Dirty", "Reserved") :=
       "Cannot reserve dirty room. Must clean first." ]}.

Module RoomStatusValidator.

Definition validate_transition (current_status new_status : string)
    : bool * string :=
  match BLOCKED_TRANSITIONS !! (current_status, new_status) with
  | Some why => (false, why)
  | None =>
      let allowed := Py.get_list VALID_ROOM_TRANSITIONS current_status in
      if negb (Py.contains new_status allowed) then
        (false,
         "Cannot transition from " ++ current_status ++ " to " ++ new_status)
      else (true, "")
  end.

Definition check_booking_conflicts (env : Py.Env) (s : Store.t)
    (room : Room.t) (new_status : string) : bool * string :=
  let upcoming :=
    if decide (new_status = "Maintenance") then
      find (λ b,
              bool_decide (Booking.room_id b = Some (Room.id room))
              && bool_decide (Booking.status b = "Reserved")
              && bool_decide (Booking.check_in_date b ≤ Py.today env + 7)
              && bool_decide (Py.today env ≤ Booking.check_out_date b))
           (Store.bookings s)
    else None in
  match upcoming with
  | Some upcoming =>
      let days_until := Booking.check_in_date upcoming - Py.today env in
      (false,
       "Room has upcoming booking in " ++ Py.str_int days_until
       ++ " days (Guest: " ++ Booking.guest_name upcoming ++ ")")
  | None => (true, "")
  end.

Definition check_housekeeping_conflicts (s : Store.t) (room : Room.t)
    (new_status : string) : bool * string :=
  let in_progress :=
    if decide (new_status = "Vacant") then
      find (λ t,
              bool_decide (HousekeepingTask.room_id t = Room.id room)
              && bool_decide (HousekeepingTask.status t = "in_progress"))
           (Store.housekeeping_tasks s)
    else None in
  match in_progress with
  | Some _ => (false, "Cleaning task in progress. Wait for completion.")
  | None => (true, "")
  end.

Definition check_room_service_conflicts (s : Store.t) (room : Room.t)
    (new_status : string) : bool * string :=
  let pending :=
    if decide (new_status = "Vacant") then
      find (λ o,
              bool_decide (RoomServiceOrder.room_id o = Some (Room.id room))
              && Py.contains (RoomServiceOrder.status o)
                   ["pending"; "preparing"; "ready"; "out_for_delivery"])
           (Store.room_service_orders s)
    else None in
  match pending with
  | Some pending =>
      (false,
       "Pending room service order #" ++ Py.str_int (RoomServiceOrder.id pending)
       ++ ". Complete or cancel first.")
  | None => (true, "")
  end.

Definition check_maintenance_conflicts (s : Store.t) (room : Room.t)
    (new_status : string) : bool * string :=
  let critical :=
    if Py.contains new_status ["Vacant"; "Occupied"] then
      find (λ m,
              bool_decide (MaintenanceIssue.room_id m = Some (Room.id room))
              && Py.contains (MaintenanceIssue.status m)
                   ["reported"; "in_progress"]
              && bool_decide (MaintenanceIssue.priority m = "critical"))
           (Store.maintenance_issues s)
    else None in
  match critical with
  | Some critical =>
      (false,
       "Critical maintenance issue open: " ++ MaintenanceIssue.issue_type critical)
  | None => (true, "")
  end.

Definition comprehensive_validate (env : Py.Env) (s : Store.t)
    (room : Room.t) (new_status : string) : bool * string :=
  let '(valid, error) := validate_transition (Room.status room) new_status in
  if negb valid then (false, error) else
  let '(valid, error) := check_booking_conflicts env s room new_status in
  if negb valid then (false, error) else
  let '(valid, error) := check_housekeeping_conflicts s room new_status in
  if negb valid then (false, error) else
  let '(valid, error) := check_room_service_conflicts s room new_status in
  if negb valid then (false, error) else
  let '(valid, error) := check_maintenance_conflicts s room new_status in
  if negb valid then (false, error) else
  (true, "All validations passed").

End RoomStatusValidator.

Module RoomRevenueTracker.
Section with_lib.
Context `{Py.Lib}.

Definition calculate_daily_revenue_loss (s : Store.t) (room : Room.t) : Q :=
  match Store.room_room_type s room with
  | None => 0%Q
  | Some room_type =>
      let base_rate := RoomType.base_price room_type in
      let expected_daily_revenue := (base_rate * 0.7)%Q in
      Py.quantize_cents expected_daily_revenue
  end.

(** Returns the store and the id of the memorandum entry, if one was
    written.  The entry carries no lines. *)
Definition start_revenue_loss_tracking (env : Py.Env) (s : Store.t)
    (room : Room.t) (reason : string) (user_id : option Z)
    : Store.t * option Z :=
  let daily_loss := calculate_daily_revenue_loss s room in
  match Ledger.account_by_type_name s (Room.hotel_id room) "Revenue" "Room Revenue" with
  | None => (s, None)
  | Some revenue_account =>
      let '(s1, memo) :=
        Ledger.add_journal_entry s (Room.hotel_id room)
          (Some ("OOO-ROOM-" ++ Py.str_int (Room.id room) ++ "-"
                 ++ Py.strftime (Py.today env) "%Y%m%d"))
          (Py.today env) in
      (s1, Some (JournalEntry.id memo))
  end.

Definition stop_revenue_loss_tracking (env : Py.Env) (s : Store.t)
    (room : Room.t) (start_date : Z) (user_id : option Z)
    : Store.t * option Q :=
  let end_date := Py.today env in
  let days_ooo := end_date - start_date in
  if decide (days_ooo ≤ 0) then (s, None)
  else
    let daily_loss := calculate_daily_revenue_loss s room in
    let total_loss := (daily_loss * inject_Z days_ooo)%Q in
    match Ledger.account_by_type_name s (Room.hotel_id room) "Revenue" "Room Revenue" with
    | None => (s, Some total_loss)
    | Some revenue_account =>
        let '(s1, memo) :=
          Ledger.add_journal_entry s (Room.hotel_id room)
            (Some ("OOO-END-" ++ Py.str_int (Room.id room) ++ "-"
                   ++ Py.strftime end_date "%Y%m%d"))
            end_date in
        (s1, Some total_loss)
    end.

End with_lib.
End RoomRevenueTracker.

Module RoomNotificationService.
Section with_lib.
Context `{Py.Lib}.

(** One pending notification, the dict the source builds. *)
Record notif_data := {
  department : string;
  title : string;
  message : string;
  color : string;
  type : string
}.

Definition housekeeping_notifications (room : Room.t)
    (old_status new_status reason : string) : list notif_data :=
  if decide (new_status = "Dirty") then
    [ {| department := "housekeeping";
         title := "Room " ++ Room.room_number room ++ " Needs Cleaning";
         message := "Room is now dirty. Reason: " ++ reason;
         color := "warning";
         type := "housekeeping" |} ]
  else if decide (new_status = "Vacant" ∧ old_status = "Dirty") then
    [ {| department := "housekeeping";
         title := "Room " ++ Room.room_number room ++ " Cleaned";
         message := "Room cleaning completed. Ready for inspection.";
         color := "success";
         type := "housekeeping" |} ]
  else [].

Definition front_desk_notifications (room : Room.t)
    (old_status new_status reason : string) : list notif_data :=
  if decide (new_status = "Maintenance") then
    [ {| department := "front_desk";
         title := "Room " ++ Room.room_number room ++ " Out of Order";
         message := "Room is now OOO. Reason: " ++ reason
                    ++ ". Cannot sell until fixed.";
         color := "danger";
         type := "operational" |} ]
  else if decide (new_status = "Vacant" ∧ old_status = "Maintenance") then
    [ {| department := "front_desk";
         title := "Room " ++ Room.room_number room ++ " Available";
         message := "Room is back in service. Ready for check-in.";
         color := "success";
         type := "operational" |} ]
  else if decide (new_status = "Vacant") then
    [ {| department := "front_desk";
         title := "Room " ++ Room.room_number room ++ " Ready for Check-in";
         message := "Room is clean and vacant.";
         color := "success";
         type := "operational" |} ]
  else [].

Definition management_notifications (s : Store.t) (room : Room.t)
    (new_status : string) : list notif_data :=
  if decide (new_status = "Maintenance") then
    [ {| department := "management";
         title := "Revenue Alert: Room " ++ Room.room_number room ++ " OOO";
         message :=
           "Room out of order. Expected daily revenue loss: "
           ++ Py.str_decimal
                (RoomRevenueTracker.calculate_daily_revenue_loss s room);
         color := "warning";
         type := "financial" |} ]
  else [].

(** The body of the loop over the pending notifications. *)
Definition create_notification (room : Room.t) (user_id : option Z)
    (s : Store.t) (d : notif_data) : Store.t :=
  let notif_user_id :=
    if Py.truthy_id user_id then user_id
    else
      match find (λ u, bool_decide (User.hotel_id u = Some (Room.hotel_id room)))
                 (Store.users s) with
      | Some first_user => Some (User.id first_user)
      | None => user_id
      end in
  match notif_user_id with
  | Some uid =>
      if Py.truthy_id notif_user_id then
        let notif :=
          {| Notification.id :=
               Store.next_id (map Notification.id (Store.notifications s));
             Notification.user_id := uid;
             Notification.hotel_id := Room.hotel_id room;
             Notification.title := title d;
             Notification.message := message d;
             Notification.color := color d;
             Notification.type := type d;
             Notification.link := "/hms/rooms" |} in
        Store.with_notifications (Store.notifications s ++ [notif]) s
      else s
  | None => s
  end.

Definition notify_status_change (s : Store.t) (room : Room.t)
    (old_status new_status reason : string) (user_id : option Z) : Store.t :=
  let notifications : list notif_data :=
    (housekeeping_notifications room old_status new_status reason
     ++ front_desk_notifications room old_status new_status reason
     ++ management_notifications s room new_status)%list in
  fold_left (create_notification room user_id) notifications s.

End with_lib.
End RoomNotificationService.

Module RoomManagementService.
Section with_lib.
Context `{Py.Lib}.

Definition change_room_status (env : Py.Env) (s : Store.t) (room : Room.t)
    (new_status reason : string) (user_id : option Z)
    : Store.t * Room.t * (bool * string) :=
  (* 1. Comprehensive validation *)
  let '(valid, error) :=
    RoomStatusValidator.comprehensive_validate env s room new_status in
  if negb valid then (s, room, (false, "Validation failed: " ++ error))
  else
    (* 2. Store old status *)
    let old_status := Room.status room in
    (* 3. Track revenue impact if going out of order *)
    let s3 :=
      if decide (new_status = "Maintenance" ∧ old_status ≠ "Maintenance") then
        fst (RoomRevenueTracker.start_revenue_loss_tracking
               env s room reason user_id)
      else s in
    (* 4. Stop revenue tracking if coming back *)
    let s4 :=
      if bool_decide (old_status = "Maintenance")
         && Py.contains new_status ["Vacant"; "Dirty"] then
        fst (RoomRevenueTracker.stop_revenue_loss_tracking
               env s3 room (Py.today env - 1) user_id)
      else s3 in
    (* 5. Update room status *)
    let room' := Room.with_status new_status room in
    let s5 := Store.put_room room' s4 in
    (* 6. Audit trail *)
    let history :=
      {| RoomStatusHistory.id :=
           Store.next_id
             (map RoomStatusHistory.id (Store.room_status_history s5));
         RoomStatusHistory.hotel_id := Room.hotel_id room';
         RoomStatusHistory.room_id := Room.id room';
         RoomStatusHistory.old_status := old_status;
         RoomStatusHistory.new_status := new_status |} in
    let s6 :=
      Store.with_room_status_history
        (Store.room_status_history s5 ++ [history]) s5 in
    (* 7. Notifications *)
    let s7 :=
      RoomNotificationService.notify_status_change
        s6 room' old_status new_status reason user_id in
    (* 8. Housekeeping task after a checkout *)
    let s8 :=
      if decide (new_status = "Dirty" ∧ old_status = "Occupied") then
        let task :=
          {| HousekeepingTask.id :=
               Store.next_id
                 (map HousekeepingTask.id (Store.housekeeping_tasks s7));
             HousekeepingTask.hotel_id := Room.hotel_id room';
             HousekeepingTask.room_id := Room.id room';
             HousekeepingTask.task_type := "checkout_clean";
             HousekeepingTask.priority := "high";
             HousekeepingTask.status := "pending";
             HousekeepingTask.notes := "Checkout cleaning. Reason: " ++ reason |} in
        Store.with_housekeeping_tasks
          (Store.housekeeping_tasks s7 ++ [task]) s7
      else s7 in
    (s8, room',
     (true,
      "Room status changed from " ++ old_status ++ " to " ++ new_status)).

(** safe_change_room_status *)
Definition safe_change_room_status (env : Py.Env) (s : Store.t)
    (room : Room.t) (new_status reason : string) (user_id : option Z)
    : Store.t * Room.t * (bool * string) :=
  change_room_status env s room new_status reason user_id.

End with_lib.
End RoomManagementService.

End RoomService.

(** ** app/hms_booking_service.py *)

Module BookingSvc.

Definition BOOKING_STATUS_TRANSITIONS : gmap string (list string) :=
  {[ "Reserved" := ["CheckedIn"; "Cancelled"; "NoShow"];
     "CheckedIn" := ["CheckedOut"];
     "CheckedOut" := [];
     "Cancelled" := [];
     "NoShow" := [] ]}.

(** One tier of the cancellation policy. *)
Record policy := { days_before : Z; fee_percent : Q }.

Definition CANCELLATION_POLICY : list policy :=
  [ {| days_before := 7; fee_percent := 0.0 |};
    {| days_before := 3; fee_percent := 0.5 |};
    {| days_before := 0; fee_percent := 1.0 |} ].


(** Truth value of an optional string: [None] and [''] are falsy. *)
Definition truthy_str (o : option string) : bool :=
  match o with
  | Some t => negb (bool_decide (t = ""))
  | None => false
  end.

Module BookingStateMachine.

Definition validate_transition (current_status new_status : string)
    : bool * string :=
  if decide (current_status = new_status) then
    (false, "Booking is already in this status")
  else
    let allowed_transitions :=
      Py.get_list BOOKING_STATUS_TRANSITIONS current_status in
    if negb (Py.contains new_status allowed_transitions) then
      (false,
       "Cannot transition from " ++ current_status ++ " to " ++ new_status)
    else (true, "").

(** The assignments to the booking object: status, then the timestamp that
    belongs to the new status. *)
Definition stamp (env : Py.Env) (new_status : string)
    (reason : option string) (b : Booking.t) : Booking.t :=
  if decide (new_status = "CheckedIn") then
    Booking.with_check_in_time_actual (Some (Py.utcnow env)) b
  else if decide (new_status = "CheckedOut") then
    Booking.with_check_out_time_actual (Some (Py.utcnow env)) b
  else if decide (new_status = "Cancelled") then
    let b1 := Booking.with_cancelled_at (Some (Py.utcnow env)) b in
    if truthy_str reason then Booking.with_cancellation_reason reason b1
    else b1
  else b.

Definition change_status (env : Py.Env) (s : Store.t) (booking : Booking.t)
    (new_status : string) (user_id : option Z) (reason : option string)
    : Store.t * Booking.t * (bool * string) :=
  let '(is_valid, error_msg) :=
    validate_transition (Booking.status booking) new_status in
  if negb is_valid then (s, booking, (false, error_msg))
  else
    let old_status := Booking.status booking in
    let booking' :=
      stamp env new_status reason (Booking.with_status new_status booking) in
    (Store.put_booking booking' s, booking',
     (true,
      "Booking status changed from " ++ old_status ++ " to " ++ new_status)).

End BookingStateMachine.

Module RoomStatusService.

(** The room row is not touched. *)
Definition reserve_room (room : Room.t) (booking : Booking.t)
    (user_id : option Z) : bool * string :=
  if decide (Room.status room = "Occupied") then
    (false, "Cannot reserve an occupied room")
  else if decide (Room.status room = "Maintenance") then
    (false, "Cannot reserve a room under maintenance")
  else
    (true,
     "Room " ++ Room.room_number room ++ " reserved for booking "
     ++ Booking.booking_reference booking).

Definition check_in_room (s : Store.t) (room : Room.t) (booking : Booking.t)
    (user_id : option Z) : Store.t * (bool * string) :=
  let '(can_check_in, reason) :=
    Housekeeping.RoomStatusManager.can_check_in room in
  if negb can_check_in then (s, (false, "Room not ready: " ++ reason))
  else
    let '(s1, _, (success, message)) :=
      Housekeeping.RoomStatusManager.change_status s room "Occupied" user_id
        (Some ("Check-in: Booking " ++ Booking.booking_reference booking)) in
    (s1, (success, message)).

(** The created task has not been flushed when the message is built, so
    its id prints as [None]. *)
Definition check_out_room (s : Store.t) (room : option Room.t)
    (booking : Booking.t) (user_id : option Z) : Store.t * (bool * string) :=
  match Housekeeping.CheckoutProcessor.process_checkout s room user_id with
  | Py.Returned (s1, task) =>
      (s1, (true, "Checkout complete. Cleaning task #" ++ "None" ++ " created"))
  | Py.Raised e => (s, (false, "Checkout failed: " ++ e))
  end.

Definition release_room (s : Store.t) (room : Room.t) (booking : Booking.t)
    (user_id : option Z) : Store.t * (bool * string) :=
  if decide (Room.status room = "Occupied") then
    let '(s1, _, _) :=
      Housekeeping.RoomStatusManager.change_status s room "Dirty" user_id
        (Some ("Booking " ++ Booking.booking_reference booking
               ++ " cancelled - room needs cleaning")) in
    (s1,
     (true,
      "Room " ++ Room.room_number room ++ " marked Dirty - requires cleaning"))
  else
    (s, (true, "Room " ++ Room.room_number room ++ " released from booking")).

End RoomStatusService.

Module AccountingIntegrationService.

Definition create_invoice (s : Store.t) (booking : Booking.t)
    (total_amount : Q) (hotel_id : Z) (user_id : option Z)
    : Store.t * Invoice.t :=
  let invoice_number := "INV-" ++ Booking.booking_reference booking in
  let invoice :=
    {| Invoice.id := Store.next_id (map Invoice.id (Store.invoices s));
       Invoice.hotel_id := hotel_id;
       Invoice.booking_id := Booking.id booking;
       Invoice.invoice_number := invoice_number;
       Invoice.total := total_amount;
       Invoice.status := "Unpaid" |} in
  (Store.with_invoices (Store.invoices s ++ [invoice]) s, invoice).


Definition no_invoice (booking : Booking.t) : string :=
  "No invoice for booking " ++ Booking.booking_reference booking.


(** The refund is a payment of negative amount; the reversing entry is
    written only when both accounts exist. *)
Definition process_refund (env : Py.Env) (s : Store.t) (booking : Booking.t)
    (amount : Q) (reason : string) (user_id : option Z)
    : Py.outcome (Store.t * Booking.t * Payment.t) :=
  match Store.booking_invoice s booking with
  | None => Py.Raised (no_invoice booking)
  | Some invoice =>
      let '(s1, refund) :=
        Ledger.add_payment s (Booking.hotel_id booking)
          (Some (Invoice.id invoice)) (Booking.id booking)
          (- Py.abs amount)%Q "Refund" (Some ("Refund: " ++ reason)) in
      let revenue_account :=
        Ledger.account_by_type_name s1 (Booking.hotel_id booking)
          "Revenue" "Room Revenue" in
      let cash_account :=
        Ledger.account_by_type_name s1 (Booking.hotel_id booking)
          "Asset" "Cash" in
      let s2 :=
        match revenue_account, cash_account with
        | Some revenue_account, Some cash_account =>
            let '(s', journal_entry) :=
              Ledger.add_journal_entry s1 (Booking.hotel_id booking)
                (Some ("REFUND-" ++ Py.str_int (Payment.id refund)))
                (Py.today env) in
            let s'' :=
              Ledger.add_journal_line s' (JournalEntry.id journal_entry)
                (ChartOfAccount.id revenue_account) (Py.abs amount) 0 in
            Ledger.add_journal_line s'' (JournalEntry.id journal_entry)
              (ChartOfAccount.id cash_account) 0 (Py.abs amount)
        | _, _ => s1
        end in
      let '(s3, booking', _) := calculate_balance s2 booking in
      Py.Returned (s3, booking', refund)
  end.

(** The fee is stored as a payment of positive amount on the booking and
    added to the invoice total; the invoice status is taken from the
    balance as it stands before the recomputation. *)
Definition post_cancellation_fee (s : Store.t) (booking : Booking.t)
    (fee_amount : Q) (user_id : option Z)
    : Py.outcome (Store.t * Booking.t * Payment.t) :=
  match Store.booking_invoice s booking with
  | None => Py.Raised (no_invoice booking)
  | Some invoice =>
      let '(s1, fee_payment) :=
        Ledger.add_payment s (Booking.hotel_id booking)
          (Some (Invoice.id invoice)) (Booking.id booking) fee_amount
          "Cancellation Fee" (Some "Cancellation fee charged") in
      let invoice' :=
        Invoice.with_total_status (Invoice.total invoice + fee_amount)%Q
          (if Py.gt0 (Booking.balance booking) then "Unpaid" else "Paid")
          invoice in
      let s2 := Store.put_invoice invoice' s1 in
      let '(s3, booking', _) := calculate_balance s2 booking in
      Py.Returned (s3, booking', fee_payment)
  end.

End AccountingIntegrationService.

Module BookingService.
Section with_lib.
Context `{Py.Lib}.

(** The exception a [None] room type raises at [room.room_type.base_price]. *)
Definition none_has_no_base_price : string :=
  "'NoneType' object has no attribute 'base_price'".

(** [token] is [uuid.uuid4().hex[:6].upper()]. *)
Definition create_booking (sess : Session.t) (hotel_id : Z) (guest : Guest.t)
    (room : Room.t) (check_in_date check_out_date : Z) (adults children : Z)
    (special_requests source : string) (user_id : option Z) (token : string)
    : Py.outcome (Session.t * (option Booking.t * string)) :=
  let s := Session.working sess in
  (* Validate dates *)
  if decide (check_out_date ≤ check_in_date) then
    Py.Returned (sess, (None, "Check-out date must be after check-in date"))
  else
    (* Check availability *)
    let overlap :=
      find (λ b,
              bool_decide (Booking.room_id b = Some (Room.id room))
              && bool_decide (Booking.hotel_id b = hotel_id)
              && Py.contains (Booking.status b) ["Reserved"; "CheckedIn"]
              && bool_decide (Booking.check_in_date b < check_out_date)
              && bool_decide (check_in_date < Booking.check_out_date b))
           (Store.bookings s) in
    match overlap with
    | Some _ =>
        Py.Returned (sess, (None, "Room is already booked for these dates"))
    | None =>
        (* Calculate price *)
        let nights := check_out_date - check_in_date in
        match Store.room_room_type s room with
        | None => Py.Raised none_has_no_base_price
        | Some room_type =>
            let total := (RoomType.base_price room_type * inject_Z nights)%Q in
            let booking_reference :=
              "NGD-" ++ Py.strftime check_in_date "%Y%m%d" ++ "-" ++ token in
            let booking :=
              {| Booking.id :=
                   Store.next_id (map Booking.id (Store.bookings s));
                 Booking.hotel_id := hotel_id;
                 Booking.guest_id := Some (Guest.id guest);
                 Booking.guest_name := Guest.name guest;
                 Booking.guest_email := default "" (Guest.email guest);
                 Booking.guest_phone := Guest.phone guest;
                 Booking.room_id := Some (Room.id room);
                 Booking.check_in_date := check_in_date;
                 Booking.check_out_date := check_out_date;
                 Booking.check_in_time_actual := None;
                 Booking.check_out_time_actual := None;
                 Booking.status := "Reserved";
                 Booking.source := source;
                 Booking.booking_reference := booking_reference;
                 Booking.adults := adults;
                 Booking.children := children;
                 Booking.total_amount := total;
                 Booking.amount_paid := 0;
                 Booking.balance := 0;
                 Booking.special_requests := special_requests;
                 Booking.cancelled_at := None;
                 Booking.cancellation_reason := None |} in
            let s1 := Store.with_bookings (Store.bookings s ++ [booking]) s in
            (* Reserve room (logical reservation) *)
            let '(success, message) :=
              BookingSvc.RoomStatusService.reserve_room room booking user_id in
            if negb success then
              Py.Returned (Session.rollback (Session.with_working s1 sess),
                           (None, message))
            else
              let '(s2, invoice) :=
                BookingSvc.AccountingIntegrationService.create_invoice
                  s1 booking total hotel_id user_id in
              Py.Returned (Session.with_working s2 sess,
                           (Some booking, "Booking created successfully"))
        end
    end.

(** The body of [check_in], with the call that moves the room to Occupied
    taken as [room_step]. *)
Definition check_in_via
    (room_step : Store.t → Room.t → Booking.t → option Z
                 → Store.t * (bool * string))
    (env : Py.Env) (s : Store.t) (booking : Booking.t) (user_id : option Z)
    : Py.outcome (Store.t * Booking.t * (bool * string)) :=
  (* Validate booking status *)
  if decide (Booking.status booking ≠ "Reserved") then
    Py.Returned
      (s, booking,
       (false,
        "Cannot check in booking with status " ++ Booking.status booking))
  else
    (* Validate room is ready *)
    match Store.booking_room s booking with
    | None => Py.Raised Housekeeping.CheckoutProcessor.none_has_no_status
    | Some room =>
        let '(can_check_in, reason) :=
          Housekeeping.RoomStatusManager.can_check_in room in
        if negb can_check_in then
          Py.Returned (s, booking, (false, "Room not ready: " ++ reason))
        else
          (* Change booking status via state machine *)
          let '(s1, booking1, (success, message)) :=
            BookingSvc.BookingStateMachine.change_status env s booking
              "CheckedIn" user_id (Some "Guest check-in") in
          if negb success then Py.Returned (s1, booking1, (false, message))
          else
            (* Change room status to Occupied *)
            let '(s2, (success, message)) :=
              room_step s1 room booking1 user_id in
            if negb success then
              (* Rollback booking status change *)
              let booking2 := Booking.with_status "Reserved" booking1 in
              Py.Returned
                (Store.put_booking booking2 s2, booking2, (false, message))
            else
              Py.Returned
                (s2, booking1, (true, "Guest checked in successfully"))
    end.

Definition check_in (env : Py.Env) (s : Store.t) (booking : Booking.t)
    (user_id : option Z)
    : Py.outcome (Store.t * Booking.t * (bool * string)) :=
  check_in_via BookingSvc.RoomStatusService.check_in_room
    env s booking user_id.

Definition check_out (env : Py.Env) (s : Store.t) (booking : Booking.t)
    (user_id : option Z) : Store.t * Booking.t * (bool * string) :=
  (* Validate booking status *)
  if decide (Booking.status booking ≠ "CheckedIn") then
    (s, booking,
     (false, "Cannot check out booking with status " ++ Booking.status booking))
  else
    (* Calculate final balance *)
    let '(s1, booking1, balance) := calculate_balance s booking in
    (* Check for outstanding balance *)
    if Py.gt0 balance then
      (s1, booking1,
       (false,
        "Outstanding balance: " ++ Py.format_2f balance
        ++ ". Please collect payment before checkout."))
    else
      (* Change booking status via state machine *)
      let '(s2, booking2, (success, message)) :=
        BookingSvc.BookingStateMachine.change_status env s1 booking1
          "CheckedOut" user_id (Some "Guest check-out") in
      if negb success then (s2, booking2, (false, message))
      else
        (* Check out room (triggers housekeeping) *)
        let '(s3, (success, message)) :=
          BookingSvc.RoomStatusService.check_out_room
            s2 (Store.booking_room s2 booking2) booking2 user_id in
        if negb success then
          (* Rollback booking status change *)
          let booking3 := Booking.with_status "CheckedIn" booking2 in
          (Store.put_booking booking3 s3, booking3, (false, message))
        else (s3, booking2, (true, "Guest checked out successfully")).

(** The loop over the policy: the first tier whose [days_before] the
    remaining days reach, 100% when there is none. *)
Definition fee_percent_for (days_until_checkin : Z) : Q :=
  match find (λ policy,
                bool_decide (BookingSvc.days_before policy ≤ days_until_checkin))
             BookingSvc.CANCELLATION_POLICY with
  | Some policy => BookingSvc.fee_percent policy
  | None => 1.0%Q
  end.

Definition cancel_booking (env : Py.Env) (s : Store.t) (booking : Booking.t)
    (reason : string) (user_id : option Z)
    : Py.outcome (Store.t * Booking.t * (bool * string)) :=
  (* Validate booking status *)
  if decide (Booking.status booking ≠ "Reserved") then
    Py.Returned
      (s, booking,
       (false, "Cannot cancel booking with status " ++ Booking.status booking))
  else
    (* Calculate cancellation fee *)
    let days_until_checkin := Booking.check_in_date booking - Py.today env in
    let fee_percent := fee_percent_for days_until_checkin in
    let cancellation_fee := (Booking.total_amount booking * fee_percent)%Q in
    (* Change booking status via state machine *)
    let '(s1, booking1, (success, message)) :=
      BookingSvc.BookingStateMachine.change_status env s booking
        "Cancelled" user_id (Some reason) in
    if negb success then Py.Returned (s1, booking1, (false, message))
    else
      (* Post cancellation fee *)
      let posted :=
        if Py.gt0 cancellation_fee then
          match BookingSvc.AccountingIntegrationService.post_cancellation_fee
                  s1 booking1 cancellation_fee user_id with
          | Py.Returned (s', b', _) => Py.Returned (s', b')
          | Py.Raised e => Py.Raised e
          end
        else Py.Returned (s1, booking1) in
      match posted with
      | Py.Raised e => Py.Raised e
      | Py.Returned (s2, booking2) =>
          (* Process refund if guest paid more than fee *)
          let '(s3, booking3, balance) := calculate_balance s2 booking2 in
          let refunded :=
            if Py.lt0 balance then
              let refund_amount := Py.abs balance in
              match BookingSvc.AccountingIntegrationService.process_refund
                      env s3 booking3 refund_amount
                      ("Cancellation refund (fee: "
                       ++ Py.format_2f cancellation_fee ++ ")")
                      user_id with
              | Py.Returned (s', b', _) => Py.Returned (s', b')
              | Py.Raised e => Py.Raised e
              end
            else Py.Returned (s3, booking3) in
          match refunded with
          | Py.Raised e => Py.Raised e
          | Py.Returned (s4, booking4) =>
              (* Release room *)
              match Store.booking_room s4 booking4 with
              | None =>
                  Py.Raised Housekeeping.CheckoutProcessor.none_has_no_status
              | Some room =>
                  let '(s5, _) :=
                    BookingSvc.RoomStatusService.release_room
                      s4 room booking4 user_id in
                  Py.Returned
                    (s5, booking4,
                     (true,
                      "Booking cancelled. Cancellation fee: "
                      ++ Py.format_2f cancellation_fee))
              end
          end
      end.


End with_lib.
End BookingService.

End BookingSvc.

(** ** app/hms/routes.py: the night audit *)

Module Routes.

(** What a view hands back: the messages flashed on the way and the
    redirect target. *)
Record response := {
  flashes : list (string * string);
  redirect : string
}.

(** The exception raised while the JSON answer of a completed run is built:
    its [new_business_date] entry calls [strftime] on a [timedelta]. *)
Definition timedelta_has_no_strftime : string :=
  "'datetime.timedelta' object has no attribute 'strftime'".

Section with_lib.
Context `{Py.Lib}.

(** The body of the loop that charges each occupied room.  [booking] is the
    object loaded by the query before the loop; the loop state is the store
    with the revenue posted and the rooms charged so far.  No statement of
    the body raises on these rows, so the error list of the run stays
    empty. *)
Definition charge_room (env : Py.Env) (hotel_id : Z)
    (room_revenue_account ar_account : ChartOfAccount.t)
    (acc : Store.t * Q * Z) (booking : Booking.t) : Store.t * Q * Z :=
  let '(s, revenue_posted, rooms_charged) := acc in
  match Store.booking_room s booking with
  | None => acc
  | Some room =>
      match Store.room_room_type s room with
      | None => acc
      | Some room_type =>
          let room_rate := Py.or_zero (RoomType.base_price room_type) in
          if Py.gt0 room_rate then
            match Store.booking_invoice s booking with
            | None => acc
            | Some invoice =>
                (* Add charge to booking invoice *)
                let invoice' :=
                  Invoice.with_total_status
                    (Invoice.total invoice + room_rate)%Q "Unpaid" invoice in
                let s1 := Store.put_invoice invoice' s in
                let booking' :=
                  Booking.with_amounts (Booking.amount_paid booking)
                    (Booking.balance booking + room_rate)%Q booking in
                let s2 := Store.put_booking booking' s1 in
                (* Create journal entry *)
                let '(s3, journal) :=
                  Ledger.add_journal_entry s2 hotel_id None (Py.today env) in
                (* Debit: Accounts Receivable *)
                let s4 :=
                  Ledger.add_journal_line s3 (JournalEntry.id journal)
                    (ChartOfAccount.id ar_account) room_rate 0 in
                (* Credit: Room Revenue *)
                let s5 :=
                  Ledger.add_journal_line s4 (JournalEntry.id journal)
                    (ChartOfAccount.id room_revenue_account) 0 room_rate in
                (s5, (revenue_posted + room_rate)%Q, rooms_charged + 1)
            end
          else acc
      end
  end.

(** [Booking.query.filter_by(hotel_id=.., status='CheckedIn').all()] *)
Definition occupied_bookings (s : Store.t) (hotel_id : Z) : list Booking.t :=
  filter (λ b, Booking.hotel_id b = hotel_id ∧ Booking.status b = "CheckedIn")
         (Store.bookings s).

(** The account of that name, created and flushed when the hotel has
    none. *)
Definition get_or_create_account (s : Store.t) (hotel_id : Z)
    (name type : string) : Store.t * ChartOfAccount.t :=
  match Ledger.account_by_name s hotel_id name with
  | Some a => (s, a)
  | None => Ledger.add_account s hotel_id name type
  end.

(** The steps of [run_night_audit], in the order of the source. *)

(** "Start audit log": the record of the run, added and flushed. *)
Definition start_audit_log (env : Py.Env) (s : Store.t) (hotel_id : Z)
    (current_user_id : Z) : Store.t * NightAuditLog.t :=
  let audit_log :=
    {| NightAuditLog.id :=
         Store.next_id (map NightAuditLog.id (Store.night_audit_logs s));
       NightAuditLog.hotel_id := hotel_id;
       NightAuditLog.audit_date := Py.today env;
       NightAuditLog.run_by := current_user_id;
       NightAuditLog.started_at := Py.now env;
       NightAuditLog.completed_at := None;
       NightAuditLog.status := "running";
       NightAuditLog.summary := None;
       NightAuditLog.errors := None;
       NightAuditLog.notes := None |} in
  (Store.with_night_audit_logs (Store.night_audit_logs s ++ [audit_log]) s,
   audit_log).

(** The assignments that end a run: status, errors, completion time, and
    for a completed run the summary and the notes. *)
Definition finish_audit_log (env : Py.Env) (status : string)
    (errors : option string) (summary : option NightAuditLog.summary_t)
    (notes : option string) (audit_log : NightAuditLog.t) : NightAuditLog.t :=
  {| NightAuditLog.id := NightAuditLog.id audit_log;
     NightAuditLog.hotel_id := NightAuditLog.hotel_id audit_log;
     NightAuditLog.audit_date := NightAuditLog.audit_date audit_log;
     NightAuditLog.run_by := NightAuditLog.run_by audit_log;
     NightAuditLog.started_at := NightAuditLog.started_at audit_log;
     NightAuditLog.completed_at := Some (Py.now env);
     NightAuditLog.status := status;
     NightAuditLog.summary := summary;
     NightAuditLog.errors := errors;
     NightAuditLog.notes := notes |}.

(** "Get or create business date": the row of the hotel; a new one starts
    open on the calendar date ([updated_at] is filled by the database). *)
Definition get_or_create_business_date (env : Py.Env) (s : Store.t)
    (hotel_id : Z) : Store.t * BusinessDate.t :=
  match find (λ d, bool_decide (BusinessDate.hotel_id d = hotel_id))
             (Store.business_dates s) with
  | Some d => (s, d)
  | None =>
      let d :=
        {| BusinessDate.id :=
             Store.next_id (map BusinessDate.id (Store.business_dates s));
           BusinessDate.hotel_id := hotel_id;
           BusinessDate.current_business_date := Py.today env;
           BusinessDate.is_closed := false;
           BusinessDate.updated_at := None |} in
      (Store.with_business_dates (Store.business_dates s ++ [d]) s, d)
  end.

(** "Pre-close validation checklist": three counts and the warnings they
    raise; none of them stops the run. *)
Record checklist := {
  unpaid_bookings : Z;
  pending_orders : Z;
  checked_in : Z;
  warnings : list string
}.

Definition pre_close_checklist (env : Py.Env) (s : Store.t) (hotel_id : Z)
    : checklist :=
  let unpaid_bookings :=
    Z.of_nat (length
      (filter (λ b, Booking.hotel_id b = hotel_id
                    ∧ Booking.check_in_date b = Py.today env
                    ∧ Py.gt0 (Booking.balance b) = true)
              (Store.bookings s))) in
  let warnings : list string :=
    if decide (0 < unpaid_bookings) then
      [Py.str_int unpaid_bookings ++ " bookings have outstanding balance"]
    else [] in
  let pending_orders :=
    Z.of_nat (length
      (filter (λ o, RestaurantOrder.hotel_id o = hotel_id
                    ∧ RestaurantOrder.status o = "pending")
              (Store.restaurant_orders s))) in
  let warnings : list string :=
    if decide (0 < pending_orders) then
      (warnings
       ++ [(Py.str_int pending_orders
            ++ " restaurant orders still pending")%string])%list
    else warnings in
  let checked_in := Z.of_nat (length (occupied_bookings s hotel_id)) in
  let warnings : list string :=
    if decide (0 < checked_in) then
      (warnings
       ++ [(Py.str_int checked_in ++ " guests still checked in")%string])%list
    else warnings in
  {| unpaid_bookings := unpaid_bookings;
     pending_orders := pending_orders;
     checked_in := checked_in;
     warnings := warnings |}.

(** "POST ROOM REVENUE before closing": the occupied bookings are loaded,
    the two accounts are found or created, and each occupied room is
    charged.  Returns the store, the revenue posted and the rooms
    charged. *)
Definition post_room_revenue (env : Py.Env) (s : Store.t) (hotel_id : Z)
    : Store.t * Q * Z :=
  let occupied := occupied_bookings s hotel_id in
  let '(s, room_revenue_account) :=
    get_or_create_account s hotel_id "Room Revenue" "Revenue" in
  let '(s, ar_account) :=
    get_or_create_account s hotel_id "Accounts Receivable" "Asset" in
  fold_left (charge_room env hotel_id room_revenue_account ar_account)
            occupied (s, 0%Q, 0).

(** "Close current day AND advance to next day" *)
Definition close_day (env : Py.Env) (biz_date : BusinessDate.t)
    : BusinessDate.t :=
  {| BusinessDate.id := BusinessDate.id biz_date;
     BusinessDate.hotel_id := BusinessDate.hotel_id biz_date;
     BusinessDate.current_business_date := Py.today env + 1;
     BusinessDate.is_closed := true;
     BusinessDate.updated_at := Some (Py.now env) |}.

Definition no_hotel : response :=
  {| flashes := [("Please select a hotel first.", "warning")];
     redirect := "hms.dashboard" |}.

Definition run_night_audit (env : Py.Env) (sess : Session.t)
    (hotel_id : option Z) (current_user_id : Z) : Session.t * response :=
  if negb (Py.truthy_id hotel_id) then (sess, no_hotel)
  else
  match hotel_id with
  | None => (sess, no_hotel)
  | Some hotel_id =>
    let today := Py.today env in
    let s := Session.working sess in
    (* Start audit log *)
    let '(s, audit_log) := start_audit_log env s hotel_id current_user_id in
    (* Get or create business date *)
    let '(s, biz_date) := get_or_create_business_date env s hotel_id in
    (* Pre-close validation checklist *)
    let checks := pre_close_checklist env s hotel_id in
    (* If day is already closed, show error *)
    if BusinessDate.is_closed biz_date then
      let audit_log :=
        finish_audit_log env "failed" (Some "Day already closed")
          (NightAuditLog.summary audit_log) (NightAuditLog.notes audit_log)
          audit_log in
      let s := Store.put_night_audit_log audit_log s in
      (Session.commit (Session.with_working s sess),
       {| flashes := [("Business day is already closed and locked.", "warning")];
          redirect := "hms.night_audit" |})
    else
      (* Post room revenue before closing *)
      let '(s, revenue_posted, rooms_charged) :=
        post_room_revenue env s hotel_id in
      let errors : list string := [] in
      (* Close current day and advance to next day *)
      let biz_date := close_day env biz_date in
      let s := Store.put_business_date biz_date s in
      (* Complete audit log *)
      let audit_log :=
        finish_audit_log env
          (match errors with [] => "success" | _ => "partial" end)
          None
          (Some {| NightAuditLog.unpaid_bookings := unpaid_bookings checks;
                   NightAuditLog.pending_orders := pending_orders checks;
                   NightAuditLog.checked_in_guests := checked_in checks;
                   NightAuditLog.rooms_charged := rooms_charged;
                   NightAuditLog.revenue_posted := revenue_posted;
                   NightAuditLog.warnings := warnings checks;
                   NightAuditLog.summary_errors := errors |})
          (Some ("Day closed. Advanced to "
                 ++ Py.str_date (BusinessDate.current_business_date biz_date)
                 ++ ". Posted $" ++ Py.str_decimal revenue_posted
                 ++ " from " ++ Py.str_int rooms_charged ++ " rooms."))
          audit_log in
      let s := Store.put_night_audit_log audit_log s in
      let sess := Session.commit (Session.with_working s sess) in
      (* Show results *)
      let shown : list (string * string) :=
        ([ (" Night audit completed successfully!", "success");
           ((" Business day CLOSED for "
             ++ Py.strftime today "%B %d, %Y")%string,
            "info");
           ((" New business date: "
             ++ Py.strftime (BusinessDate.current_business_date biz_date)
                  "%B %d, %Y")%string,
            "info");
           ((" Room revenue posted: $" ++ Py.format_comma_2f revenue_posted
             ++ " from " ++ Py.str_int rooms_charged ++ " rooms")%string,
            "success") ]
         ++ map (λ warning, ((" " ++ warning)%string, "warning"))
                (warnings checks)
         ++ map (λ error, ((" " ++ error)%string, "danger")) errors)%list in
      (* Building the JSON answer raises; the handler takes over *)
      let sess := Session.rollback sess in
      let audit_log :=
        finish_audit_log env "failed" (Some timedelta_has_no_strftime)
          (NightAuditLog.summary audit_log) (NightAuditLog.notes audit_log)
          audit_log in
      let sess :=
        Session.commit
          (Session.with_working
             (Store.put_night_audit_log audit_log (Session.working sess))
             sess) in
      (sess,
       {| flashes :=
            (shown
             ++ [(" Error running night audit. Please check logs.", "danger")])%list;
          redirect := "hms.night_audit" |})
  end.

End with_lib.

End Routes.

(** * Properties *)

(** ** A library instance and a small hotel to run the operations on *)

Module Example.

(** Exact division and bare renderings; the statements below hold for every
    instance, this one serves to evaluate them. *)
Definition lib : Py.Lib :=
  {| Py.decimal_div := λ x n, (x / inject_Z n)%Q;
     Py.str_decimal := λ x, pretty (Qnum x) ++ "/" ++ pretty (Zpos (Qden x));
     Py.format_2f := λ x, pretty (Qnum x) ++ "/" ++ pretty (Zpos (Qden x));
     Py.format_comma_2f :=
       λ x, pretty (Qnum x) ++ "/" ++ pretty (Zpos (Qden x));
     Py.str_date := λ d, pretty d;
     Py.strftime := λ d fmt, pretty d |}.

Definition env : Py.Env :=
  {| Py.today := 739000; Py.utcnow := 63849600000; Py.now := 63849610800 |}.

Definition room_of (id : Z) (number status : string) : Room.t :=
  {| Room.id := id; Room.hotel_id := 1; Room.room_type_id := 1;
     Room.room_number := number; Room.status := status |}.

Definition booking_of (id room : Z) (status : string) (check_in check_out : Z)
    (total : Q) : Booking.t :=
  {| Booking.id := id; Booking.hotel_id := 1; Booking.guest_id := Some 1;
     Booking.guest_name := "A. Guest"; Booking.guest_email := "";
     Booking.guest_phone := "0700"; Booking.room_id := Some room;
     Booking.check_in_date := check_in; Booking.check_out_date := check_out;
     Booking.check_in_time_actual := None;
     Booking.check_out_time_actual := None;
     Booking.status := status; Booking.source := "front_desk";
     Booking.booking_reference := "NGD-1";
     Booking.adults := 1; Booking.children := 0;
     Booking.total_amount := total; Booking.amount_paid := 0;
     Booking.balance := 0; Booking.special_requests := "";
     Booking.cancelled_at := None; Booking.cancellation_reason := None |}.

Definition invoice_of (id booking : Z) (total : Q) : Invoice.t :=
  {| Invoice.id := id; Invoice.hotel_id := 1; Invoice.booking_id := booking;
     Invoice.invoice_number := "INV-NGD-1"; Invoice.total := total;
     Invoice.status := "Unpaid" |}.

Definition payment_of (id booking invoice : Z) (amount : Q) : Payment.t :=
  {| Payment.id := id; Payment.hotel_id := 1; Payment.booking_id := booking;
     Payment.invoice_id := Some invoice; Payment.amount := amount;
     Payment.payment_method := "Cash"; Payment.notes := None;
     Payment.deleted_at := None |}.

(** A hotel with one room type at the given nightly rate and the given
    rooms, bookings, invoices and payments; every other table is empty. *)
Definition hotel (rate : Q) (rooms : list Room.t) (bookings : list Booking.t)
    (invoices : list Invoice.t) (payments : list Payment.t) : Store.t :=
  {| Store.room_types := [ {| RoomType.id := 1; RoomType.base_price := rate |} ];
     Store.rooms := rooms;
     Store.room_status_history := [];
     Store.bookings := bookings;
     Store.invoices := invoices;
     Store.payments := payments;
     Store.chart_of_accounts := [];
     Store.journal_entries := [];
     Store.journal_lines := [];
     Store.business_dates := [];
     Store.night_audit_logs := [];
     Store.housekeeping_tasks := [];
     Store.maintenance_issues := [];
     Store.room_service_orders := [];
     Store.restaurant_orders := [];
     Store.notifications := [];
     Store.users := [] |}.

Definition session_of (s : Store.t) : Session.t :=
  {| Session.committed := s; Session.working := s |}.

End Example.

(** ** Lists of rows *)

Section rows.
Context {A : Type} (key : A → Z).


Lemma put_length (x : A) (rows : list A) :
  length (Store.put key x rows) = length rows.
Proof. unfold Store.put. by rewrite length_map. Qed.

(** Looking a key up after a write-back. *)
Lemma find_key_put (x : A) (rows : list A) (k : Z) :
  find (λ y, bool_decide (key y = k)) (Store.put key x rows)
  = if decide (k = key x)
    then (λ _, x) <$> find (λ y, bool_decide (key y = k)) rows
    else find (λ y, bool_decide (key y = k)) rows.
Proof.
  unfold Store.put. induction rows as [|y rows IH]; simpl.
  - by case_decide.
  - destruct (decide (key y = key x)) as [e|n];
      destruct (decide (k = key x)) as [Hk|Hk].
    + subst k. by rewrite !bool_decide_eq_true_2.
    + rewrite !bool_decide_eq_false_2 by congruence. exact IH.
    + subst k. rewrite bool_decide_eq_false_2 by done. exact IH.
    + destruct (bool_decide (key y = k)); [done|]. exact IH.
Qed.

(** A write-back under a key no row carries changes nothing. *)
Lemma put_absent (x : A) (rows : list A) :
  key x ∉ map key rows → Store.put key x rows = rows.
Proof.
  unfold Store.put. induction rows as [|y rows IH]; simpl; [done|].
  intros Hn. apply not_elem_of_cons in Hn as [Hne Hn].
  rewrite decide_False by congruence. by rewrite IH.
Qed.


End rows.

(** The first match in a table that grew at its end. *)
Lemma find_app {A : Type} (P : A → bool) (l1 l2 : list A) :
  find P (l1 ++ l2) = match find P l1 with Some y => Some y | None => find P l2 end.
Proof. induction l1 as [|y l1 IH]; simpl; [done|]. by destruct (P y). Qed.

Lemma find_some_elem {A : Type} (P : A → bool) (l : list A) (x : A) :
  find P l = Some x → x ∈ l ∧ P x = true.
Proof.
  intros Hf. apply find_some in Hf as [Hin HP]. split; [|done].
  by apply list_elem_of_In.
Qed.

(** The next primary key lies above every key in use. *)
Lemma next_id_above (ids : list Z) (k : Z) : k ∈ ids → k < Store.next_id ids.
Proof.
  unfold Store.next_id. induction ids as [|i ids IH]; simpl.
  - by intros ?%elem_of_nil.
  - intros [->|Hin]%elem_of_cons; [lia|]. specialize (IH Hin). lia.
Qed.

Lemma contains_true (x : string) (xs : list string) :
  Py.contains x xs = true ↔ x ∈ xs.
Proof. unfold Py.contains. apply bool_decide_eq_true. Qed.

(** ** Room status transitions *)

(** The transition table of §4.1 of the specification, edge by edge. *)
Definition table_4_1_edges : list (string * string) :=
  [ ("Vacant", "Dirty"); ("Vacant", "Reserved"); ("Vacant", "Maintenance");
    ("Vacant", "Occupied");
    ("Dirty", "Vacant"); ("Dirty", "Maintenance");
    ("Occupied", "Dirty"); ("Occupied", "Maintenance");
    ("Reserved", "Occupied"); ("Reserved", "Vacant"); ("Reserved", "Dirty");
    ("Reserved", "Maintenance");
    ("Maintenance", "Vacant"); ("Maintenance", "Dirty") ].

(** The edges §4.1 blocks regardless of the table. *)
Definition blocked_edges : list (string * string) :=
  [ ("Occupied", "Vacant"); ("Dirty", "Occupied"); ("Dirty", "Reserved") ].

Definition legal_room_edge (current new : string) : Prop :=
  (current, new) ∈ table_4_1_edges ∧ (current, new) ∉ blocked_edges.

Ltac closed_room_edge :=
  unfold legal_room_edge; refine (bool_decide_unpack _ _); vm_compute; exact I.

(** The validator of the room service accepts exactly the legal edges. *)
Lemma room_validator_accepts_exactly (current new : string) :
  (RoomService.RoomStatusValidator.validate_transition current new).1 = true
  ↔ legal_room_edge current new.
Proof.
  unfold RoomService.RoomStatusValidator.validate_transition. split.
  - destruct (RoomService.BLOCKED_TRANSITIONS !! (current, new)) eqn:Hb;
      [done|].
    unfold Py.get_list.
    destruct (RoomService.VALID_ROOM_TRANSITIONS !! current) as [l|] eqn:Hl;
      simpl; [|done].
    destruct (Py.contains new l) eqn:Hc; simpl; [intros _|done].
    apply contains_true in Hc.
    unfold RoomService.VALID_ROOM_TRANSITIONS in Hl.
    repeat (apply lookup_insert_Some in Hl as [[<- <-]|[_ Hl]];
            [set_unfold; destruct_or!; subst; closed_room_edge|]).
    apply lookup_singleton_Some in Hl as [<- <-].
    set_unfold; destruct_or!; subst; closed_room_edge.
  - intros [Ht Hb]. unfold table_4_1_edges in Ht.
    set_unfold. destruct_or!; simplify_eq; vm_compute; reflexivity.
Qed.

Section room_status.
Context `{Py.Lib}.

(** A change the validation rejects leaves the store and the room as they
    were. *)
Lemma change_room_status_rejected (env : Py.Env) (s : Store.t) (room : Room.t)
    (new_status reason : string) (user_id : option Z) :
  (RoomService.RoomStatusValidator.comprehensive_validate
     env s room new_status).1 = false →
  ∃ why,
    RoomService.RoomManagementService.change_room_status
      env s room new_status reason user_id
    = (s, room, (false, why)).
Proof.
  unfold RoomService.RoomManagementService.change_room_status.
  destruct (RoomService.RoomStatusValidator.comprehensive_validate
              env s room new_status) as [valid error]; simpl.
  intros ->. simpl. eauto.
Qed.

(** Passing the whole validation requires passing the table check. *)
Lemma comprehensive_validate_table (env : Py.Env) (s : Store.t)
    (room : Room.t) (new_status : string) :
  (RoomService.RoomStatusValidator.comprehensive_validate
     env s room new_status).1 = true →
  (RoomService.RoomStatusValidator.validate_transition
     (Room.status room) new_status).1 = true.
Proof.
  unfold RoomService.RoomStatusValidator.comprehensive_validate.
  destruct (RoomService.RoomStatusValidator.validate_transition
              (Room.status room) new_status) as [[] ?]; simpl; done.
Qed.

(** C1.  For every room and every requested status, [change_room_status]
    succeeds only along an edge of the §4.1 table that is not blocked, and
    then the room carries the requested status; on any other edge it
    reports failure and leaves the store, the room row included,
    unchanged. *)
Theorem room_status_changes_follow_the_table (env : Py.Env) (s : Store.t)
    (room : Room.t) (new_status reason : string) (user_id : option Z) :
  let '(s', room', (success, _)) :=
    RoomService.RoomManagementService.change_room_status
      env s room new_status reason user_id in
  (success = true →
     legal_room_edge (Room.status room) new_status
     ∧ Room.status room' = new_status)
  ∧ (¬ legal_room_edge (Room.status room) new_status →
     success = false ∧ s' = s ∧ room' = room).
Proof.
  destruct (RoomService.RoomStatusValidator.comprehensive_validate
              env s room new_status) as [valid error] eqn:Hv.
  destruct valid.
  - assert (legal_room_edge (Room.status room) new_status) as Hlegal.
    { apply room_validator_accepts_exactly, (comprehensive_validate_table env s).
      by rewrite Hv. }
    unfold RoomService.RoomManagementService.change_room_status.
    rewrite Hv. simpl. split; [done|]. intros Hn. by destruct Hn.
  - destruct (change_room_status_rejected env s room new_status reason user_id)
      as [why ->]; [by rewrite Hv|].
    split; [done|]. done.
Qed.

End room_status.

(** ** Booking status transitions *)

(** The booking machine of §4.2 of the specification, edge by edge. *)
Definition booking_edges : list (string * string) :=
  [ ("Reserved", "CheckedIn"); ("Reserved", "Cancelled");
    ("Reserved", "NoShow"); ("CheckedIn", "CheckedOut") ].

Definition terminal_booking_status (status : string) : Prop :=
  status = "CheckedOut" ∨ status = "Cancelled" ∨ status = "NoShow".

(** A sequence of requested transitions, each put through
    [BookingStateMachine.change_status]; a rejected request leaves the
    booking where it was. *)
Definition request_all (env : Py.Env) (requests : list string)
    (start : Store.t * Booking.t) : Store.t * Booking.t :=
  fold_left
    (λ '(s, b) new_status,
       let '(s', b', _) :=
         BookingSvc.BookingStateMachine.change_status
           env s b new_status None None in
       (s', b'))
    requests start.

Ltac closed_booking_edge :=
  refine (bool_decide_unpack _ _); vm_compute; exact I.

Lemma booking_validator_accepts_exactly (current new : string) :
  (BookingSvc.BookingStateMachine.validate_transition current new).1 = true
  ↔ (current, new) ∈ booking_edges.
Proof.
  unfold BookingSvc.BookingStateMachine.validate_transition. split.
  - case_decide as Hs; [done|].
    unfold Py.get_list.
    destruct (BookingSvc.BOOKING_STATUS_TRANSITIONS !! current) as [l|] eqn:Hl;
      simpl; [|done].
    destruct (Py.contains new l) eqn:Hc; simpl; [intros _|done].
    apply contains_true in Hc.
    unfold BookingSvc.BOOKING_STATUS_TRANSITIONS in Hl.
    repeat (apply lookup_insert_Some in Hl as [[<- <-]|[_ Hl]];
            [set_unfold; destruct_or!; subst; try done; closed_booking_edge|]).
    apply lookup_singleton_Some in Hl as [<- <-].
    by apply elem_of_nil in Hc.
  - intros Ht. unfold booking_edges in Ht.
    set_unfold. destruct_or!; simplify_eq; vm_compute; reflexivity.
Qed.

Lemma booking_validator_reason (current new : string) :
  (BookingSvc.BookingStateMachine.validate_transition current new).1 = false →
  (BookingSvc.BookingStateMachine.validate_transition current new).2 ≠ "".
Proof.
  unfold BookingSvc.BookingStateMachine.validate_transition.
  case_decide; [done|].
  destruct (Py.contains new _); simpl; done.
Qed.

(** The status after a request: the requested one along an edge, the old
    one otherwise. *)
Lemma change_status_status (env : Py.Env) (s : Store.t) (b : Booking.t)
    (new_status : string) (user_id : option Z) (reason : option string) :
  let '(_, b', (success, _)) :=
    BookingSvc.BookingStateMachine.change_status
      env s b new_status user_id reason in
  (success = true ∧ (Booking.status b, new_status) ∈ booking_edges
   ∧ Booking.status b' = new_status)
  ∨ (success = false ∧ b' = b).
Proof.
  unfold BookingSvc.BookingStateMachine.change_status.
  pose proof (booking_validator_accepts_exactly (Booking.status b) new_status)
    as Hv.
  destruct (BookingSvc.BookingStateMachine.validate_transition
              (Booking.status b) new_status) as [[] msg]; simpl in *.
  - left. split; [done|]. split; [by apply Hv|].
    unfold BookingSvc.BookingStateMachine.stamp.
    repeat case_decide; try done. by destruct (BookingSvc.truthy_str reason).
  - by right.
Qed.

Lemma request_all_leaves_reserved (env : Py.Env) (requests : list string)
    (s : Store.t) (b : Booking.t) :
  Booking.status b ≠ "Reserved" →
  Booking.status (request_all env requests (s, b)).2 ≠ "Reserved".
Proof.
  revert s b. induction requests as [|r requests IH]; intros s b Hb; [done|].
  unfold request_all. simpl. fold (request_all env requests).
  pose proof (change_status_status env s b r None None) as Hstep.
  destruct (BookingSvc.BookingStateMachine.change_status env s b r None None)
    as [[s' b'] [success msg]].
  apply IH. destruct Hstep as [(_ & Hedge & ->)|[_ ->]]; [|done].
  unfold booking_edges in Hedge. set_unfold.
  destruct_or!; simplify_eq; done.
Qed.

(** C2.  The transition validator accepts exactly the edges
    Reserved→{CheckedIn, Cancelled, NoShow} and CheckedIn→{CheckedOut}: it
    rejects every same-state request and every other edge, each time with
    a reason; CheckedOut, Cancelled and NoShow have no way out; and a
    booking that has left Reserved is never Reserved again, whatever
    transitions are requested of it afterwards. *)
Theorem booking_status_moves_strictly_forward :
  (∀ current new,
     (BookingSvc.BookingStateMachine.validate_transition current new).1 = true
     ↔ (current, new) ∈ booking_edges)
  ∧ (∀ status,
       (BookingSvc.BookingStateMachine.validate_transition status status).1
       = false)
  ∧ (∀ current new,
       (BookingSvc.BookingStateMachine.validate_transition current new).1
       = false →
       (BookingSvc.BookingStateMachine.validate_transition current new).2
       ≠ "")
  ∧ (∀ current new,
       terminal_booking_status current →
       (BookingSvc.BookingStateMachine.validate_transition current new).1
       = false)
  ∧ (∀ env requests s b,
       Booking.status b ≠ "Reserved" →
       Booking.status (request_all env requests (s, b)).2 ≠ "Reserved").
Proof.
  split; [exact booking_validator_accepts_exactly|].
  split.
  { intros status.
    unfold BookingSvc.BookingStateMachine.validate_transition.
    by rewrite decide_True. }
  split; [exact booking_validator_reason|].
  split; [|exact request_all_leaves_reserved].
  intros current new Hterm.
  destruct (BookingSvc.BookingStateMachine.validate_transition current new).1
    eqn:Hv; [|done].
  apply booking_validator_accepts_exactly in Hv.
  unfold booking_edges in Hv. set_unfold.
  destruct Hterm as [->| [->| ->]]; destruct_or!; simplify_eq.
Qed.

(** ** Check-out *)

(** The balance [calculate_balance] arrives at. *)
Definition recomputed_balance (s : Store.t) (b : Booking.t) : Q :=
  (Booking.total_amount b
   - Py.sum (map Payment.amount (Store.booking_payments s b)))%Q.

(** The task the checkout path creates for a room. *)
Definition checkout_task (s : Store.t) (room : Room.t) : HousekeepingTask.t :=
  {| HousekeepingTask.id :=
       Store.next_id (map HousekeepingTask.id (Store.housekeeping_tasks s));
     HousekeepingTask.hotel_id := Room.hotel_id room;
     HousekeepingTask.room_id := Room.id room;
     HousekeepingTask.task_type := "checkout_clean";
     HousekeepingTask.priority := "high";
     HousekeepingTask.status := "pending";
     HousekeepingTask.notes := "Checkout cleaning - Room " ++ Room.room_number room |}.

Lemma gt0_true (x : Q) : Py.gt0 x = true ↔ (0 < x)%Q.
Proof.
  unfold Py.gt0. destruct (Qlt_le_dec 0 x) as [Hlt|Hle]; split; try done.
  intros Hlt. exfalso. by apply (Qle_not_lt _ _ Hle).
Qed.

Lemma booking_room_put_room (s : Store.t) (b : Booking.t) (room room' : Room.t) :
  Store.booking_room s b = Some room → Room.id room' = Room.id room →
  Store.booking_room (Store.put_room room' s) b = Some room'.
Proof.
  unfold Store.booking_room, Store.put_room.
  destruct (Booking.room_id b) as [rid|]; [|done]. simpl.
  intros Hf Hid. rewrite find_key_put.
  apply find_some_elem in Hf as Hr. destruct Hr as [_ Hr].
  apply bool_decide_eq_true in Hr.
  rewrite decide_True by congruence. by rewrite Hf.
Qed.


Lemma booking_room_put_booking (s : Store.t) (b b0 : Booking.t) :
  Store.booking_room (Store.put_booking b0 s) b = Store.booking_room s b.
Proof. reflexivity. Qed.

Lemma stamp_checked_out (env : Py.Env) (reason : option string) (b : Booking.t) :
  BookingSvc.BookingStateMachine.stamp env "CheckedOut" reason b
  = Booking.with_check_out_time_actual (Some (Py.utcnow env)) b.
Proof. reflexivity. Qed.

(** The checkout path on an occupied room: the room becomes Dirty, one
    history row and one cleaning task are appended. *)
Lemma check_out_room_occupied (s : Store.t) (room : Room.t) (b : Booking.t)
    (user_id : option Z) :
  Room.status room = "Occupied" →
  ∃ s1 msg,
    BookingSvc.RoomStatusService.check_out_room s (Some room) b user_id
    = (s1, (true, msg))
    ∧ Store.rooms s1 = Store.put Room.id (Room.with_status "Dirty" room) (Store.rooms s)
    ∧ Store.housekeeping_tasks s1
      = (Store.housekeeping_tasks s ++ [checkout_task s room])%list
    ∧ Store.bookings s1 = Store.bookings s.
Proof.
  intros Hocc.
  unfold BookingSvc.RoomStatusService.check_out_room,
    Housekeeping.CheckoutProcessor.process_checkout,
    Housekeeping.RoomStatusManager.change_status.
  rewrite Hocc.
  change (Housekeeping.RoomStatusManager.validate_transition "Occupied" "Dirty")
    with (true, "").
  simpl. eexists _, _. split; [reflexivity|]. done.
Qed.

Section check_out.
Context `{Py.Lib}.

(** C7.  Check-out requires status CheckedIn and a settled balance, the
    balance being recomputed from the payments first: any other status
    fails without a change; a recomputed balance above zero fails and the
    booking stays CheckedIn, with no room or task touched; with a balance
    of zero the booking becomes CheckedOut, its actual check-out time is
    recorded, its Occupied room becomes Dirty and one checkout-cleaning
    task (high priority, pending) is created for the room. *)
Theorem check_out_requires_settled_balance (env : Py.Env) (s : Store.t)
    (b : Booking.t) (user_id : option Z) :
  let '(s', b', (success, _)) :=
    BookingSvc.BookingService.check_out env s b user_id in
  (Booking.status b ≠ "CheckedIn" → success = false ∧ s' = s ∧ b' = b)
  ∧ (Booking.status b = "CheckedIn" → (0 < recomputed_balance s b)%Q →
     success = false ∧ Booking.status b' = "CheckedIn"
     ∧ Booking.check_out_time_actual b' = Booking.check_out_time_actual b
     ∧ Store.rooms s' = Store.rooms s
     ∧ Store.housekeeping_tasks s' = Store.housekeeping_tasks s)
  ∧ (Booking.status b = "CheckedIn" → (recomputed_balance s b == 0)%Q →
     ∀ room, Store.booking_room s b = Some room →
             Room.status room = "Occupied" →
     success = true ∧ Booking.status b' = "CheckedOut"
     ∧ Booking.check_out_time_actual b' = Some (Py.utcnow env)
     ∧ Store.booking_room s' b' = Some (Room.with_status "Dirty" room)
     ∧ Store.housekeeping_tasks s'
       = (Store.housekeeping_tasks s ++ [checkout_task s room])%list).
Proof.
  destruct (BookingSvc.BookingService.check_out env s b user_id)
    as [[s' b'] [success msg]] eqn:Hres.
  unfold BookingSvc.BookingService.check_out in Hres.
  split; [|split].
  - intros Hne. rewrite decide_True in Hres by done. by simplify_eq.
  - intros Hst Hpos. rewrite decide_False in Hres by (by intros []).
    unfold calculate_balance in Hres. fold (recomputed_balance s b) in Hres.
    simpl in Hres. apply gt0_true in Hpos. rewrite Hpos in Hres.
    by simplify_eq.
  - intros Hst Hz room Hroom Hocc.
    rewrite decide_False in Hres by (by intros []).
    unfold calculate_balance in Hres. fold (recomputed_balance s b) in Hres.
    simpl in Hres.
    assert (Py.gt0 (recomputed_balance s b) = false) as Hg.
    { destruct (Py.gt0 _) eqn:Hg; [|done]. apply gt0_true in Hg.
      rewrite Hz in Hg. by apply Qlt_irrefl in Hg. }
    rewrite Hg in Hres.
    unfold BookingSvc.BookingStateMachine.change_status in Hres.
    simpl in Hres. rewrite Hst in Hres.
    change (BookingSvc.BookingStateMachine.validate_transition
              "CheckedIn" "CheckedOut") with (true, "") in Hres.
    simpl in Hres.
    rewrite stamp_checked_out, !booking_room_put_booking in Hres.
    change (Store.booking_room s _) with (Store.booking_room s b) in Hres.
    rewrite Hroom in Hres.
    match type of Hres with
    | context [BookingSvc.RoomStatusService.check_out_room ?s2 _ ?b2 _] =>
        destruct (check_out_room_occupied s2 room b2 user_id Hocc)
          as (s1 & m & Hco & Hrooms & Htasks & _)
    end.
    rewrite Hco in Hres. simpl in Hres. simplify_eq.
    split; [done|]. split; [done|]. split; [done|]. split; [|done].
    unfold Store.booking_room in *. simpl in *.
    destruct (Booking.room_id b) as [rid|]; [|done].
    rewrite Hrooms, find_key_put.
    apply find_some_elem in Hroom as Hr. destruct Hr as [_ Hr].
    apply bool_decide_eq_true in Hr. simpl.
    rewrite decide_True by congruence. by rewrite Hroom.
Qed.
End check_out.

(** ** Check-in *)

(** A room that passes the readiness test is Vacant or Reserved. *)
Lemma can_check_in_ready (room : Room.t) :
  (Housekeeping.RoomStatusManager.can_check_in room).1 = true →
  Room.status room = "Vacant" ∨ Room.status room = "Reserved".
Proof.
  unfold Housekeeping.RoomStatusManager.can_check_in.
  repeat case_decide; simpl; auto; done.
Qed.

(** With the room step of the source, a room that passed the readiness
    test always reaches Occupied: the branch of [check_in] that undoes the
    booking transition is not entered. *)
Lemma check_in_room_moves_a_ready_room (s : Store.t) (room : Room.t)
    (b : Booking.t) (user_id : option Z) :
  (Housekeeping.RoomStatusManager.can_check_in room).1 = true →
  (BookingSvc.RoomStatusService.check_in_room s room b user_id).2.1 = true.
Proof.
  intros Hready. unfold BookingSvc.RoomStatusService.check_in_room.
  destruct (Housekeeping.RoomStatusManager.can_check_in room)
    as [ok why] eqn:Hc. simpl in Hready. subst ok. simpl.
  unfold Housekeeping.RoomStatusManager.change_status.
  assert ((Housekeeping.RoomStatusManager.can_check_in room).1 = true) as Hr
    by (by rewrite Hc).
  destruct (can_check_in_ready room Hr) as [->| ->]; reflexivity.
Qed.

(** What the undo branch of [check_in] leaves behind, whatever room step
    reports the failure: the status is Reserved again, the actual check-in
    time set by the transition stays. *)
Lemma check_in_undo_branch
    (room_step : Store.t → Room.t → Booking.t → option Z
                 → Store.t * (bool * string))
    (env : Py.Env) (s : Store.t) (b : Booking.t) (room : Room.t)
    (user_id : option Z) :
  Booking.status b = "Reserved" →
  Store.booking_room s b = Some room →
  (Housekeeping.RoomStatusManager.can_check_in room).1 = true →
  (∀ s1 b1, (room_step s1 room b1 user_id).2.1 = false) →
  ∃ s' b' why,
    BookingSvc.BookingService.check_in_via room_step env s b user_id
    = Py.Returned (s', b', (false, why))
    ∧ Booking.status b' = "Reserved"
    ∧ Booking.check_in_time_actual b' = Some (Py.utcnow env).
Proof.
  intros Hst Hroom Hready Hfail.
  unfold BookingSvc.BookingService.check_in_via.
  rewrite decide_False by (by intros []). rewrite Hroom.
  destruct (Housekeeping.RoomStatusManager.can_check_in room)
    as [ok why] eqn:Hc. simpl in Hready. subst ok. simpl.
  unfold BookingSvc.BookingStateMachine.change_status. rewrite Hst.
  change (BookingSvc.BookingStateMachine.validate_transition
            "Reserved" "CheckedIn") with (true, "").
  simpl.
  match goal with
  | |- context [room_step ?s1 room ?b1 user_id] =>
      specialize (Hfail s1 b1);
      destruct (room_step s1 room b1 user_id) as [s2 [ok m]]
  end.
  simpl in Hfail. subst ok. simpl. eexists _, _, _. split; [reflexivity|].
  done.
Qed.


Definition reserved_booking : Booking.t :=
  Example.booking_of 1 101 "Reserved" 739000 739003 300000.



(** ** Booking creation *)

(** [Booking.query.filter(...)] of the availability check: the active
    bookings of the room that overlap the requested nights. *)
Definition overlapping (s : Store.t) (hotel_id : Z) (room : Room.t)
    (check_in_date check_out_date : Z) : list Booking.t :=
  filter (λ b, Booking.room_id b = Some (Room.id room)
               ∧ Booking.hotel_id b = hotel_id
               ∧ (Booking.status b = "Reserved" ∨ Booking.status b = "CheckedIn")
               ∧ Booking.check_in_date b < check_out_date
               ∧ check_in_date < Booking.check_out_date b)
         (Store.bookings s).

Section create_booking.
Context `{Py.Lib}.

Lemma no_overlap_found (s : Store.t) (hotel_id : Z) (room : Room.t)
    (check_in_date check_out_date : Z) :
  overlapping s hotel_id room check_in_date check_out_date = [] →
  find (λ b,
          bool_decide (Booking.room_id b = Some (Room.id room))
          && bool_decide (Booking.hotel_id b = hotel_id)
          && Py.contains (Booking.status b) ["Reserved"; "CheckedIn"]
          && bool_decide (Booking.check_in_date b < check_out_date)
          && bool_decide (check_in_date < Booking.check_out_date b))
       (Store.bookings s) = None.
Proof.
  unfold overlapping. intros Hnone.
  destruct (find _ _) as [b|] eqn:Hf; [|done].
  apply find_some_elem in Hf as [Hin HP].
  repeat (apply andb_true_iff in HP as [HP ?]).
  assert (b ∈ ([] : list Booking.t)) as Habs; [|by apply elem_of_nil in Habs].
  rewrite <- Hnone. apply list_elem_of_filter. split; [|done].
  repeat match goal with
         | Hb : bool_decide _ = true |- _ => apply bool_decide_eq_true in Hb
         end.
  match goal with Hc : Py.contains _ _ = true |- _ =>
    apply contains_true in Hc; set_unfold in Hc end.
  repeat split; try done. destruct_or!; auto; done.
Qed.

(** C10.  Whenever the room's physical status is Occupied or Maintenance,
    [create_booking] creates nothing: it returns no booking together with a
    reason, and the bookings table is as before.  This holds even when
    the dates are in order and no Reserved or CheckedIn booking overlaps
    them; the session is then rolled back and the reason names the room
    status.  (The call can only raise when the room has no room type.) *)
Theorem create_booking_refuses_unavailable_room (sess : Session.t)
    (hotel_id : Z) (guest : Guest.t) (room : Room.t)
    (check_in_date check_out_date adults children : Z)
    (special_requests source : string) (user_id : option Z) (token : string) :
  Room.status room = "Occupied" ∨ Room.status room = "Maintenance" →
  match BookingSvc.BookingService.create_booking sess hotel_id guest room
          check_in_date check_out_date adults children special_requests
          source user_id token with
  | Py.Returned (sess', (created, message)) =>
      created = None ∧ message ≠ ""
      ∧ Store.bookings (Session.working sess')
        ∈ [Store.bookings (Session.working sess);
           Store.bookings (Session.committed sess)]
      ∧ (check_in_date < check_out_date →
         overlapping (Session.working sess) hotel_id room
           check_in_date check_out_date = [] →
         sess' = Session.rollback sess
         ∧ message ∈ ["Cannot reserve an occupied room";
                       "Cannot reserve a room under maintenance"])
  | Py.Raised _ => Store.room_room_type (Session.working sess) room = None
  end.
Proof.
  intros Hst. unfold BookingSvc.BookingService.create_booking.
  case_decide as Hd.
  { split; [done|]. split; [done|]. split; [by constructor|]. lia. }
  destruct (find _ (Store.bookings (Session.working sess))) as [o|] eqn:Hov.
  { split; [done|]. split; [done|]. split; [by constructor|].
    intros _ Hnone. by rewrite (no_overlap_found _ _ _ _ _ Hnone) in Hov. }
  destruct (Store.room_room_type (Session.working sess) room) as [rt|]; [|done].
  unfold BookingSvc.RoomStatusService.reserve_room. simpl.
  destruct Hst as [-> | ->]; simpl;
    (split; [done|]; split; [done|]; split; [by do 2 constructor|];
     intros _ _; split; [done|]; by repeat constructor).
Qed.

End create_booking.

Definition occupied_hotel : Store.t :=
  Example.hotel 100000 [Example.room_of 101 "101" "Occupied"] [] [] [].

Definition walk_in : Guest.t :=
  {| Guest.id := 1; Guest.name := "A. Guest"; Guest.phone := "0700";
     Guest.email := None |}.

Lemma create_booking_refuses_unavailable_room_witness :
  match BookingSvc.BookingService.create_booking (H := Example.lib)
          (Example.session_of occupied_hotel) 1 walk_in
          (Example.room_of 101 "101" "Occupied") 739010 739013 2 0
          "" "front_desk" (Some 7) "A1B2C3" with
  | Py.Returned (sess', (created, message)) =>
      created = None ∧ message ≠ ""
      ∧ Store.bookings (Session.working sess')
        ∈ [Store.bookings (Session.working (Example.session_of occupied_hotel));
           Store.bookings (Session.committed (Example.session_of occupied_hotel))]
      ∧ (739010 < 739013 →
         overlapping (Session.working (Example.session_of occupied_hotel)) 1
           (Example.room_of 101 "101" "Occupied") 739010 739013 = [] →
         sess' = Session.rollback (Example.session_of occupied_hotel)
         ∧ message ∈ ["Cannot reserve an occupied room";
                       "Cannot reserve a room under maintenance"])
  | Py.Raised _ =>
      Store.room_room_type
        (Session.working (Example.session_of occupied_hotel))
        (Example.room_of 101 "101" "Occupied") = None
  end.
Proof.
  apply (create_booking_refuses_unavailable_room (H := Example.lib)).
  left. reflexivity.
Defined.

(** The refusal of the example, spelled out. *)
Example create_booking_on_occupied_room :
  BookingSvc.BookingService.create_booking (H := Example.lib)
    (Example.session_of occupied_hotel) 1 walk_in
    (Example.room_of 101 "101" "Occupied") 739010 739013 2 0
    "" "front_desk" (Some 7) "A1B2C3"
  = Py.Returned (Example.session_of occupied_hotel,
                 (None, "Cannot reserve an occupied room")).
Proof. vm_compute. reflexivity. Qed.


(** ** Cancellation *)

(** The fee tiers: free from seven days before check-in, half from three,
    the whole amount below three. *)
Lemma fee_percent_tiers (days : Z) :
  BookingSvc.BookingService.fee_percent_for days
  = if decide (7 ≤ days) then 0.0%Q
    else if decide (3 ≤ days) then 0.5%Q else 1.0%Q.
Proof.
  unfold BookingSvc.BookingService.fee_percent_for,
    BookingSvc.CANCELLATION_POLICY. simpl.
  repeat case_bool_decide; repeat case_decide; try lia; reflexivity.
Qed.

(** Scenario D: total 200,000, nothing paid, cancelled two days before
    check-in. *)
Definition scenario_d_booking : Booking.t :=
  Example.booking_of 1 101 "Reserved" 739002 739004 200000.

Definition scenario_d : Store.t :=
  Example.hotel 100000 [Example.room_of 101 "101" "Vacant"]
    [scenario_d_booking] [Example.invoice_of 1 1 200000] [].


Section cancellation.
Context `{Py.Lib}.

(** C5, at Scenario D.  The tier is 100%, so the fee is 200,000; it is
    stored as a payment of +200,000 on the booking and added to the invoice
    total, and no refund is posted.  The recomputed balance counts the fee
    among the payments: the booking ends with 200,000 paid and a balance of
    0, not with 200,000 owed. *)
Theorem cancelling_scenario_d_leaves_no_balance :
  ∃ s' b' message,
    BookingSvc.BookingService.cancel_booking
      Example.env scenario_d scenario_d_booking "" (Some 7)
    = Py.Returned (s', b', (true, message))
    ∧ Booking.status b' = "Cancelled"
    ∧ (∃ fee,
         Store.payments s' = [fee]
         ∧ Payment.payment_method fee = "Cancellation Fee"
         ∧ (Payment.amount fee == 200000)%Q)
    ∧ (∃ invoice,
         Store.booking_invoice s' b' = Some invoice
         ∧ (Invoice.total invoice == 400000)%Q)
    ∧ (Booking.amount_paid b' == 200000)%Q
    ∧ (Booking.balance b' == 0)%Q
    ∧ ¬ (Booking.balance b' == 200000)%Q.
Proof.
  eexists _, _, _. split; [vm_compute; reflexivity|].
  split; [reflexivity|].
  split; [eexists; split; [reflexivity|]; split; reflexivity|].
  split; [eexists; split; [reflexivity|]; reflexivity|].
  split; [reflexivity|]. split; [reflexivity|]. intros Heq. discriminate Heq.
Qed.

(** The same recomputation decides the refund.  A guest who paid the whole
    200,000 and cancels ten days ahead owes no fee and is refunded
    nothing. *)
Example paid_in_full_free_cancellation_no_refund :
  let paid := Example.payment_of 1 1 1 200000 in
  let booking := Example.booking_of 1 101 "Reserved" 739010 739012 200000 in
  let s :=
    Example.hotel 100000 [Example.room_of 101 "101" "Vacant"]
      [booking] [Example.invoice_of 1 1 200000] [paid] in
  ∃ s' b' message,
    BookingSvc.BookingService.cancel_booking Example.env s booking "" (Some 7)
    = Py.Returned (s', b', (true, message))
    ∧ Store.payments s' = [paid].
Proof. eexists _, _, _. split; [vm_compute; reflexivity|]. reflexivity. Qed.

(** A guest who paid 100,000 and cancels two days ahead owes a fee of
    200,000 and is refunded 100,000. *)
Example part_paid_late_cancellation_refunds :
  let paid := Example.payment_of 1 1 1 100000 in
  let booking := Example.booking_of 1 101 "Reserved" 739002 739004 200000 in
  let s :=
    Example.hotel 100000 [Example.room_of 101 "101" "Vacant"]
      [booking] [Example.invoice_of 1 1 200000] [paid] in
  ∃ s' b' message fee refund,
    BookingSvc.BookingService.cancel_booking Example.env s booking "" (Some 7)
    = Py.Returned (s', b', (true, message))
    ∧ Store.payments s' = [paid; fee; refund]
    ∧ Payment.payment_method refund = "Refund"
    ∧ (Payment.amount refund == -100000)%Q.
Proof.
  eexists _, _, _, _, _. split; [vm_compute; reflexivity|].
  split; [reflexivity|]. split; reflexivity.
Qed.

End cancellation.

(** ** Payments *)










(** ** Night audit on a closed date *)

(** [BusinessDate.query.filter_by(hotel_id=..).first()] *)
Definition business_date_of (s : Store.t) (hotel_id : Z)
    : option BusinessDate.t :=
  find (λ d, bool_decide (BusinessDate.hotel_id d = hotel_id))
       (Store.business_dates s).

(** The answer of a run that finds the date closed. *)
Definition already_closed : Routes.response :=
  {| Routes.flashes :=
       [("Business day is already closed and locked.", "warning")];
     Routes.redirect := "hms.night_audit" |}.

(** Writing back the row that was appended last. *)
Lemma put_last {A : Type} (key : A → Z) (x y : A) (rows : list A) :
  key x = key y → key y ∉ map key rows →
  Store.put key x (rows ++ [y]) = (rows ++ [x])%list.
Proof.
  intros Hk Hn. unfold Store.put. rewrite map_app. simpl.
  rewrite decide_True by done. f_equal.
  rewrite <- Hk in Hn. exact (put_absent key x rows Hn).
Qed.

Lemma next_id_fresh (ids : list Z) : Store.next_id ids ∉ ids.
Proof. intros Hin. apply next_id_above in Hin. lia. Qed.

Section closed_date.
Context `{Py.Lib}.

(** Only a run that finds the date closed gives the already-closed
    answer. *)
Lemma already_closed_only_on_closed_date (env : Py.Env) (sess : Session.t)
    (hotel_id : option Z) (current_user_id : Z) :
  (Routes.run_night_audit env sess hotel_id current_user_id).2
  = already_closed →
  ∃ h d, hotel_id = Some h
         ∧ business_date_of (Session.working sess) h = Some d
         ∧ BusinessDate.is_closed d = true.
Proof.
  unfold Routes.run_night_audit, already_closed.
  destruct (negb (Py.truthy_id hotel_id)); [simpl; intros [=]|].
  destruct hotel_id as [h|]; [|simpl; intros [=]].
  unfold Routes.start_audit_log, Routes.get_or_create_business_date.
  cbn [Store.business_dates Store.with_night_audit_logs].
  fold (business_date_of (Session.working sess) h).
  destruct (business_date_of (Session.working sess) h) as [d|] eqn:Hd.
  - destruct (BusinessDate.is_closed d) eqn:Hclosed; [by eauto|].
    destruct (Routes.post_room_revenue _ _ _) as [[s2 rp] rc].
    simpl. intros [=].
  - cbn [BusinessDate.is_closed].
    destruct (Routes.post_room_revenue _ _ _) as [[s2 rp] rc].
    simpl. intros [=].
Qed.

(** C6.  A night audit run against a business date that is already closed
    is a no-op on the ledger: the committed store differs from the store
    before the run in the audit log alone (so no journal entry or line, no
    invoice, booking or payment, and not the business date has changed),
    the log gains one record marked failed with "Day already closed", and
    the answer is the already-closed one, which no run on an open date
    gives. *)
Theorem night_audit_on_closed_date_changes_nothing (env : Py.Env)
    (sess : Session.t) (hotel_id current_user_id : Z) (d : BusinessDate.t) :
  hotel_id ≠ 0 →
  business_date_of (Session.working sess) hotel_id = Some d →
  BusinessDate.is_closed d = true →
  let '(sess', answer) :=
    Routes.run_night_audit env sess (Some hotel_id) current_user_id in
  let s := Session.working sess in
  let s' := Session.committed sess' in
  answer = already_closed
  ∧ Session.working sess' = s'
  ∧ Store.with_night_audit_logs (Store.night_audit_logs s) s' = s
  ∧ (∃ log,
       Store.night_audit_logs s' = (Store.night_audit_logs s ++ [log])%list
       ∧ NightAuditLog.status log = "failed"
       ∧ NightAuditLog.errors log = Some "Day already closed")
  ∧ (∀ env0 sess0 hotel0 user0,
       (Routes.run_night_audit env0 sess0 hotel0 user0).2 = answer →
       ∃ h0 d0, hotel0 = Some h0
                ∧ business_date_of (Session.working sess0) h0 = Some d0
                ∧ BusinessDate.is_closed d0 = true).
Proof.
  intros Hh Hd Hclosed. unfold Routes.run_night_audit.
  unfold Py.truthy_id. rewrite bool_decide_eq_true_2 by done.
  unfold Routes.start_audit_log, Routes.get_or_create_business_date.
  cbn [negb Store.business_dates Store.with_night_audit_logs].
  unfold business_date_of in Hd. rewrite Hd. rewrite Hclosed. simpl.
  split; [reflexivity|]. split; [reflexivity|].
  split; [by destruct (Session.working sess)|].
  split.
  - eexists. split.
    + apply put_last; [done|]. simpl. apply next_id_fresh.
    + done.
  - intros env0 sess0 hotel0 user0.
    apply already_closed_only_on_closed_date.
Qed.

End closed_date.

(** A hotel whose business date is closed, with a guest in house. *)
Definition closed_hotel : Store.t :=
  Store.with_business_dates
    [ {| BusinessDate.id := 1; BusinessDate.hotel_id := 1;
         BusinessDate.current_business_date := 739001;
         BusinessDate.is_closed := true;
         BusinessDate.updated_at := None |} ]
    (Example.hotel 50000 [Example.room_of 101 "101" "Occupied"]
       [Example.booking_of 1 101 "CheckedIn" 739000 739003 150000]
       [Example.invoice_of 1 1 150000] []).

Lemma night_audit_on_closed_date_changes_nothing_witness :
  let '(sess', answer) :=
    Routes.run_night_audit (H := Example.lib) Example.env
      (Example.session_of closed_hotel) (Some 1) 7 in
  let s := Session.working (Example.session_of closed_hotel) in
  let s' := Session.committed sess' in
  answer = already_closed
  ∧ Session.working sess' = s'
  ∧ Store.with_night_audit_logs (Store.night_audit_logs s) s' = s
  ∧ (∃ log,
       Store.night_audit_logs s' = (Store.night_audit_logs s ++ [log])%list
       ∧ NightAuditLog.status log = "failed"
       ∧ NightAuditLog.errors log = Some "Day already closed")
  ∧ (∀ env0 sess0 hotel0 user0,
       (Routes.run_night_audit (H := Example.lib) env0 sess0 hotel0 user0).2
       = answer →
       ∃ h0 d0, hotel0 = Some h0
                ∧ business_date_of (Session.working sess0) h0 = Some d0
                ∧ BusinessDate.is_closed d0 = true).
Proof.
  apply (night_audit_on_closed_date_changes_nothing (H := Example.lib)
           Example.env (Example.session_of closed_hotel) 1 7
           {| BusinessDate.id := 1; BusinessDate.hotel_id := 1;
              BusinessDate.current_business_date := 739001;
              BusinessDate.is_closed := true;
              BusinessDate.updated_at := None |});
    [lia | reflexivity | reflexivity].
Defined.

(** ** Balanced journal entries *)





(** *** Sums of decimals *)




(** *** The journal as it grows *)

Definition lines_of (k : Z) (ls : list JournalLine.t) : list JournalLine.t :=
  filter (λ l, JournalLine.journal_entry_id l = k) ls.

(** The growth of the journal from [s] to [s']: new entries under fresh
    keys, and new lines that belong to the new entries and balance entry
    by entry. *)
Definition posts (s s' : Store.t) : Prop :=
  ∃ es ls,
    Store.journal_entries s' = (Store.journal_entries s ++ es)%list
    ∧ Store.journal_lines s' = (Store.journal_lines s ++ ls)%list
    ∧ (∀ e k, e ∈ es → k ∈ map JournalEntry.id (Store.journal_entries s) →
              k < JournalEntry.id e)
    ∧ (∀ l, l ∈ ls →
            JournalLine.journal_entry_id l ∈ map JournalEntry.id es)
    ∧ (∀ k, (Py.sum (map JournalLine.debit (lines_of k ls))
             == Py.sum (map JournalLine.credit (lines_of k ls)))%Q).





(** The memorandum entry of the room service has no lines. *)
Lemma posts_memo (s : Store.t) (hotel_id : Z) (reference : option string)
    (date : Z) :
  posts s (Ledger.add_journal_entry s hotel_id reference date).1.
Proof.
  simpl. eexists [_], []. simpl. rewrite app_nil_r.
  split; [reflexivity|]. split; [reflexivity|]. split; [|split].
  - intros e k ->%list_elem_of_singleton Hk. simpl. by apply next_id_above.
  - intros l Hin. by apply elem_of_nil in Hin.
  - intros k. reflexivity.
Qed.


(** *** What each operation posts *)










Section services.
Context `{Py.Lib}.









End services.

Section ledger.
Context `{Py.Lib}.


End ledger.




(** ** Night audit on an open date *)

(** The amount the audit charges a booking: the base price of its room's
    type, provided the booking has a room, the room a type, the price is
    above zero and the booking has an invoice. *)
Definition nightly_charge (s : Store.t) (b : Booking.t) : option Q :=
  match Store.booking_room s b with
  | None => None
  | Some room =>
      match Store.room_room_type s room with
      | None => None
      | Some room_type =>
          let room_rate := Py.or_zero (RoomType.base_price room_type) in
          if Py.gt0 room_rate then
            match Store.booking_invoice s b with
            | Some _ => Some room_rate
            | None => None
            end
          else None
      end
  end.

(** The occupied bookings the audit charges, each with its charge. *)
Definition charged (s : Store.t) (bs : list Booking.t)
    : list (Booking.t * Q) :=
  omap (λ b, (λ rate, (b, rate)) <$> nightly_charge s b) bs.

(** The lines of an entry as account, debit, credit. *)
Definition postings (s : Store.t) (e : JournalEntry.t) : list (Z * Q * Q) :=
  map (λ l, (JournalLine.account_id l, JournalLine.debit l,
             JournalLine.credit l))
      (Store.entry_lines s e).



Section open_date.
Context `{Py.Lib}.
Context (env : Py.Env) (hotel_id : Z)
        (room_revenue_account ar_account : ChartOfAccount.t).

Local Abbreviation charge :=
  (Routes.charge_room env hotel_id room_revenue_account ar_account).




(** The charge of a booking depends on the rooms, the room types and the
    invoices only. *)
Lemma nightly_charge_ext (s s' : Store.t) (b : Booking.t) :
  Store.rooms s' = Store.rooms s →
  Store.room_types s' = Store.room_types s →
  Store.invoices s' = Store.invoices s →
  nightly_charge s' b = nightly_charge s b.
Proof.
  unfold nightly_charge, Store.booking_room, Store.room_room_type,
    Store.booking_invoice.
  by intros -> -> ->.
Qed.









Lemma charged_elem (s : Store.t) (bs : list Booking.t) (b : Booking.t)
    (rate : Q) :
  (b, rate) ∈ charged s bs → b ∈ bs ∧ nightly_charge s b = Some rate.
Proof.
  unfold charged. intros Hin.
  apply list_elem_of_omap in Hin as (b' & Hb' & Hc).
  destruct (nightly_charge s b') as [r|] eqn:Hr; simplify_eq/=. done.
Qed.





End open_date.

(** *** Accounts, business date and booking rows around the loop *)



Lemma get_or_create_business_date_row (env : Py.Env) (s : Store.t)
    (hotel_id : Z) :
  ∃ more biz_date,
    Routes.get_or_create_business_date env s hotel_id
    = (Store.with_business_dates (Store.business_dates s ++ more) s, biz_date)
    ∧ find (λ d, bool_decide (BusinessDate.hotel_id d = hotel_id))
           (Store.business_dates s ++ more) = Some biz_date
    ∧ (BusinessDate.is_closed biz_date = true →
       business_date_of s hotel_id = Some biz_date).
Proof.
  unfold Routes.get_or_create_business_date, business_date_of.
  destruct (find _ (Store.business_dates s)) as [d|] eqn:Hf.
  - exists [], d. rewrite app_nil_r. split; [by destruct s|]. done.
  - eexists [_], _. split; [reflexivity|]. split; [|done].
    rewrite find_app, Hf. simpl. by rewrite bool_decide_eq_true_2.
Qed.

(** The hotel's business date after the row found for it is written back. *)
Lemma business_date_after_put (rows : list BusinessDate.t) (hotel_id : Z)
    (y x : BusinessDate.t) :
  find (λ d, bool_decide (BusinessDate.hotel_id d = hotel_id)) rows = Some y →
  BusinessDate.id x = BusinessDate.id y →
  BusinessDate.hotel_id x = hotel_id →
  find (λ d, bool_decide (BusinessDate.hotel_id d = hotel_id))
       (Store.put BusinessDate.id x rows) = Some x.
Proof.
  intros Hf Hid Hh. unfold Store.put.
  induction rows as [|r rows IH]; simpl in *; [done|].
  destruct (bool_decide (BusinessDate.hotel_id r = hotel_id)) eqn:Hr.
  - injection Hf as ->. rewrite decide_True by done. simpl.
    by rewrite bool_decide_eq_true_2.
  - destruct (decide (BusinessDate.id r = BusinessDate.id x)); simpl.
    + by rewrite bool_decide_eq_true_2.
    + rewrite Hr. by apply IH.
Qed.



(** The bookings the audit charges are the hotel's CheckedIn bookings that
    have a room with a priced type and an invoice. *)
Lemma charged_exactly (s : Store.t) (hotel_id : Z) (b : Booking.t) (rate : Q) :
  (b, rate) ∈ charged s (Routes.occupied_bookings s hotel_id)
  ↔ b ∈ Store.bookings s
    ∧ Booking.hotel_id b = hotel_id
    ∧ Booking.status b = "CheckedIn"
    ∧ nightly_charge s b = Some rate.
Proof.
  split.
  - intros Hin. apply charged_elem in Hin as [Hin Hrate].
    apply list_elem_of_filter in Hin as [[Hh Hst] Hin]. done.
  - intros (Hin & Hh & Hst & Hrate). unfold charged.
    apply list_elem_of_omap. exists b. split.
    + apply list_elem_of_filter. done.
    + by rewrite Hrate.
Qed.


Section post_room_revenue.
Context `{Py.Lib}.


End post_room_revenue.

Section open_date_run.
Context `{Py.Lib}.


End open_date_run.

(** Scenario E: one guest in house in a room at 50,000 a night, the
    business date open on the calendar date. *)
Definition in_house_hotel : Store.t :=
  Store.with_business_dates
    [ {| BusinessDate.id := 1; BusinessDate.hotel_id := 1;
         BusinessDate.current_business_date := 739000;
         BusinessDate.is_closed := false;
         BusinessDate.updated_at := None |} ]
    (Example.hotel 50000 [Example.room_of 101 "101" "Occupied"]
       [Example.booking_of 1 101 "CheckedIn" 738999 739002 150000]
       [Example.invoice_of 1 1 150000] []).




(** Scenario E, evaluated: the run posts one entry, a debit of 50,000 to
    Accounts Receivable (created as account 2) and a credit of 50,000 to
    Room Revenue (account 1); the invoice total goes from 150,000 to 200,000
    and the balance from 0 to 50,000; the business date is closed and set to
    the next day.  The run itself is logged as failed, because building its
    JSON answer raises after the commit. *)
Example night_audit_scenario_e :
  let s' :=
    Session.committed
      (Routes.run_night_audit (H := Example.lib) Example.env
         (Example.session_of in_house_hotel) (Some 1) 7).1 in
  map (postings s') (Store.journal_entries s')
  = [[(2, 50000%Q, 0%Q); (1, 0%Q, 50000%Q)]]
  ∧ map (λ a, (ChartOfAccount.id a, ChartOfAccount.name a))
        (Store.chart_of_accounts s')
    = [(1, "Room Revenue"); (2, "Accounts Receivable")]
  ∧ map Invoice.total (Store.invoices s') = [200000%Q]
  ∧ map Booking.balance (Store.bookings s') = [50000%Q]
  ∧ map (λ d, (BusinessDate.is_closed d,
               BusinessDate.current_business_date d))
        (Store.business_dates s')
    = [(true, 739001)]
  ∧ map NightAuditLog.status (Store.night_audit_logs s') = ["failed"].
Proof. vm_compute. done. Qed.

(** * Further operations of the services *)

(** ** app/hms_housekeeping_service.py: the helper functions *)

Module HousekeepingHelpers.

(** quick_clean_room *)
Definition quick_clean_room (s : Store.t) (room : Room.t) (user_id : option Z)
    : Store.t * Room.t * (bool * string) :=
  if negb (Py.contains (Room.status room) ["Dirty"; "Maintenance"]) then
    (s, room,
     (false, "Cannot clean room in " ++ Room.status room ++ " status"))
  else
    Housekeeping.RoomStatusManager.change_status s room "Vacant" user_id
      (Some "Quick clean completed").

(** quick_dirty_room *)
Definition quick_dirty_room (s : Store.t) (room : Room.t) (user_id : option Z)
    : Store.t * Room.t * (bool * string) :=
  if negb (Py.contains (Room.status room) ["Vacant"; "Reserved"]) then
    (s, room, (false, "Cannot mark " ++ Room.status room ++ " room as dirty"))
  else
    Housekeeping.RoomStatusManager.change_status s room "Dirty" user_id
      (Some "Marked as dirty").

(** create_cleaning_task: the task is added first; for a cleaning task the
    room is then put through the status change to Dirty, whose outcome is
    not looked at.  Returns the store, the room and the task. *)
Definition create_cleaning_task (s : Store.t) (room : Room.t)
    (task_type priority notes : string) (user_id : option Z)
    : Store.t * Room.t * HousekeepingTask.t :=
  let task :=
    {| HousekeepingTask.id :=
         Store.next_id (map HousekeepingTask.id (Store.housekeeping_tasks s));
       HousekeepingTask.hotel_id := Room.hotel_id room;
       HousekeepingTask.room_id := Room.id room;
       HousekeepingTask.task_type := task_type;
       HousekeepingTask.priority := priority;
       HousekeepingTask.status := "pending";
       HousekeepingTask.notes := notes |} in
  let s1 :=
    Store.with_housekeeping_tasks (Store.housekeeping_tasks s ++ [task]) s in
  if Py.contains task_type ["regular_clean"; "checkout_clean"; "deep_clean"]
  then
    let '(s2, room', _) :=
      Housekeeping.RoomStatusManager.change_status s1 room "Dirty" user_id
        (Some ("Cleaning task created: " ++ task_type)) in
    (s2, room', task)
  else (s1, room, task).

End HousekeepingHelpers.

(** ** Housekeeping's room status manager *)

(** The edges of [VALID_STATUS_TRANSITIONS]. *)
Definition housekeeping_edges : list (string * string) :=
  [ ("Vacant", "Dirty"); ("Vacant", "Reserved"); ("Vacant", "Maintenance");
    ("Vacant", "Occupied");
    ("Dirty", "Vacant"); ("Dirty", "Maintenance");
    ("Occupied", "Dirty"); ("Occupied", "Maintenance");
    ("Reserved", "Occupied"); ("Reserved", "Vacant"); ("Reserved", "Dirty");
    ("Maintenance", "Vacant"); ("Maintenance", "Dirty") ].

(** The history row a change from [old_status] to [new_status] leaves. *)
Definition history_row (s : Store.t) (room : Room.t)
    (old_status new_status : string) : RoomStatusHistory.t :=
  {| RoomStatusHistory.id :=
       Store.next_id (map RoomStatusHistory.id (Store.room_status_history s));
     RoomStatusHistory.hotel_id := Room.hotel_id room;
     RoomStatusHistory.room_id := Room.id room;
     RoomStatusHistory.old_status := old_status;
     RoomStatusHistory.new_status := new_status |}.

(** The store after room [room] has moved to [new_status]: the room row is
    written back and one history row is appended. *)
Definition moved (s : Store.t) (room : Room.t) (new_status : string)
    : Store.t :=
  Store.with_room_status_history
    (Store.room_status_history s
     ++ [history_row s room (Room.status room) new_status])
    (Store.put_room (Room.with_status new_status room) s).

Ltac closed_housekeeping_edge :=
  refine (bool_decide_unpack _ _); vm_compute; exact I.

Lemma status_manager_accepts_exactly (current new : string) :
  (Housekeeping.RoomStatusManager.validate_transition current new).1 = true
  ↔ (current, new) ∈ housekeeping_edges.
Proof.
  unfold Housekeeping.RoomStatusManager.validate_transition. split.
  - case_decide as Hs; [done|].
    unfold Py.get_list.
    destruct (Housekeeping.VALID_STATUS_TRANSITIONS !! current) as [l|] eqn:Hl;
      simpl; [|done].
    destruct (Py.contains new l) eqn:Hc; simpl; [intros _|done].
    apply contains_true in Hc.
    unfold Housekeeping.VALID_STATUS_TRANSITIONS in Hl.
    repeat (apply lookup_insert_Some in Hl as [[<- <-]|[_ Hl]];
            [set_unfold; destruct_or!; subst; closed_housekeeping_edge|]).
    apply lookup_singleton_Some in Hl as [<- <-].
    set_unfold; destruct_or!; subst; closed_housekeeping_edge.
  - intros Ht. unfold housekeeping_edges in Ht.
    set_unfold. destruct_or!; simplify_eq; vm_compute; reflexivity.
Qed.

Lemma housekeeping_no_self_edge (status : string) :
  (status, status) ∉ housekeeping_edges.
Proof.
  unfold housekeeping_edges. set_unfold. intros Hin.
  destruct_or!; simplify_eq; congruence.
Qed.

(** The two outcomes of [change_status]. *)
Lemma change_status_accepted (s : Store.t) (room : Room.t)
    (new_status : string) (user_id : option Z) (reason : option string) :
  (Housekeeping.RoomStatusManager.validate_transition
     (Room.status room) new_status).1 = true →
  Housekeeping.RoomStatusManager.change_status s room new_status user_id reason
  = (moved s room new_status, Room.with_status new_status room,
     (true,
      "Room status changed from " ++ Room.status room ++ " to " ++ new_status)).
Proof.
  unfold Housekeeping.RoomStatusManager.change_status.
  pose proof (status_manager_accepts_exactly (Room.status room) new_status)
    as Hedge.
  destruct (Housekeeping.RoomStatusManager.validate_transition
              (Room.status room) new_status) as [valid msg]; simpl.
  intros ->. simpl.
  rewrite decide_True; [done|].
  intros Heq. apply (housekeeping_no_self_edge new_status).
  rewrite <- Heq at 1. by apply Hedge.
Qed.

Lemma change_status_refused (s : Store.t) (room : Room.t)
    (new_status : string) (user_id : option Z) (reason : option string) :
  (Housekeeping.RoomStatusManager.validate_transition
     (Room.status room) new_status).1 = false →
  Housekeeping.RoomStatusManager.change_status s room new_status user_id reason
  = (s, room,
     (false,
      (Housekeeping.RoomStatusManager.validate_transition
         (Room.status room) new_status).2)).
Proof.
  unfold Housekeeping.RoomStatusManager.change_status.
  destruct (Housekeeping.RoomStatusManager.validate_transition
              (Room.status room) new_status) as [valid msg]; simpl.
  by intros ->.
Qed.

(** X1.  [RoomStatusManager.change_status] succeeds exactly along an edge of
    housekeeping's transition table.  On success the room carries the new
    status, its row is written back and exactly one history row, from the
    old status to the new one, is appended; on failure the store and the
    room are unchanged and the message is not empty. *)
Theorem status_manager_change_follows_its_table (s : Store.t) (room : Room.t)
    (new_status : string) (user_id : option Z) (reason : option string) :
  let '(s', room', (success, message)) :=
    Housekeeping.RoomStatusManager.change_status
      s room new_status user_id reason in
  (success = true ↔ (Room.status room, new_status) ∈ housekeeping_edges)
  ∧ (success = true →
     room' = Room.with_status new_status room
     ∧ Room.status room ≠ new_status
     ∧ Store.rooms s' = Store.put Room.id room' (Store.rooms s)
     ∧ Store.room_status_history s'
       = (Store.room_status_history s
          ++ [history_row s room (Room.status room) new_status])%list
     ∧ Store.with_room_status_history (Store.room_status_history s)
         (Store.with_rooms (Store.rooms s) s') = s)
  ∧ (success = false → s' = s ∧ room' = room ∧ message ≠ "").
Proof.
  pose proof (status_manager_accepts_exactly (Room.status room) new_status)
    as Hedge.
  destruct (Housekeeping.RoomStatusManager.validate_transition
              (Room.status room) new_status).1 eqn:Hv.
  - rewrite (change_status_accepted s room new_status user_id reason Hv).
    split; [done|]. split; [|done]. intros _.
    split; [done|]. split.
    { intros Heq. apply (housekeeping_no_self_edge new_status).
      rewrite <- Heq at 1. by apply Hedge. }
    split; [done|]. split; [done|]. by destruct s.
  - rewrite (change_status_refused s room new_status user_id reason Hv).
    split; [by rewrite <- Hedge|]. split; [done|]. intros _.
    split; [done|]. split; [done|].
    unfold Housekeeping.RoomStatusManager.validate_transition in *.
    case_decide; [done|].
    destruct (Py.contains new_status _); simpl in *; done.
Qed.


(** ** Quick clean, quick dirty, cleaning tasks *)

(** Picks the disjunct that holds by computation. *)
Ltac one_of := first [done | left; done | right; one_of].

Lemma contains_pair (x a b : string) :
  Py.contains x [a; b] = true ↔ x = a ∨ x = b.
Proof. rewrite contains_true. set_unfold. tauto. Qed.

(** X3.  [quick_clean_room] succeeds exactly on a Dirty room or a room in
    Maintenance; then the room is Vacant and one history row from its old
    status to Vacant has been appended.  On any other status it fails and
    changes nothing. *)
Theorem quick_clean_room_cleans_dirty_or_maintenance (s : Store.t)
    (room : Room.t) (user_id : option Z) :
  let '(s', room', (success, _)) :=
    HousekeepingHelpers.quick_clean_room s room user_id in
  (success = true
   ↔ Room.status room = "Dirty" ∨ Room.status room = "Maintenance")
  ∧ (success = true →
     s' = moved s room "Vacant" ∧ room' = Room.with_status "Vacant" room)
  ∧ (success = false → s' = s ∧ room' = room).
Proof.
  unfold HousekeepingHelpers.quick_clean_room.
  pose proof (contains_pair (Room.status room) "Dirty" "Maintenance") as Hp.
  destruct (Py.contains (Room.status room) ["Dirty"; "Maintenance"]) eqn:Hc;
    simpl.
  - rewrite change_status_accepted.
    + split; [|done]. split; [intros _|done]. by apply Hp.
    + destruct Hp as [Hp _]. destruct (Hp eq_refl) as [-> | ->]; reflexivity.
  - split; [|done]. split; [done|]. intros Hst. apply Hp in Hst. done.
Qed.

(** X4.  [quick_dirty_room] succeeds exactly on a Vacant or a Reserved room;
    then the room is Dirty and one history row from its old status to Dirty
    has been appended.  On any other status (an Occupied room included) it
    fails and changes nothing. *)
Theorem quick_dirty_room_dirties_vacant_or_reserved (s : Store.t)
    (room : Room.t) (user_id : option Z) :
  let '(s', room', (success, _)) :=
    HousekeepingHelpers.quick_dirty_room s room user_id in
  (success = true
   ↔ Room.status room = "Vacant" ∨ Room.status room = "Reserved")
  ∧ (success = true →
     s' = moved s room "Dirty" ∧ room' = Room.with_status "Dirty" room)
  ∧ (success = false → s' = s ∧ room' = room).
Proof.
  unfold HousekeepingHelpers.quick_dirty_room.
  pose proof (contains_pair (Room.status room) "Vacant" "Reserved") as Hp.
  destruct (Py.contains (Room.status room) ["Vacant"; "Reserved"]) eqn:Hc;
    simpl.
  - rewrite change_status_accepted.
    + split; [|done]. split; [intros _|done]. by apply Hp.
    + destruct Hp as [Hp _]. destruct (Hp eq_refl) as [-> | ->]; reflexivity.
  - split; [|done]. split; [done|]. intros Hst. apply Hp in Hst. done.
Qed.

Lemma put_put {A : Type} (key : A → Z) (x y : A) (rows : list A) :
  key x = key y →
  Store.put key x (Store.put key y rows) = Store.put key x rows.
Proof.
  intros Hk. unfold Store.put. rewrite map_map. apply map_ext. intros r.
  destruct (decide (key r = key y)) as [Hr|Hr].
  - by rewrite !decide_True by congruence.
  - done.
Qed.

Lemma put_same {A : Type} (key : A → Z) (x : A) (rows : list A) :
  NoDup (map key rows) → x ∈ rows → Store.put key x rows = rows.
Proof.
  unfold Store.put. induction rows as [|r rows IH]; simpl; [done|].
  intros Hnd Hin. apply NoDup_cons in Hnd as [Hr Hnd].
  apply elem_of_cons in Hin as [->|Hin].
  - rewrite decide_True by done. f_equal.
    apply (put_absent key r rows Hr).
  - rewrite decide_False.
    + f_equal. by apply IH.
    + intros Heq. apply Hr. rewrite Heq. by apply list_elem_of_fmap_2.
Qed.


(** What a history row says: the room and the edge. *)
Definition history_edge (h : RoomStatusHistory.t) : Z * string * string :=
  (RoomStatusHistory.room_id h, RoomStatusHistory.old_status h,
   RoomStatusHistory.new_status h).

(** X5.  Marking a vacant room dirty and then quick-cleaning it is a round
    trip: both steps succeed, the room and the rooms table are exactly as
    before, and the history has gained the two rows Vacant to Dirty and
    Dirty to Vacant. *)
Theorem quick_dirty_then_quick_clean_restores_room (s : Store.t)
    (room : Room.t) (user_id user_id' : option Z) :
  Room.status room = "Vacant" →
  room ∈ Store.rooms s →
  NoDup (map Room.id (Store.rooms s)) →
  let '(s1, room1, (dirtied, _)) :=
    HousekeepingHelpers.quick_dirty_room s room user_id in
  let '(s2, room2, (cleaned, _)) :=
    HousekeepingHelpers.quick_clean_room s1 room1 user_id' in
  dirtied = true ∧ cleaned = true
  ∧ Room.status room1 = "Dirty"
  ∧ room2 = room
  ∧ Store.rooms s2 = Store.rooms s
  ∧ map history_edge (Store.room_status_history s2)
    = (map history_edge (Store.room_status_history s)
       ++ [ (Room.id room, "Vacant", "Dirty");
            (Room.id room, "Dirty", "Vacant") ])%list.
Proof.
  intros Hst Hin Hnd.
  unfold HousekeepingHelpers.quick_dirty_room.
  rewrite (proj2 (contains_pair _ _ _)) by tauto. cbn [negb].
  rewrite change_status_accepted by (rewrite Hst; reflexivity).
  unfold HousekeepingHelpers.quick_clean_room.
  rewrite (proj2 (contains_pair _ _ _)) by (simpl; tauto). cbn [negb].
  rewrite change_status_accepted by reflexivity.
  assert (Room.with_status "Vacant" (Room.with_status "Dirty" room) = room)
    as Hroom.
  { destruct room; simpl in *. by subst. }
  split; [done|]. split; [done|]. split; [done|]. split; [exact Hroom|].
  split.
  - unfold moved, Store.put_room. simpl.
    rewrite put_put by done. rewrite Hroom. by apply put_same.
  - unfold moved. simpl. rewrite !map_app. simpl.
    rewrite <- app_assoc. simpl. by rewrite Hst.
Qed.

Lemma quick_dirty_then_quick_clean_restores_room_witness :
  let s := Example.hotel 50000 [Example.room_of 101 "101" "Vacant"] [] [] [] in
  let room := Example.room_of 101 "101" "Vacant" in
  let '(s1, room1, (dirtied, _)) :=
    HousekeepingHelpers.quick_dirty_room s room (Some 7) in
  let '(s2, room2, (cleaned, _)) :=
    HousekeepingHelpers.quick_clean_room s1 room1 (Some 8) in
  dirtied = true ∧ cleaned = true
  ∧ Room.status room1 = "Dirty"
  ∧ room2 = room
  ∧ Store.rooms s2 = Store.rooms s
  ∧ map history_edge (Store.room_status_history s2)
    = (map history_edge (Store.room_status_history s)
       ++ [ (Room.id room, "Vacant", "Dirty");
            (Room.id room, "Dirty", "Vacant") ])%list.
Proof.
  apply (quick_dirty_then_quick_clean_restores_room
           (Example.hotel 50000 [Example.room_of 101 "101" "Vacant"] [] [] [])
           (Example.room_of 101 "101" "Vacant") (Some 7) (Some 8)).
  - reflexivity.
  - simpl. apply list_elem_of_singleton. reflexivity.
  - simpl. apply NoDup_singleton.
Defined.

(** X6.  The legacy [create_cleaning_task] always adds exactly one pending
    task for the room.  For a cleaning task (regular, checkout or deep
    clean) on a room that is Vacant, Occupied, Reserved or in Maintenance
    the room is moved to Dirty, an occupied room included, with one history
    row; for any other task type, or a room that is already Dirty, the room
    and the history are left as they were. *)
Theorem create_cleaning_task_marks_room_dirty (s : Store.t) (room : Room.t)
    (task_type priority notes : string) (user_id : option Z) :
  let '(s', room', task) :=
    HousekeepingHelpers.create_cleaning_task
      s room task_type priority notes user_id in
  let cleaning :=
    task_type ∈ ["regular_clean"; "checkout_clean"; "deep_clean"] in
  let movable :=
    Room.status room ∈ ["Vacant"; "Occupied"; "Reserved"; "Maintenance"] in
  Store.housekeeping_tasks s' = (Store.housekeeping_tasks s ++ [task])%list
  ∧ HousekeepingTask.status task = "pending"
  ∧ HousekeepingTask.room_id task = Room.id room
  ∧ HousekeepingTask.task_type task = task_type
  ∧ (cleaning ∧ movable →
     room' = Room.with_status "Dirty" room
     ∧ Store.rooms s' = Store.put Room.id room' (Store.rooms s)
     ∧ Store.room_status_history s'
       = (Store.room_status_history s
          ++ [history_row s room (Room.status room) "Dirty"])%list)
  ∧ (¬ (cleaning ∧ movable) →
     room' = room
     ∧ Store.rooms s' = Store.rooms s
     ∧ Store.room_status_history s' = Store.room_status_history s).
Proof.
  unfold HousekeepingHelpers.create_cleaning_task.
  set (s1 := Store.with_housekeeping_tasks _ s).
  assert ((Room.status room, "Dirty") ∈ housekeeping_edges
          ↔ Room.status room ∈ ["Vacant"; "Occupied"; "Reserved"; "Maintenance"])
    as Hmov.
  { unfold housekeeping_edges. set_unfold.
    split; intros Hin; destruct_or!; simplify_eq; try rewrite Hin;
      one_of. }
  destruct (Py.contains task_type
              ["regular_clean"; "checkout_clean"; "deep_clean"]) eqn:Hc.
  - apply contains_true in Hc.
    destruct (Housekeeping.RoomStatusManager.validate_transition
                (Room.status room) "Dirty").1 eqn:Hv.
    + rewrite (change_status_accepted s1 room "Dirty" _ _ Hv).
      split; [done|]. split; [done|]. split; [done|]. split; [done|].
      split; [done|]. intros Hn. destruct Hn. split; [done|].
      by apply Hmov, status_manager_accepts_exactly.
    + rewrite (change_status_refused s1 room "Dirty" _ _ Hv).
      split; [done|]. split; [done|]. split; [done|]. split; [done|].
      split; [|done]. intros [_ Hm].
      apply Hmov, status_manager_accepts_exactly in Hm. congruence.
  - split; [done|]. split; [done|]. split; [done|]. split; [done|].
    split; [|done]. intros [Hcl _]. apply contains_true in Hcl. congruence.
Qed.

(** ** Check-in and check-out together *)

(** The booking after its transition to CheckedIn at the clock of [env]. *)
Definition checked_in (env : Py.Env) (b : Booking.t) : Booking.t :=
  Booking.with_check_in_time_actual (Some (Py.utcnow env))
    (Booking.with_status "CheckedIn" b).

(** The booking after its transition to CheckedOut, the balance recomputed
    first. *)
Definition checked_out (env : Py.Env) (s : Store.t) (b : Booking.t)
    : Booking.t :=
  Booking.with_check_out_time_actual (Some (Py.utcnow env))
    (Booking.with_status "CheckedOut" (calculate_balance s b).1.2).

Lemma can_check_in_exactly (room : Room.t) :
  (Housekeeping.RoomStatusManager.can_check_in room).1 = true
  ↔ Room.status room = "Vacant" ∨ Room.status room = "Reserved".
Proof.
  split; [apply can_check_in_ready|].
  unfold Housekeeping.RoomStatusManager.can_check_in.
  intros [-> | ->]; reflexivity.
Qed.

Section check_in.
Context `{Py.Lib}.

(** What [check_in] does on a Reserved booking whose room is ready. *)
Lemma check_in_ready (env : Py.Env) (s : Store.t) (b : Booking.t)
    (room : Room.t) (user_id : option Z) :
  Booking.status b = "Reserved" →
  Store.booking_room s b = Some room →
  Room.status room = "Vacant" ∨ Room.status room = "Reserved" →
  BookingSvc.BookingService.check_in env s b user_id
  = Py.Returned
      (moved (Store.put_booking (checked_in env b) s) room "Occupied",
       checked_in env b, (true, "Guest checked in successfully")).
Proof.
  intros Hst Hroom Hready.
  unfold BookingSvc.BookingService.check_in,
    BookingSvc.BookingService.check_in_via.
  rewrite decide_False by (by intros []). rewrite Hroom.
  pose proof (proj2 (can_check_in_exactly room) Hready) as Hcan.
  destruct (Housekeeping.RoomStatusManager.can_check_in room)
    as [ok why] eqn:Hc. simpl in Hcan. subst ok. cbn [negb].
  unfold BookingSvc.BookingStateMachine.change_status. rewrite Hst.
  change (BookingSvc.BookingStateMachine.validate_transition
            "Reserved" "CheckedIn") with (true, "").
  cbn [negb].
  change (BookingSvc.BookingStateMachine.stamp env "CheckedIn"
            (Some "Guest check-in") (Booking.with_status "CheckedIn" b))
    with (checked_in env b).
  unfold BookingSvc.RoomStatusService.check_in_room. rewrite Hc. cbn [negb].
  rewrite change_status_accepted; [done|].
  destruct Hready as [-> | ->]; reflexivity.
Qed.

(** X7.  [check_in] succeeds exactly when the booking is Reserved and its
    room is Vacant or Reserved.  Then the booking is CheckedIn with the
    actual check-in time taken from the clock, and the room has moved to
    Occupied with one history row.  A refused check-in changes nothing; the
    call raises only for a Reserved booking that has no room. *)
Theorem check_in_needs_reserved_booking_and_ready_room (env : Py.Env)
    (s : Store.t) (b : Booking.t) (user_id : option Z) :
  match BookingSvc.BookingService.check_in env s b user_id with
  | Py.Returned (s', b', (success, _)) =>
      (success = true
       ↔ Booking.status b = "Reserved"
         ∧ ∃ room, Store.booking_room s b = Some room
                   ∧ (Room.status room = "Vacant"
                      ∨ Room.status room = "Reserved"))
      ∧ (success = true →
         b' = checked_in env b
         ∧ ∃ room, Store.booking_room s b = Some room
                   ∧ s' = moved (Store.put_booking b' s) room "Occupied")
      ∧ (success = false → s' = s ∧ b' = b)
  | Py.Raised _ =>
      Booking.status b = "Reserved" ∧ Store.booking_room s b = None
  end.
Proof.
  destruct (decide (Booking.status b = "Reserved")) as [Hst|Hst].
  2: { unfold BookingSvc.BookingService.check_in,
         BookingSvc.BookingService.check_in_via.
       rewrite decide_True by done.
       split; [|done]. split; [done|]. by intros [? _]. }
  destruct (Store.booking_room s b) as [room|] eqn:Hroom.
  2: { unfold BookingSvc.BookingService.check_in,
         BookingSvc.BookingService.check_in_via.
       rewrite decide_False by (by intros []). by rewrite Hroom. }
  destruct (Housekeeping.RoomStatusManager.can_check_in room).1 eqn:Hcan.
  - apply can_check_in_exactly in Hcan as Hready.
    rewrite (check_in_ready env s b room user_id Hst Hroom Hready).
    split; [split; [eauto|done]|]. split; [eauto|done].
  - unfold BookingSvc.BookingService.check_in,
      BookingSvc.BookingService.check_in_via.
    rewrite decide_False by (by intros []). rewrite Hroom.
    destruct (Housekeeping.RoomStatusManager.can_check_in room)
      as [ok why] eqn:Hc. simpl in Hcan. subst ok. cbn [negb].
    split; [|done]. split; [done|].
    intros [_ (room' & [= <-] & Hready)].
    apply can_check_in_exactly in Hready. rewrite Hc in Hready. done.
Qed.

End check_in.

(** The store after the checkout path has run on [room]: the cleaning task
    is appended, and the room has moved to Dirty when the table has an edge
    from its status to Dirty. *)
Definition room_checked_out (s : Store.t) (room : Room.t) : Store.t :=
  Store.with_housekeeping_tasks
    (Store.housekeeping_tasks s ++ [checkout_task s room])
    (if (Housekeeping.RoomStatusManager.validate_transition
           (Room.status room) "Dirty").1
     then moved s room "Dirty" else s).

(** The room step of check-out succeeds on every room, whatever its
    status. *)
Lemma check_out_room_some (s : Store.t) (room : Room.t) (b : Booking.t)
    (user_id : option Z) :
  BookingSvc.RoomStatusService.check_out_room s (Some room) b user_id
  = (room_checked_out s room,
     (true, "Checkout complete. Cleaning task #None created")).
Proof.
  unfold BookingSvc.RoomStatusService.check_out_room,
    Housekeeping.CheckoutProcessor.process_checkout, room_checked_out.
  destruct (Housekeeping.RoomStatusManager.validate_transition
              (Room.status room) "Dirty").1 eqn:Hv.
  - by rewrite (change_status_accepted s room "Dirty" _ _ Hv).
  - by rewrite (change_status_refused s room "Dirty" _ _ Hv).
Qed.

Lemma gt0_false (x : Q) : Py.gt0 x = false ↔ (x <= 0)%Q.
Proof.
  unfold Py.gt0. destruct (Qlt_le_dec 0 x) as [Hlt|Hle]; split; try done.
  intros Hle. exfalso. by apply (Qle_not_lt _ _ Hle).
Qed.

Section check_out_more.
Context `{Py.Lib}.

(** What [check_out] does on a CheckedIn booking with nothing owing. *)
Lemma check_out_settled (env : Py.Env) (s : Store.t) (b : Booking.t)
    (user_id : option Z) :
  Booking.status b = "CheckedIn" →
  (recomputed_balance s b <= 0)%Q →
  let s2 :=
    Store.put_booking (checked_out env s b) (calculate_balance s b).1.1 in
  BookingSvc.BookingService.check_out env s b user_id
  = match Store.booking_room s b with
    | Some room =>
        (room_checked_out s2 room, checked_out env s b,
         (true, "Guest checked out successfully"))
    | None =>
        (Store.put_booking
           (Booking.with_status "CheckedIn" (checked_out env s b)) s2,
         Booking.with_status "CheckedIn" (checked_out env s b),
         (false,
          "Checkout failed: " ++ Housekeeping.CheckoutProcessor.none_has_no_status))
    end.
Proof.
  intros Hst Hbal. apply gt0_false in Hbal.
  unfold BookingSvc.BookingService.check_out.
  rewrite decide_False by (by intros []).
  unfold calculate_balance. fold (recomputed_balance s b).
  cbn [fst snd Booking.balance Booking.with_amounts]. rewrite Hbal.
  unfold BookingSvc.BookingStateMachine.change_status.
  cbn [Booking.status Booking.with_amounts]. rewrite Hst.
  change (BookingSvc.BookingStateMachine.validate_transition
            "CheckedIn" "CheckedOut") with (true, "").
  cbn [negb]. rewrite stamp_checked_out, !booking_room_put_booking.
  change (Store.booking_room s _) with (Store.booking_room s b).
  unfold checked_out, calculate_balance. cbn [fst snd].
  destruct (Store.booking_room s b) as [room|].
  - by rewrite check_out_room_some.
  - reflexivity.
Qed.

(** X8.  Check-in followed by check-out.  A Reserved booking with nothing
    owing whose room is Vacant or Reserved can be checked in and then
    checked out: both calls succeed, the booking ends CheckedOut carrying
    both actual times, the room ends Dirty, the history has gained the two
    rows into Occupied and on to Dirty, and one checkout-cleaning task has
    been created. *)
Theorem check_in_then_check_out (env env' : Py.Env) (s : Store.t)
    (b : Booking.t) (room : Room.t) (user_id user_id' : option Z) :
  Booking.status b = "Reserved" →
  Store.booking_room s b = Some room →
  Room.status room = "Vacant" ∨ Room.status room = "Reserved" →
  (recomputed_balance s b <= 0)%Q →
  ∃ s1 b1 m1,
    BookingSvc.BookingService.check_in env s b user_id
    = Py.Returned (s1, b1, (true, m1))
    ∧ let '(s2, b2, (success, _)) :=
        BookingSvc.BookingService.check_out env' s1 b1 user_id' in
      success = true
      ∧ Booking.status b2 = "CheckedOut"
      ∧ Booking.check_in_time_actual b2 = Some (Py.utcnow env)
      ∧ Booking.check_out_time_actual b2 = Some (Py.utcnow env')
      ∧ Store.booking_room s2 b2
        = Some (Room.with_status "Dirty" (Room.with_status "Occupied" room))
      ∧ map history_edge (Store.room_status_history s2)
        = (map history_edge (Store.room_status_history s)
           ++ [ (Room.id room, Room.status room, "Occupied");
                (Room.id room, "Occupied", "Dirty") ])%list
      ∧ map HousekeepingTask.task_type (Store.housekeeping_tasks s2)
        = (map HousekeepingTask.task_type (Store.housekeeping_tasks s)
           ++ ["checkout_clean"])%list.
Proof.
  intros Hst Hroom Hready Hbal.
  rewrite (check_in_ready env s b room user_id Hst Hroom Hready).
  eexists _, _, _. split; [reflexivity|].
  set (s1 := moved (Store.put_booking (checked_in env b) s) room "Occupied").
  assert (Store.booking_room s1 (checked_in env b)
          = Some (Room.with_status "Occupied" room)) as Hroom1.
  { apply (booking_room_put_room
             (Store.put_booking (checked_in env b) s) (checked_in env b)
             room (Room.with_status "Occupied" room)); [exact Hroom|done]. }
  rewrite (check_out_settled env' s1 (checked_in env b) user_id');
    [|done|exact Hbal].
  cbv zeta. rewrite Hroom1.
  split; [done|]. split; [done|]. split; [done|]. split; [done|].
  unfold room_checked_out.
  change (Housekeeping.RoomStatusManager.validate_transition
            (Room.status (Room.with_status "Occupied" room)) "Dirty")
    with (true, "").
  cbn [fst]. split; [|split].
  - apply (booking_room_put_room _ _ (Room.with_status "Occupied" room));
      [|done].
    exact Hroom1.
  - unfold moved, s1, moved. simpl. rewrite !map_app. simpl.
    by rewrite <- app_assoc.
  - simpl. by rewrite map_app.
Qed.

(** X9.  Check-out of a booking that has no room.  For a CheckedIn booking
    with nothing owing and no room assigned, [check_out] reports failure
    and puts the status back to CheckedIn, but the actual check-out time
    set on the way stays on the booking; no room, history row or task is
    touched. *)
Theorem check_out_without_room_keeps_the_check_out_time (env : Py.Env)
    (s : Store.t) (b : Booking.t) (user_id : option Z) :
  Booking.status b = "CheckedIn" →
  (recomputed_balance s b <= 0)%Q →
  Store.booking_room s b = None →
  let '(s', b', (success, _)) :=
    BookingSvc.BookingService.check_out env s b user_id in
  success = false
  ∧ Booking.status b' = "CheckedIn"
  ∧ Booking.check_out_time_actual b' = Some (Py.utcnow env)
  ∧ Store.bookings s' = Store.put Booking.id b' (Store.bookings s)
  ∧ Store.rooms s' = Store.rooms s
  ∧ Store.room_status_history s' = Store.room_status_history s
  ∧ Store.housekeeping_tasks s' = Store.housekeeping_tasks s.
Proof.
  intros Hst Hbal Hroom.
  rewrite (check_out_settled env s b user_id Hst Hbal). cbv zeta.
  rewrite Hroom.
  split; [done|]. split; [done|]. split; [done|]. split; [|done].
  unfold calculate_balance. simpl. by rewrite !put_put.
Qed.

End check_out_more.

(** A Reserved booking paid in full, its room Vacant. *)
Definition prepaid_hotel : Store.t :=
  Example.hotel 100000 [Example.room_of 101 "101" "Vacant"]
    [reserved_booking] [Example.invoice_of 1 1 300000]
    [Example.payment_of 1 1 1 300000].

Lemma check_in_then_check_out_witness :
  ∃ s1 b1 m1,
    BookingSvc.BookingService.check_in Example.env prepaid_hotel
      reserved_booking (Some 7)
    = Py.Returned (s1, b1, (true, m1))
    ∧ let '(s2, b2, (success, _)) :=
        BookingSvc.BookingService.check_out (H := Example.lib) Example.env
          s1 b1 (Some 7) in
      success = true
      ∧ Booking.status b2 = "CheckedOut"
      ∧ Booking.check_in_time_actual b2 = Some (Py.utcnow Example.env)
      ∧ Booking.check_out_time_actual b2 = Some (Py.utcnow Example.env)
      ∧ Store.booking_room s2 b2
        = Some (Room.with_status "Dirty"
                  (Room.with_status "Occupied"
                     (Example.room_of 101 "101" "Vacant")))
      ∧ map history_edge (Store.room_status_history s2)
        = (map history_edge (Store.room_status_history prepaid_hotel)
           ++ [ (101, "Vacant", "Occupied"); (101, "Occupied", "Dirty") ])%list
      ∧ map HousekeepingTask.task_type (Store.housekeeping_tasks s2)
        = (map HousekeepingTask.task_type
             (Store.housekeeping_tasks prepaid_hotel)
           ++ ["checkout_clean"])%list.
Proof.
  apply (check_in_then_check_out (H := Example.lib) Example.env Example.env
           prepaid_hotel reserved_booking
           (Example.room_of 101 "101" "Vacant") (Some 7) (Some 7)).
  - reflexivity.
  - reflexivity.
  - left. reflexivity.
  - vm_compute. intros [=].
Defined.

(** A guest in house whose booking carries no room. *)
Definition roomless_booking : Booking.t :=
  {| Booking.id := 1; Booking.hotel_id := 1; Booking.guest_id := Some 1;
     Booking.guest_name := "A. Guest"; Booking.guest_email := "";
     Booking.guest_phone := "0700"; Booking.room_id := None;
     Booking.check_in_date := 739000; Booking.check_out_date := 739003;
     Booking.check_in_time_actual := Some 63849600000;
     Booking.check_out_time_actual := None;
     Booking.status := "CheckedIn"; Booking.source := "front_desk";
     Booking.booking_reference := "NGD-1";
     Booking.adults := 1; Booking.children := 0;
     Booking.total_amount := 0; Booking.amount_paid := 0;
     Booking.balance := 0; Booking.special_requests := "";
     Booking.cancelled_at := None; Booking.cancellation_reason := None |}.

Definition roomless_hotel : Store.t :=
  Example.hotel 100000 [Example.room_of 101 "101" "Vacant"]
    [roomless_booking] [] [].

Lemma check_out_without_room_keeps_the_check_out_time_witness :
  let '(s', b', (success, _)) :=
    BookingSvc.BookingService.check_out (H := Example.lib) Example.env
      roomless_hotel roomless_booking (Some 7) in
  success = false
  ∧ Booking.status b' = "CheckedIn"
  ∧ Booking.check_out_time_actual b' = Some (Py.utcnow Example.env)
  ∧ Store.bookings s' = Store.put Booking.id b' (Store.bookings roomless_hotel)
  ∧ Store.rooms s' = Store.rooms roomless_hotel
  ∧ Store.room_status_history s' = Store.room_status_history roomless_hotel
  ∧ Store.housekeeping_tasks s' = Store.housekeeping_tasks roomless_hotel.
Proof.
  apply (check_out_without_room_keeps_the_check_out_time (H := Example.lib)
           Example.env roomless_hotel roomless_booking (Some 7)).
  - reflexivity.
  - vm_compute. intros [=].
  - reflexivity.
Defined.

(** ** Cancellation, no-show, payments and refunds *)



(** The payments of a booking after one more payment has been added. *)
Lemma booking_payments_add (s : Store.t) (b : Booking.t) (hotel_id : Z)
    (invoice_id : option Z) (booking_id : Z) (amount : Q)
    (payment_method : string) (notes : option string) :
  let '(s', p) :=
    Ledger.add_payment s hotel_id invoice_id booking_id amount
      payment_method notes in
  Store.booking_payments s' b
  = (Store.booking_payments s b
     ++ if decide (booking_id = Booking.id b) then [p] else [])%list.
Proof.
  unfold Ledger.add_payment, Store.booking_payments. simpl.
  rewrite filter_app, filter_cons, filter_nil. simpl. done.
Qed.















Section cancel_more.
Context `{Py.Lib}.



End cancel_more.


(** ** No-show *)

Section no_show.
Context `{Py.Lib}.



End no_show.

(** ** Payments and refunds *)









(** ** app/hms_booking_service.py: the helper functions *)

Module BookingHelpers.

(** get_booking_balance *)
Definition get_booking_balance (s : Store.t) (booking : Booking.t)
    : Store.t * Booking.t * Q :=
  calculate_balance s booking.

(** The filter of the availability query: an active booking of the room
    in the hotel whose nights overlap the requested ones. *)
Definition overlaps (room_id check_in check_out hotel_id : Z)
    (b : Booking.t) : bool :=
  bool_decide (Booking.room_id b = Some room_id)
  && bool_decide (Booking.hotel_id b = hotel_id)
  && Py.contains (Booking.status b) ["Reserved"; "CheckedIn"]
  && bool_decide (Booking.check_in_date b < check_out)
  && bool_decide (check_in < Booking.check_out_date b).

(** is_room_available *)
Definition is_room_available (s : Store.t)
    (room_id check_in check_out hotel_id : Z) : bool :=
  let overlap :=
    find (overlaps room_id check_in check_out hotel_id) (Store.bookings s) in
  match overlap with
  | None => true
  | Some _ => false
  end.

End BookingHelpers.

(** ** Availability *)

Lemma find_none_forall {A : Type} (P : A → bool) (l : list A) :
  find P l = None ↔ ∀ x, x ∈ l → P x = false.
Proof.
  induction l as [|y l IH]; simpl.
  - split; [|done]. intros _ x Hx. by apply elem_of_nil in Hx.
  - destruct (P y) eqn:Hy.
    + split; [done|]. intros Hall.
      rewrite Hall in Hy; [done|by left].
    + rewrite IH. split.
      * intros Hall x [->|Hx]%elem_of_cons; auto.
      * intros Hall x Hx. apply Hall. by right.
Qed.



(** Availability after one more booking has been added to the table. *)
Lemma is_room_available_snoc (s s' : Store.t) (booking : Booking.t) :
  Store.bookings s' = (Store.bookings s ++ [booking])%list →
  ∀ room_id check_in check_out hotel_id,
    BookingHelpers.is_room_available s' room_id check_in check_out hotel_id
    = BookingHelpers.is_room_available s room_id check_in check_out hotel_id
      && negb (BookingHelpers.overlaps room_id check_in check_out hotel_id
                 booking).
Proof.
  intros Hb room_id ci co hotel. unfold BookingHelpers.is_room_available.
  rewrite Hb, find_app.
  destruct (find _ (Store.bookings s)); [done|].
  simpl. by destruct (BookingHelpers.overlaps room_id ci co hotel booking).
Qed.

Section availability.
Context `{Py.Lib}.

(** The three outcomes of [create_booking], with what a created booking
    does to the availability of rooms. *)
Lemma create_booking_availability (sess : Session.t) (hotel_id : Z)
    (guest : Guest.t) (room : Room.t)
    (check_in_date check_out_date adults children : Z)
    (special_requests source : string) (user_id : option Z) (token : string) :
  match BookingSvc.BookingService.create_booking sess hotel_id guest room
          check_in_date check_out_date adults children special_requests
          source user_id token with
  | Py.Returned (sess', (Some booking, _)) =>
      let s := Session.working sess in
      let s' := Session.working sess' in
      check_in_date < check_out_date
      ∧ Store.bookings s' = (Store.bookings s ++ [booking])%list
      ∧ BookingHelpers.is_room_available s (Room.id room)
          check_in_date check_out_date hotel_id = true
      ∧ (∀ check_in check_out,
           check_in < check_out_date → check_in_date < check_out →
           BookingHelpers.is_room_available s' (Room.id room)
             check_in check_out hotel_id = false)
      ∧ (∀ check_in check_out,
           check_out_date ≤ check_in ∨ check_out ≤ check_in_date →
           BookingHelpers.is_room_available s' (Room.id room)
             check_in check_out hotel_id
           = BookingHelpers.is_room_available s (Room.id room)
               check_in check_out hotel_id)
      ∧ (∀ room_id hotel check_in check_out,
           room_id ≠ Room.id room ∨ hotel ≠ hotel_id →
           BookingHelpers.is_room_available s' room_id
             check_in check_out hotel
           = BookingHelpers.is_room_available s room_id
               check_in check_out hotel)
  | Py.Returned (sess', (None, _)) =>
      Store.bookings (Session.working sess')
      ∈ [Store.bookings (Session.working sess);
         Store.bookings (Session.committed sess)]
  | Py.Raised _ => Store.room_room_type (Session.working sess) room = None
  end.
Proof.
  unfold BookingSvc.BookingService.create_booking.
  case_decide as Hd; [by constructor|].
  fold (BookingHelpers.overlaps (Room.id room) check_in_date check_out_date
          hotel_id).
  destruct (find _ (Store.bookings (Session.working sess))) as [o|] eqn:Hov;
    [by constructor|].
  destruct (Store.room_room_type (Session.working sess) room) as [rt|];
    [|done].
  cbv zeta.
  destruct (BookingSvc.RoomStatusService.reserve_room room _ user_id)
    as [[] message]; cbn [negb]; [|by do 2 constructor].
  cbn [Session.working Session.with_working Store.bookings Store.with_invoices
       BookingSvc.AccountingIntegrationService.create_invoice
       Store.with_bookings fst].
  split; [lia|]. split; [done|].
  split; [unfold BookingHelpers.is_room_available; by rewrite Hov|].
  set (booking := {| Booking.id := _ |}).
  match goal with
  | |- context [BookingHelpers.is_room_available ?st _ _ _ _ = false] =>
      pose proof (is_room_available_snoc (Session.working sess) st booking
                    eq_refl) as Hafter
  end.
  split; [|split].
  - intros ci co H1 H2. rewrite Hafter.
    assert (BookingHelpers.overlaps (Room.id room) ci co hotel_id booking
            = true) as ->; [|by rewrite andb_false_r].
    unfold BookingHelpers.overlaps. simpl.
    rewrite !bool_decide_eq_true_2 by done. reflexivity.
  - intros ci co Hdis. rewrite Hafter.
    assert (BookingHelpers.overlaps (Room.id room) ci co hotel_id booking
            = false) as ->; [|by rewrite andb_true_r].
    unfold BookingHelpers.overlaps. simpl.
    destruct Hdis.
    + rewrite (bool_decide_eq_false_2 (ci < check_out_date)) by lia.
      by rewrite !andb_false_r.
    + rewrite (bool_decide_eq_false_2 (check_in_date < co)) by lia.
      by rewrite !andb_false_r.
  - intros room_id hotel ci co Hother. rewrite Hafter.
    assert (BookingHelpers.overlaps room_id ci co hotel booking = false)
      as ->; [|by rewrite andb_true_r].
    unfold BookingHelpers.overlaps. simpl.
    destruct Hother.
    + rewrite (bool_decide_eq_false_2 (Some (Room.id room) = Some room_id))
        by congruence. done.
    + rewrite (bool_decide_eq_false_2 (hotel_id = hotel)) by congruence.
      by rewrite !andb_false_r.
Qed.

(** X15.  Booking a room makes it unavailable.  When [create_booking]
    creates a booking, the room was available for the requested nights;
    afterwards it is unavailable for every range of nights that overlaps
    them, its availability for ranges that do not overlap is unchanged,
    and so is the availability of every other room. *)
Theorem create_booking_takes_the_room (sess sess' : Session.t) (hotel_id : Z)
    (guest : Guest.t) (room : Room.t)
    (check_in_date check_out_date adults children : Z)
    (special_requests source : string) (user_id : option Z) (token : string)
    (booking : Booking.t) (message : string) :
  BookingSvc.BookingService.create_booking sess hotel_id guest room
    check_in_date check_out_date adults children special_requests
    source user_id token
  = Py.Returned (sess', (Some booking, message)) →
  let s := Session.working sess in
  let s' := Session.working sess' in
  check_in_date < check_out_date
  ∧ Store.bookings s' = (Store.bookings s ++ [booking])%list
  ∧ BookingHelpers.is_room_available s (Room.id room)
      check_in_date check_out_date hotel_id = true
  ∧ (∀ check_in check_out,
       check_in < check_out_date → check_in_date < check_out →
       BookingHelpers.is_room_available s' (Room.id room)
         check_in check_out hotel_id = false)
  ∧ (∀ check_in check_out,
       check_out_date ≤ check_in ∨ check_out ≤ check_in_date →
       BookingHelpers.is_room_available s' (Room.id room)
         check_in check_out hotel_id
       = BookingHelpers.is_room_available s (Room.id room)
           check_in check_out hotel_id)
  ∧ (∀ room_id hotel check_in check_out,
       room_id ≠ Room.id room ∨ hotel ≠ hotel_id →
       BookingHelpers.is_room_available s' room_id
         check_in check_out hotel
       = BookingHelpers.is_room_available s room_id
           check_in check_out hotel).
Proof.
  intros Hrun.
  pose proof (create_booking_availability sess hotel_id guest room
                check_in_date check_out_date adults children
                special_requests source user_id token) as Hout.
  rewrite Hrun in Hout. exact Hout.
Qed.

(** X16.  What a created booking costs.  When [create_booking] creates a
    booking, the room has a room type and the booking is Reserved for the
    room at the base price of that type times the number of nights; one
    Unpaid invoice for the same amount is added for it.  Nothing is paid
    and the stored balance is 0, so the amount owed shows only once the
    balance is recomputed.  The room row keeps its status, and nothing is
    committed. *)
Theorem create_booking_prices_the_stay (sess sess' : Session.t) (hotel_id : Z)
    (guest : Guest.t) (room : Room.t)
    (check_in_date check_out_date adults children : Z)
    (special_requests source : string) (user_id : option Z) (token : string)
    (booking : Booking.t) (message : string) :
  BookingSvc.BookingService.create_booking sess hotel_id guest room
    check_in_date check_out_date adults children special_requests
    source user_id token
  = Py.Returned (sess', (Some booking, message)) →
  let s := Session.working sess in
  let s' := Session.working sess' in
  (∃ room_type,
     Store.room_room_type s room = Some room_type
     ∧ Booking.total_amount booking
       = (RoomType.base_price room_type
          * inject_Z (check_out_date - check_in_date))%Q)
  ∧ Booking.status booking = "Reserved"
  ∧ Booking.room_id booking = Some (Room.id room)
  ∧ (Booking.id booking ∉ map Booking.id (Store.bookings s))
  ∧ Booking.amount_paid booking = 0%Q
  ∧ Booking.balance booking = 0%Q
  ∧ (∃ invoice,
       Store.invoices s' = (Store.invoices s ++ [invoice])%list
       ∧ Invoice.booking_id invoice = Booking.id booking
       ∧ Invoice.total invoice = Booking.total_amount booking
       ∧ Invoice.status invoice = "Unpaid")
  ∧ Store.payments s' = Store.payments s
  ∧ Store.rooms s' = Store.rooms s
  ∧ Session.committed sess' = Session.committed sess.
Proof.
  unfold BookingSvc.BookingService.create_booking.
  case_decide as Hd; [done|].
  destruct (find _ (Store.bookings (Session.working sess))); [done|].
  destruct (Store.room_room_type (Session.working sess) room) as [rt|];
    [|done].
  cbv zeta.
  destruct (BookingSvc.RoomStatusService.reserve_room room _ user_id)
    as [[] why]; cbn [negb]; [|done].
  intros [= <- <- _]. simpl.
  split; [by exists rt|]. split; [done|]. split; [done|].
  split; [apply next_id_fresh|]. split; [done|]. split; [done|].
  split; [by eexists|]. done.
Qed.

End availability.

(** A hotel with one vacant room and no booking yet. *)
Definition vacant_hotel : Store.t :=
  Example.hotel 100000 [Example.room_of 101 "101" "Vacant"] [] [] [].

Lemma create_booking_takes_the_room_witness :
  ∃ sess' booking,
    let s := Session.working (Example.session_of vacant_hotel) in
    let s' := Session.working sess' in
    739010 < 739013
    ∧ Store.bookings s' = (Store.bookings s ++ [booking])%list
    ∧ BookingHelpers.is_room_available s 101 739010 739013 1 = true
    ∧ (∀ check_in check_out,
         check_in < 739013 → 739010 < check_out →
         BookingHelpers.is_room_available s' 101 check_in check_out 1 = false)
    ∧ (∀ check_in check_out,
         739013 ≤ check_in ∨ check_out ≤ 739010 →
         BookingHelpers.is_room_available s' 101 check_in check_out 1
         = BookingHelpers.is_room_available s 101 check_in check_out 1)
    ∧ (∀ room_id hotel check_in check_out,
         room_id ≠ 101 ∨ hotel ≠ 1 →
         BookingHelpers.is_room_available s' room_id check_in check_out hotel
         = BookingHelpers.is_room_available s room_id check_in check_out hotel).
Proof.
  eexists _, _.
  apply (create_booking_takes_the_room (H := Example.lib)
           (Example.session_of vacant_hotel) _ 1 walk_in
           (Example.room_of 101 "101" "Vacant") 739010 739013 2 0
           "" "front_desk" (Some 7) "A1B2C3" _ "Booking created successfully").
  reflexivity.
Defined.

Lemma create_booking_prices_the_stay_witness :
  ∃ sess' booking,
    let s := Session.working (Example.session_of vacant_hotel) in
    let s' := Session.working sess' in
    (∃ room_type,
       Store.room_room_type s (Example.room_of 101 "101" "Vacant")
       = Some room_type
       ∧ Booking.total_amount booking
         = (RoomType.base_price room_type * inject_Z (739013 - 739010))%Q)
    ∧ Booking.status booking = "Reserved"
    ∧ Booking.room_id booking = Some 101
    ∧ (Booking.id booking ∉ map Booking.id (Store.bookings s))
    ∧ Booking.amount_paid booking = 0%Q
    ∧ Booking.balance booking = 0%Q
    ∧ (∃ invoice,
         Store.invoices s' = (Store.invoices s ++ [invoice])%list
         ∧ Invoice.booking_id invoice = Booking.id booking
         ∧ Invoice.total invoice = Booking.total_amount booking
         ∧ Invoice.status invoice = "Unpaid")
    ∧ Store.payments s' = Store.payments s
    ∧ Store.rooms s' = Store.rooms s
    ∧ Session.committed sess'
      = Session.committed (Example.session_of vacant_hotel).
Proof.
  eexists _, _.
  apply (create_booking_prices_the_stay (H := Example.lib)
           (Example.session_of vacant_hotel) _ 1 walk_in
           (Example.room_of 101 "101" "Vacant") 739010 739013 2 0
           "" "front_desk" (Some 7) "A1B2C3" _ "Booking created successfully").
  reflexivity.
Defined.


Section availability_after.
Context `{Py.Lib}.


End availability_after.


(** ** Room status changes: the conflict checks *)

(** A Reserved booking of the room that starts within seven days and has
    not ended before today. *)
Definition upcoming_booking (env : Py.Env) (s : Store.t) (room : Room.t)
    : Prop :=
  ∃ b, b ∈ Store.bookings s
       ∧ Booking.room_id b = Some (Room.id room)
       ∧ Booking.status b = "Reserved"
       ∧ Booking.check_in_date b ≤ Py.today env + 7
       ∧ Py.today env ≤ Booking.check_out_date b.

(** A cleaning task of the room that is in progress. *)
Definition cleaning_in_progress (s : Store.t) (room : Room.t) : Prop :=
  ∃ t, t ∈ Store.housekeeping_tasks s
       ∧ HousekeepingTask.room_id t = Room.id room
       ∧ HousekeepingTask.status t = "in_progress".

(** A room service order of the room that is still open. *)
Definition open_room_service (s : Store.t) (room : Room.t) : Prop :=
  ∃ o, o ∈ Store.room_service_orders s
       ∧ RoomServiceOrder.room_id o = Some (Room.id room)
       ∧ RoomServiceOrder.status o
         ∈ ["pending"; "preparing"; "ready"; "out_for_delivery"].

(** A critical maintenance issue of the room that is reported or in
    progress. *)
Definition critical_issue (s : Store.t) (room : Room.t) : Prop :=
  ∃ m, m ∈ Store.maintenance_issues s
       ∧ MaintenanceIssue.room_id m = Some (Room.id room)
       ∧ MaintenanceIssue.status m ∈ ["reported"; "in_progress"]
       ∧ MaintenanceIssue.priority m = "critical".

Lemma find_is_some {A : Type} (P : A → bool) (l : list A) :
  is_Some (find P l) ↔ ∃ x, x ∈ l ∧ P x = true.
Proof.
  split.
  - intros [x Hf]. apply find_some_elem in Hf. eauto.
  - intros (x & Hx & HP). destruct (find P l) eqn:Hf; [eauto|].
    rewrite find_none_forall in Hf. rewrite Hf in HP; done.
Qed.

Lemma check_booking_conflicts_passes (env : Py.Env) (s : Store.t)
    (room : Room.t) (new_status : string) :
  (RoomService.RoomStatusValidator.check_booking_conflicts
     env s room new_status).1 = true
  ↔ ¬ (new_status = "Maintenance" ∧ upcoming_booking env s room).
Proof.
  unfold RoomService.RoomStatusValidator.check_booking_conflicts.
  case_decide as Hn; [|split; [by intros _ [? _]|done]].
  match goal with |- context [find ?P ?l] =>
    pose proof (find_is_some P l) as Hf; destruct (find P l) as [b|] end.
  - split; [done|]. intros Hno. exfalso. apply Hno. split; [done|].
    destruct Hf as [Hf _]. destruct Hf as (x & Hx & HP); [eauto|].
    repeat (apply andb_true_iff in HP as [HP ?]).
    repeat match goal with
           | Hb : bool_decide _ = true |- _ => apply bool_decide_eq_true in Hb
           end.
    by exists x.
  - split; [|done]. intros _ [_ (b & Hb & H1 & H2 & H3 & H4)].
    destruct Hf as [_ Hf]. destruct Hf as [? ?]; [|done].
    exists b. split; [done|]. by rewrite !bool_decide_eq_true_2.
Qed.

Lemma check_housekeeping_conflicts_passes (s : Store.t) (room : Room.t)
    (new_status : string) :
  (RoomService.RoomStatusValidator.check_housekeeping_conflicts
     s room new_status).1 = true
  ↔ ¬ (new_status = "Vacant" ∧ cleaning_in_progress s room).
Proof.
  unfold RoomService.RoomStatusValidator.check_housekeeping_conflicts.
  case_decide as Hn; [|split; [by intros _ [? _]|done]].
  match goal with |- context [find ?P ?l] =>
    pose proof (find_is_some P l) as Hf; destruct (find P l) as [b|] end.
  - split; [done|]. intros Hno. exfalso. apply Hno. split; [done|].
    destruct Hf as [Hf _]. destruct Hf as (x & Hx & HP); [eauto|].
    repeat (apply andb_true_iff in HP as [HP ?]).
    repeat match goal with
           | Hb : bool_decide _ = true |- _ => apply bool_decide_eq_true in Hb
           end.
    by exists x.
  - split; [|done]. intros _ [_ (b & Hb & H1 & H2)].
    destruct Hf as [_ Hf]. destruct Hf as [? ?]; [|done].
    exists b. split; [done|]. by rewrite !bool_decide_eq_true_2.
Qed.

Lemma check_room_service_conflicts_passes (s : Store.t) (room : Room.t)
    (new_status : string) :
  (RoomService.RoomStatusValidator.check_room_service_conflicts
     s room new_status).1 = true
  ↔ ¬ (new_status = "Vacant" ∧ open_room_service s room).
Proof.
  unfold RoomService.RoomStatusValidator.check_room_service_conflicts.
  case_decide as Hn; [|split; [by intros _ [? _]|done]].
  match goal with |- context [find ?P ?l] =>
    pose proof (find_is_some P l) as Hf; destruct (find P l) as [b|] end.
  - split; [done|]. intros Hno. exfalso. apply Hno. split; [done|].
    destruct Hf as [Hf _]. destruct Hf as (x & Hx & HP); [eauto|].
    apply andb_true_iff in HP as [HP Hc].
    apply bool_decide_eq_true in HP. apply contains_true in Hc.
    by exists x.
  - split; [|done]. intros _ [_ (b & Hb & H1 & H2)].
    destruct Hf as [_ Hf]. destruct Hf as [? ?]; [|done].
    exists b. split; [done|]. rewrite bool_decide_eq_true_2 by done.
    by apply contains_true.
Qed.

Lemma check_maintenance_conflicts_passes (s : Store.t) (room : Room.t)
    (new_status : string) :
  (RoomService.RoomStatusValidator.check_maintenance_conflicts
     s room new_status).1 = true
  ↔ ¬ (new_status ∈ ["Vacant"; "Occupied"] ∧ critical_issue s room).
Proof.
  unfold RoomService.RoomStatusValidator.check_maintenance_conflicts.
  destruct (Py.contains new_status ["Vacant"; "Occupied"]) eqn:Hn.
  2: { split; [|done]. intros _ [Hin _]. apply contains_true in Hin.
       congruence. }
  apply contains_true in Hn.
  match goal with |- context [find ?P ?l] =>
    pose proof (find_is_some P l) as Hf; destruct (find P l) as [b|] end.
  - split; [done|]. intros Hno. exfalso. apply Hno. split; [done|].
    destruct Hf as [Hf _]. destruct Hf as (x & Hx & HP); [eauto|].
    apply andb_true_iff in HP as [HP Hp].
    apply andb_true_iff in HP as [HP Hc].
    apply bool_decide_eq_true in HP, Hp. apply contains_true in Hc.
    by exists x.
  - split; [|done]. intros _ [_ (b & Hb & H1 & H2 & H3)].
    destruct Hf as [_ Hf]. destruct Hf as [? ?]; [|done].
    exists b. split; [done|]. rewrite !bool_decide_eq_true_2 by done.
    rewrite andb_true_r. by apply contains_true.
Qed.

(** The whole validation passes exactly when the edge is legal and no
    conflict check objects. *)
Lemma comprehensive_validate_passes (env : Py.Env) (s : Store.t)
    (room : Room.t) (new_status : string) :
  (RoomService.RoomStatusValidator.comprehensive_validate
     env s room new_status).1 = true
  ↔ legal_room_edge (Room.status room) new_status
    ∧ ¬ (new_status = "Maintenance" ∧ upcoming_booking env s room)
    ∧ ¬ (new_status = "Vacant"
         ∧ (cleaning_in_progress s room ∨ open_room_service s room))
    ∧ ¬ (new_status ∈ ["Vacant"; "Occupied"] ∧ critical_issue s room).
Proof.
  rewrite <- room_validator_accepts_exactly.
  rewrite <- (check_booking_conflicts_passes env s room new_status).
  rewrite <- (check_maintenance_conflicts_passes s room new_status).
  pose proof (check_housekeeping_conflicts_passes s room new_status) as Hh.
  pose proof (check_room_service_conflicts_passes s room new_status) as Hr.
  unfold RoomService.RoomStatusValidator.comprehensive_validate.
  destruct (RoomService.RoomStatusValidator.validate_transition _ _)
    as [[] ?]; simpl; [|by split; [|intros [? _]]].
  destruct (RoomService.RoomStatusValidator.check_booking_conflicts _ _ _ _)
    as [[] ?]; simpl; [|by split; [|intros (_ & ? & _)]].
  destruct (RoomService.RoomStatusValidator.check_housekeeping_conflicts _ _ _)
    as [[] ?]; simpl in *.
  2: { split; [done|]. intros (_ & _ & Hno & _). exfalso.
       destruct Hh as [_ Hh]. assert (false = true); [|done].
       apply Hh. intros [? ?]. apply Hno. by split; [|left]. }
  destruct (RoomService.RoomStatusValidator.check_room_service_conflicts _ _ _)
    as [[] ?]; simpl in *.
  2: { split; [done|]. intros (_ & _ & Hno & _). exfalso.
       destruct Hr as [_ Hr]. assert (false = true); [|done].
       apply Hr. intros [? ?]. apply Hno. by split; [|right]. }
  destruct (RoomService.RoomStatusValidator.check_maintenance_conflicts _ _ _)
    as [[] ?]; simpl; [|by split; [|intros (_ & _ & _ & ?)]].
  split; [|done]. intros _. split; [done|]. split; [done|]. split; [|done].
  intros [Hv [Hc|Ho]].
  - destruct Hh as [Hh _]. by apply Hh.
  - destruct Hr as [Hr _]. by apply Hr.
Qed.

Section room_change.
Context `{Py.Lib}.

(** X18.  [change_room_status] succeeds exactly when the edge is in the
    table and not blocked and none of the conflict checks objects: no
    Reserved booking of the room within seven days when the room is to go
    to Maintenance, no cleaning in progress and no open room service order
    when it is to become Vacant, no open critical maintenance issue when
    it is to become Vacant or Occupied.  A refused change leaves the store
    and the room as they were. *)
Theorem change_room_status_passes_every_check (env : Py.Env) (s : Store.t)
    (room : Room.t) (new_status reason : string) (user_id : option Z) :
  let '(s', room', (success, _)) :=
    RoomService.RoomManagementService.change_room_status
      env s room new_status reason user_id in
  (success = true
   ↔ legal_room_edge (Room.status room) new_status
     ∧ ¬ (new_status = "Maintenance" ∧ upcoming_booking env s room)
     ∧ ¬ (new_status = "Vacant"
          ∧ (cleaning_in_progress s room ∨ open_room_service s room))
     ∧ ¬ (new_status ∈ ["Vacant"; "Occupied"] ∧ critical_issue s room))
  ∧ (success = false → s' = s ∧ room' = room).
Proof.
  pose proof (comprehensive_validate_passes env s room new_status) as Hv.
  unfold RoomService.RoomManagementService.change_room_status.
  destruct (RoomService.RoomStatusValidator.comprehensive_validate
              env s room new_status) as [[] error]; simpl in *.
  - split; [|done]. done.
  - split; [|done]. done.
Qed.

End room_change.

(** ** Room status changes: what a change writes *)

Lemma with_notifications_same (s : Store.t) :
  Store.with_notifications (Store.notifications s) s = s.
Proof. by destruct s. Qed.


Section room_change_writes.
Context `{Py.Lib}.

(** The departments a change of status notifies, by the [type] of the
    notification each receives. *)
Definition notified (old_status new_status : string) : list string :=
  if decide (new_status = "Dirty") then ["housekeeping"]
  else if decide (new_status = "Maintenance") then ["operational"; "financial"]
  else if decide (new_status = "Vacant") then
    if decide (old_status = "Dirty") then ["housekeeping"; "operational"]
    else ["operational"]
  else [].

(** The user a notification is addressed to. *)
Definition addressee (s : Store.t) (room : Room.t) (user_id : option Z)
    : option Z :=
  if Py.truthy_id user_id then user_id
  else
    match find (λ u, bool_decide (User.hotel_id u = Some (Room.hotel_id room)))
               (Store.users s) with
    | Some first_user =>
        if bool_decide (User.id first_user ≠ 0) then Some (User.id first_user)
        else None
    | None => None
    end.

Lemma create_notification_adds (room : Room.t) (user_id : option Z)
    (s : Store.t) (d : RoomService.RoomNotificationService.notif_data) :
  let s' := RoomService.RoomNotificationService.create_notification
              room user_id s d in
  Store.with_notifications (Store.notifications s) s' = s
  ∧ Store.users s' = Store.users s
  ∧ match addressee s room user_id with
    | Some uid =>
        ∃ n, Store.notifications s' = (Store.notifications s ++ [n])%list
             ∧ Notification.user_id n = uid
             ∧ Notification.hotel_id n = Room.hotel_id room
             ∧ Notification.type n
               = RoomService.RoomNotificationService.type d
             ∧ Notification.title n
               = RoomService.RoomNotificationService.title d
    | None => s' = s
    end.
Proof.
  unfold RoomService.RoomNotificationService.create_notification, addressee.
  destruct (Py.truthy_id user_id) eqn:Ht.
  - destruct user_id as [uid|]; [|done]. rewrite Ht.
    split; [by destruct s|]. split; [done|]. by eexists.
  - destruct (find _ (Store.users s)) as [u|].
    + unfold Py.truthy_id. destruct (bool_decide (User.id u ≠ 0)).
      * split; [by destruct s|]. split; [done|]. by eexists.
      * split; [apply with_notifications_same|]. done.
    + destruct user_id as [uid|]; rewrite ?Ht;
        (split; [apply with_notifications_same|done]).
Qed.

Lemma addressee_ext (s s' : Store.t) (room : Room.t) (user_id : option Z) :
  Store.users s' = Store.users s →
  addressee s' room user_id = addressee s room user_id.
Proof. unfold addressee. by intros ->. Qed.

Lemma create_notifications_add (room : Room.t) (user_id : option Z)
    (ds : list RoomService.RoomNotificationService.notif_data) (s : Store.t) :
  let s' := fold_left
              (RoomService.RoomNotificationService.create_notification
                 room user_id) ds s in
  Store.with_notifications (Store.notifications s) s' = s
  ∧ Store.users s' = Store.users s
  ∧ match addressee s room user_id with
    | Some uid =>
        ∃ added, Store.notifications s' = (Store.notifications s ++ added)%list
                 ∧ Forall (λ n, Notification.user_id n = uid
                                ∧ Notification.hotel_id n = Room.hotel_id room)
                          added
                 ∧ map Notification.type added
                   = map RoomService.RoomNotificationService.type ds
                 ∧ map Notification.title added
                   = map RoomService.RoomNotificationService.title ds
    | None => s' = s
    end.
Proof.
  revert s. induction ds as [|d ds IH]; intros s; cbn [fold_left].
  - split; [apply with_notifications_same|]. split; [done|].
    destruct (addressee s room user_id); [|done].
    exists []. by rewrite app_nil_r.
  - pose proof (create_notification_adds room user_id s d) as (Hf & Hu & Hn).
    cbv zeta in Hf, Hu, Hn.
    set (s1 := RoomService.RoomNotificationService.create_notification
                 room user_id s d) in *.
    specialize (IH s1). cbv zeta in IH. destruct IH as (Hf' & Hu' & Hn').
    rewrite (addressee_ext s s1) in Hn' by done.
    cbv zeta. split.
    { rewrite <- Hf at 2. rewrite <- Hf' at 2. by destruct s1. }
    split; [congruence|].
    destruct (addressee s room user_id) as [uid|].
    + destruct Hn as (n & Hn & Hn1 & Hn2 & Hn3 & Hn4).
      destruct Hn' as (added & Hadd & Hall & Hty & Hti).
      exists (n :: added). rewrite Hadd, Hn, <- app_assoc.
      split; [done|]. split; [by constructor|]. simpl.
      by rewrite Hn3, Hn4, Hty, Hti.
    + by rewrite Hn', Hn.
Qed.

Lemma notification_types (s : Store.t) (room : Room.t)
    (old_status new_status reason : string) :
  map RoomService.RoomNotificationService.type
    (RoomService.RoomNotificationService.housekeeping_notifications
       room old_status new_status reason
     ++ RoomService.RoomNotificationService.front_desk_notifications
          room old_status new_status reason
     ++ RoomService.RoomNotificationService.management_notifications
          s room new_status)%list
  = notified old_status new_status.
Proof.
  unfold RoomService.RoomNotificationService.housekeeping_notifications,
    RoomService.RoomNotificationService.front_desk_notifications,
    RoomService.RoomNotificationService.management_notifications, notified.
  destruct (decide (new_status = "Dirty")) as [->|Hd]; [done|].
  destruct (decide (new_status = "Maintenance")) as [->|Hm].
  { rewrite decide_False by (by intros [? _]). done. }
  destruct (decide (new_status = "Vacant")) as [->|Hv].
  - destruct (decide (old_status = "Dirty")) as [->|Ho].
    + rewrite decide_True by done. rewrite decide_False by (by intros [_ ?]).
      done.
    + rewrite decide_False by (by intros [_ ?]).
      destruct (decide (_ ∧ old_status = "Maintenance")); done.
  - rewrite !decide_False by (by intros [? _]). done.
Qed.


(** X19.  [notify_status_change] touches only the notifications table.  It
    addresses every notification to the acting user, or when there is none
    (or the id is 0) to the first user of the room's hotel; with nobody to
    address it writes nothing.  Otherwise a room turned Dirty notifies
    housekeeping, one put in Maintenance notifies the front desk and
    management, one turned Vacant notifies the front desk, and housekeeping
    before it when the room was Dirty; every other change notifies
    nobody. *)
Theorem notify_status_change_notifies_by_new_status (s : Store.t)
    (room : Room.t) (old_status new_status reason : string)
    (user_id : option Z) :
  let s' := RoomService.RoomNotificationService.notify_status_change
              s room old_status new_status reason user_id in
  Store.with_notifications (Store.notifications s) s' = s
  ∧ match addressee s room user_id with
    | Some uid =>
        ∃ added, Store.notifications s' = (Store.notifications s ++ added)%list
                 ∧ Forall (λ n, Notification.user_id n = uid
                                ∧ Notification.hotel_id n = Room.hotel_id room)
                          added
                 ∧ map Notification.type added = notified old_status new_status
    | None => s' = s
    end.
Proof.
  unfold RoomService.RoomNotificationService.notify_status_change.
  cbv zeta.
  match goal with |- context [fold_left _ ?ds s] =>
    pose proof (create_notifications_add room user_id ds s) as (Hf & _ & Hn)
  end.
  cbv zeta in Hf, Hn. split; [exact Hf|].
  destruct (addressee s room user_id) as [uid|]; [|exact Hn].
  destruct Hn as (added & Hadd & Hall & Hty & _).
  exists added. split; [done|]. split; [done|].
  by rewrite Hty, notification_types.
Qed.

End room_change_writes.

Section room_change_effect.
Context `{Py.Lib}.






End room_change_effect.



(** ** The revenue a room out of order loses per day *)

(** [quantize_cents] picks a whole number of cents next to its argument:
    at most half a cent away, and the even neighbour on a tie. *)
Lemma quantize_cents_picks (x : Q) :
  ∃ n : Z, Py.quantize_cents x = (inject_Z n / 100)%Q
           ∧ (Qabs (inject_Z n / 100 - x) <= 1 # 200)%Q
           ∧ ((0 <= x)%Q → 0 ≤ n).
Proof.
  unfold Py.quantize_cents. cbv zeta.
  set (scaled := (x * 100)%Q). set (lo := Qfloor scaled).
  set (rest := (scaled - inject_Z lo)%Q).
  assert (inject_Z lo <= scaled)%Q as Hlo by apply Qfloor_le.
  assert (scaled < inject_Z lo + 1)%Q as Hhi.
  { pose proof (Qlt_floor scaled) as Hlt. fold lo in Hlt.
    by rewrite inject_Z_plus in Hlt. }
  assert ((0 <= x)%Q → 0 ≤ lo) as Hpos.
  { intros Hx. assert (0 <= scaled)%Q as Hs by (unfold scaled; lra).
    change 0 with (Qfloor 0). by apply Qfloor_resp_le. }
  assert (∀ n : Z, (- (1 # 2) <= inject_Z n - scaled <= 1 # 2)%Q →
                   (Qabs (inject_Z n / 100 - x) <= 1 # 200)%Q) as Hnear.
  { intros n Hn. apply Qabs_Qle_condition. unfold scaled in Hn.
    unfold Qdiv. change (/ 100)%Q with (1 # 100)%Q. split; lra. }
  assert (inject_Z (lo + 1) == inject_Z lo + 1)%Q as Hup
    by (by rewrite inject_Z_plus).
  destruct (rest ?= 1 # 2)%Q eqn:Hcmp.
  - apply Qeq_alt in Hcmp. unfold rest in Hcmp.
    destruct (Z.even lo).
    + exists lo. split; [done|]. split; [|done]. apply Hnear. lra.
    + exists (lo + 1). split; [done|]. split; [|intros; specialize (Hpos ltac:(done)); lia].
      apply Hnear. lra.
  - apply Qlt_alt in Hcmp. unfold rest in Hcmp.
    exists lo. split; [done|]. split; [|done]. apply Hnear. lra.
  - apply Qgt_alt in Hcmp. unfold rest in Hcmp.
    exists (lo + 1). split; [done|]. split; [|intros; specialize (Hpos ltac:(done)); lia].
    apply Hnear. lra.
Qed.

Section revenue_loss.
Context `{Py.Lib}.

(** X21.  The daily revenue loss of a room is 70% of the base price of its
    room type, rounded to a whole number of cents: it differs from the
    exact 70% by at most half a cent and is not negative when the price is
    not.  A room without a room type loses nothing. *)
Theorem daily_revenue_loss_is_seventy_percent_in_cents (s : Store.t)
    (room : Room.t) :
  let loss :=
    RoomService.RoomRevenueTracker.calculate_daily_revenue_loss s room in
  match Store.room_room_type s room with
  | None => loss = 0%Q
  | Some room_type =>
      ∃ cents : Z,
        loss = (inject_Z cents / 100)%Q
        ∧ (Qabs (loss - (7 # 10) * RoomType.base_price room_type) <= 1 # 200)%Q
        ∧ ((0 <= RoomType.base_price room_type)%Q → 0 ≤ cents)
  end.
Proof.
  unfold RoomService.RoomRevenueTracker.calculate_daily_revenue_loss.
  cbv zeta. destruct (Store.room_room_type s room) as [room_type|]; [|done].
  destruct (quantize_cents_picks (RoomType.base_price room_type * 0.7))
    as (n & -> & Hnear & Hpos).
  exists n. split; [done|]. split.
  - assert (RoomType.base_price room_type * 0.7
            == (7 # 10) * RoomType.base_price room_type)%Q as Heq by lra.
    by rewrite <- Heq.
  - intros Hp. apply Hpos. lra.
Qed.

End revenue_loss.

(** ** The business date after a night audit *)

Module RoutesHelpers.
Section with_lib.
Context `{Py.Lib}.

(** check_business_date_lock (app/hms/routes.py, the definition in the
    night audit part, which is the one bound when the views run).
    [hotel_id] is the hotel of the request. *)
Definition check_business_date_lock (env : Py.Env) (s : Store.t)
    (hotel_id : option Z) (transaction_date : option Z)
    : bool * option string :=
  if negb (Py.truthy_id hotel_id) then (false, None)
  else
  match hotel_id with
  | None => (false, None)
  | Some hotel_id =>
      let transaction_date :=
        match transaction_date with
        | None => Py.today env
        | Some transaction_date => transaction_date
        end in
      match find (λ d, bool_decide (BusinessDate.hotel_id d = hotel_id))
                 (Store.business_dates s) with
      | None => (false, None)
      | Some biz_date =>
          if BusinessDate.is_closed biz_date
             && bool_decide (BusinessDate.current_business_date biz_date
                             = transaction_date)
          then
            (true,
             Some ("Cannot process transaction - business day "
                   ++ Py.strftime transaction_date "%B %d, %Y"
                   ++ " is locked"))
          else (false, None)
      end
  end.

End with_lib.
End RoutesHelpers.

Section after_the_audit.
Context `{Py.Lib}.

Lemma charge_room_keeps_dates (env : Py.Env) (hotel_id : Z)
    (rev ar : ChartOfAccount.t) (acc : Store.t * Q * Z) (b : Booking.t) :
  Store.business_dates
    (Routes.charge_room env hotel_id rev ar acc b).1.1
  = Store.business_dates acc.1.1.
Proof.
  destruct acc as [[s rp] rc]. unfold Routes.charge_room.
  destruct (Store.booking_room s b); [|done].
  destruct (Store.room_room_type s _); [|done].
  destruct (Py.gt0 _); [|done].
  destruct (Store.booking_invoice s b); done.
Qed.

Lemma charge_rooms_keep_dates (env : Py.Env) (hotel_id : Z)
    (rev ar : ChartOfAccount.t) (bs : list Booking.t)
    (acc : Store.t * Q * Z) :
  Store.business_dates
    (fold_left (Routes.charge_room env hotel_id rev ar) bs acc).1.1
  = Store.business_dates acc.1.1.
Proof.
  revert acc. induction bs as [|b bs IH]; intros acc; [done|].
  cbn [fold_left]. rewrite IH. apply charge_room_keeps_dates.
Qed.

Lemma get_or_create_account_keeps_dates (s : Store.t) (hotel_id : Z)
    (name type : string) :
  Store.business_dates (Routes.get_or_create_account s hotel_id name type).1
  = Store.business_dates s.
Proof.
  unfold Routes.get_or_create_account.
  by destruct (Ledger.account_by_name s hotel_id name).
Qed.

Lemma post_room_revenue_keeps_dates (env : Py.Env) (s : Store.t)
    (hotel_id : Z) :
  Store.business_dates (Routes.post_room_revenue env s hotel_id).1.1
  = Store.business_dates s.
Proof.
  unfold Routes.post_room_revenue.
  pose proof (get_or_create_account_keeps_dates
                s hotel_id "Room Revenue" "Revenue") as H1.
  destruct (Routes.get_or_create_account s hotel_id "Room Revenue" "Revenue")
    as [s1 rev]. simpl in H1.
  pose proof (get_or_create_account_keeps_dates
                s1 hotel_id "Accounts Receivable" "Asset") as H2.
  destruct (Routes.get_or_create_account s1 hotel_id _ _) as [s2 ar].
  simpl in H2. rewrite charge_rooms_keep_dates. simpl. congruence.
Qed.

(** Whatever a run finds, it leaves the hotel's date closed, with nothing
    pending in the session; a run on an open date leaves it on the day
    after the run. *)
Lemma run_night_audit_closes (env : Py.Env) (sess : Session.t)
    (hotel_id current_user_id : Z) :
  hotel_id ≠ 0 →
  let sess' :=
    (Routes.run_night_audit env sess (Some hotel_id) current_user_id).1 in
  Session.working sess' = Session.committed sess'
  ∧ ∃ d, business_date_of (Session.committed sess') hotel_id = Some d
         ∧ BusinessDate.is_closed d = true
         ∧ ((∀ d0, business_date_of (Session.working sess) hotel_id = Some d0 →
                   BusinessDate.is_closed d0 = false) →
            BusinessDate.current_business_date d = Py.today env + 1).
Proof.
  intros Hh. unfold Routes.run_night_audit, Py.truthy_id.
  rewrite bool_decide_eq_true_2 by done. cbn [negb].
  unfold Routes.start_audit_log.
  set (s1 := Store.with_night_audit_logs _ (Session.working sess)).
  destruct (get_or_create_business_date_row env s1 hotel_id)
    as (more & biz & -> & Hfound & Hclosed).
  set (s2 := Store.with_business_dates _ s1) in *.
  destruct (BusinessDate.is_closed biz) eqn:Hbiz.
  - cbv zeta. split; [done|]. exists biz. split; [exact Hfound|].
    split; [done|]. intros Hopen. specialize (Hclosed eq_refl).
    apply Hopen in Hclosed. congruence.
  - pose proof (post_room_revenue_keeps_dates env s2 hotel_id) as Hdates.
    destruct (Routes.post_room_revenue env s2 hotel_id) as [[s3 rp] rc].
    simpl in Hdates. cbv zeta. split; [done|].
    exists (Routes.close_day env biz).
    apply find_some_elem in Hfound as Hbiz_hotel.
    destruct Hbiz_hotel as [_ Hbiz_hotel].
    apply bool_decide_eq_true in Hbiz_hotel.
    split; [|done].
    unfold business_date_of. simpl. rewrite Hdates.
    by apply (business_date_after_put _ hotel_id biz).
Qed.

(** A run that finds the date closed. *)
Lemma run_night_audit_refused (env : Py.Env) (sess : Session.t)
    (hotel_id current_user_id : Z) (d : BusinessDate.t) :
  hotel_id ≠ 0 →
  business_date_of (Session.working sess) hotel_id = Some d →
  BusinessDate.is_closed d = true →
  let '(sess', answer) :=
    Routes.run_night_audit env sess (Some hotel_id) current_user_id in
  answer = already_closed
  ∧ Store.with_night_audit_logs
      (Store.night_audit_logs (Session.working sess)) (Session.committed sess')
    = Session.working sess.
Proof.
  intros Hh Hd Hclosed. unfold Routes.run_night_audit.
  unfold Py.truthy_id. rewrite bool_decide_eq_true_2 by done.
  unfold Routes.start_audit_log, Routes.get_or_create_business_date.
  cbn [negb Store.business_dates Store.with_night_audit_logs].
  unfold business_date_of in Hd. rewrite Hd. rewrite Hclosed. simpl.
  split; [reflexivity|]. by destruct (Session.working sess).
Qed.

(** X22.  The night audit of a hotel runs once.  Whatever the first run
    finds, it leaves the business date of the hotel closed, and every
    later run for the hotel, on any day and by any user, gets the
    already-closed answer and changes nothing but the audit log: no run
    reopens the date. *)
Theorem night_audit_runs_once (env env' : Py.Env) (sess : Session.t)
    (hotel_id current_user_id later_user_id : Z) :
  hotel_id ≠ 0 →
  let sess1 :=
    (Routes.run_night_audit env sess (Some hotel_id) current_user_id).1 in
  let '(sess2, answer) :=
    Routes.run_night_audit env' sess1 (Some hotel_id) later_user_id in
  (∃ d, business_date_of (Session.committed sess1) hotel_id = Some d
        ∧ BusinessDate.is_closed d = true)
  ∧ answer = already_closed
  ∧ Store.with_night_audit_logs
      (Store.night_audit_logs (Session.committed sess1))
      (Session.committed sess2)
    = Session.committed sess1
  ∧ business_date_of (Session.committed sess2) hotel_id
    = business_date_of (Session.committed sess1) hotel_id.
Proof.
  intros Hh sess1.
  destruct (run_night_audit_closes env sess hotel_id current_user_id Hh)
    as (Hw & d & Hd & Hclosed & _).
  fold sess1 in Hw, Hd.
  pose proof (run_night_audit_refused env' sess1 hotel_id later_user_id d Hh)
    as Hrefused.
  rewrite Hw in Hrefused. specialize (Hrefused Hd Hclosed).
  destruct (Routes.run_night_audit env' sess1 (Some hotel_id) later_user_id)
    as [sess2 answer].
  destruct Hrefused as [-> Hsame].
  split; [by exists d|]. split; [done|]. split; [done|].
  apply (f_equal Store.business_dates) in Hsame. simpl in Hsame.
  unfold business_date_of. by rewrite Hsame.
Qed.

(** X23.  After a night audit on an open date, the lock that guards the
    booking and payment views is on for exactly one calendar day, the day
    after the run: a transaction dated by the clock is refused on that day
    and on no other, the day of the run included. *)
Theorem night_audit_locks_the_next_day (env env' : Py.Env) (sess : Session.t)
    (hotel_id current_user_id : Z) :
  hotel_id ≠ 0 →
  (∀ d, business_date_of (Session.working sess) hotel_id = Some d →
        BusinessDate.is_closed d = false) →
  let s' :=
    Session.committed
      (Routes.run_night_audit env sess (Some hotel_id) current_user_id).1 in
  (RoutesHelpers.check_business_date_lock env' s' (Some hotel_id) None).1
  = true
  ↔ Py.today env' = Py.today env + 1.
Proof.
  intros Hh Hopen s'.
  destruct (run_night_audit_closes env sess hotel_id current_user_id Hh)
    as (_ & d & Hd & Hclosed & Hday).
  fold s' in Hd. specialize (Hday Hopen).
  unfold RoutesHelpers.check_business_date_lock, Py.truthy_id.
  rewrite bool_decide_eq_true_2 by done. cbn [negb].
  unfold business_date_of in Hd. rewrite Hd, Hclosed, Hday. cbn [andb].
  case_bool_decide; simpl; split; intros; first [done | lia].
Qed.

End after_the_audit.

Lemma night_audit_runs_once_witness :
  let sess1 :=
    (Routes.run_night_audit (H := Example.lib) Example.env
       (Example.session_of in_house_hotel) (Some 1) 7).1 in
  let '(sess2, answer) :=
    Routes.run_night_audit (H := Example.lib) Example.env sess1 (Some 1) 8 in
  (∃ d, business_date_of (Session.committed sess1) 1 = Some d
        ∧ BusinessDate.is_closed d = true)
  ∧ answer = already_closed
  ∧ Store.with_night_audit_logs
      (Store.night_audit_logs (Session.committed sess1))
      (Session.committed sess2)
    = Session.committed sess1
  ∧ business_date_of (Session.committed sess2) 1
    = business_date_of (Session.committed sess1) 1.
Proof.
  apply (night_audit_runs_once (H := Example.lib) Example.env Example.env
           (Example.session_of in_house_hotel) 1 7 8).
  lia.
Defined.

Lemma night_audit_locks_the_next_day_witness :
  let s' :=
    Session.committed
      (Routes.run_night_audit (H := Example.lib) Example.env
         (Example.session_of in_house_hotel) (Some 1) 7).1 in
  (RoutesHelpers.check_business_date_lock (H := Example.lib) Example.env s'
     (Some 1) None).1 = true
  ↔ Py.today Example.env = Py.today Example.env + 1.
Proof.
  apply (night_audit_locks_the_next_day (H := Example.lib) Example.env
           Example.env (Example.session_of in_house_hotel) 1 7).
  - lia.
  - intros d Hd. vm_compute in Hd. injection Hd as <-. reflexivity.
Defined.

(** ** The record a night audit leaves of itself *)

Section audit_log.
Context `{Py.Lib}.






End audit_log.


(** ** The checkout processor of housekeeping *)

(** X25.  [process_checkout] fails on a missing room; on a room it always
    opens the high-priority checkout cleaning task, whatever the status of
    the room.  The room is moved to Dirty, with one history row, when it
    was Vacant, Occupied, Reserved or in Maintenance; a room that is Dirty
    already, or in an unknown status, is left as it was and still gets the
    task. *)
Theorem process_checkout_always_opens_a_task (s : Store.t) (room : Room.t)
    (user_id : option Z) :
  Housekeeping.CheckoutProcessor.process_checkout s None user_id
  = Py.Raised Housekeeping.CheckoutProcessor.none_has_no_status
  ∧ ∃ s',
      Housekeeping.CheckoutProcessor.process_checkout s (Some room) user_id
      = Py.Returned (s', checkout_task s room)
      ∧ Store.housekeeping_tasks s'
        = (Store.housekeeping_tasks s ++ [checkout_task s room])%list
      ∧ let movable :=
          Room.status room ∈ ["Vacant"; "Occupied"; "Reserved"; "Maintenance"] in
        (movable →
         Store.rooms s'
         = Store.put Room.id (Room.with_status "Dirty" room) (Store.rooms s)
         ∧ Store.room_status_history s'
           = (Store.room_status_history s
              ++ [history_row s room (Room.status room) "Dirty"])%list)
        ∧ (¬ movable →
           Store.rooms s' = Store.rooms s
           ∧ Store.room_status_history s' = Store.room_status_history s).
Proof.
  split; [done|].
  unfold Housekeeping.CheckoutProcessor.process_checkout.
  assert ((Room.status room, "Dirty") ∈ housekeeping_edges
          ↔ Room.status room ∈ ["Vacant"; "Occupied"; "Reserved"; "Maintenance"])
    as Hmov.
  { unfold housekeeping_edges. set_unfold.
    split; intros Hin; destruct_or!; simplify_eq; try rewrite Hin;
      one_of. }
  destruct (Housekeeping.RoomStatusManager.validate_transition
              (Room.status room) "Dirty").1 eqn:Hv.
  - rewrite (change_status_accepted s room "Dirty" _ _ Hv).
    eexists. split; [reflexivity|]. split; [done|]. cbv zeta.
    split; [done|]. intros Hn. destruct Hn.
    by apply Hmov, status_manager_accepts_exactly.
  - rewrite (change_status_refused s room "Dirty" _ _ Hv).
    eexists. split; [reflexivity|]. split; [done|]. cbv zeta.
    split; [|done]. intros Hm.
    apply Hmov, status_manager_accepts_exactly in Hm. congruence.
Qed.
